(** * Router-side WAMP session core: [crossbar/router/session.py]

    A shallow embedding of the class [RouterSession] and proofs about its
    handshake, goodbye and close handling.

    Conventions of the embedding.

    - A Python attribute that holds [None] or a value is an [option].
      An attribute that may be absent altogether (tested with [hasattr])
      is an [Attr]: [None] is "no such attribute".
    - Session ids are the results of [autobahn.util.id()], drawn from
      [1, 2^53]; they are [positive], so that the truth value of an id
      in [if self._session_id:] is the same as [is not None].
    - Dictionaries are [gmap string _], by value: that [welcome]
      writes its four keys into the very dictionary an [Accept]
      carries is not modelled, and no statement depends on it.
    - Every method is a computation in the monad [M]: it threads the
      [World] (the session object and the collaborators it mutates),
      may raise an [Exn], and writes the calls it makes on its
      collaborators (transport, router, service session, cookie store)
      to a trace of [Event]s.
    - A method whose result is a future ([txaio.as_future]) is split in
      the part that runs when the message arrives and the callback that
      runs when the future resolves, so that other handlers can run in
      between. *)

From Stdlib Require Import ZArith Ascii String List Bool.
From stdpp Require Import base option list strings gmap.

Local Open Scope string_scope.

(** ** Values *)

(** The values of type [Any] that the session stores or passes on;
    [AObj] is any other object, by reference. *)
Inductive Any : Type :=
| ANone
| ABool (b : bool)
| AInt (z : Z)
| AStr (s : string)
| AObj (ref : nat).

Abbreviation Dict := (gmap string Any).

Definition Id := positive.

Definition Attr (A : Type) := option A.

(** [x if x is not None else None] injected in [Any]. *)
Definition any_str (o : option string) : Any :=
  match o with Some s => AStr s | None => ANone end.

Definition any_id (o : option Id) : Any :=
  match o with Some i => AInt (Z.pos i) | None => ANone end.

(** Truth value of an [Optional[str]]: [None] and [''] are false. *)
Definition truthy_str (o : option string) : bool :=
  match o with
  | Some s => negb (String.eqb s EmptyString)
  | None => false
  end.

(** [x in xs] for a list of strings. *)
Definition str_in (x : string) (xs : list string) : bool :=
  existsb (String.eqb x) xs.

(** [x in xs] where [x] may be [None]: [None] is no element of a list of
    strings. *)
Definition opt_in (x : option string) (xs : list string) : bool :=
  match x with Some s => str_in s xs | None => false end.

(** [x == 'lit'] where [x] may be [None]. *)
Definition opt_eqb (x : option string) (lit : string) : bool :=
  match x with Some s => String.eqb s lit | None => false end.

(** [x is not None] *)
Definition is_set {A : Type} (o : option A) : bool :=
  match o with Some _ => true | None => false end.

(** [not d] for a dictionary. *)
Definition dict_is_empty {V : Type} (d : gmap string V) : bool :=
  match map_to_list d with [] => true | _ :: _ => false end.

(** [repr] of a list of strings, as [str.format] prints it. *)
Definition repr_list (xs : list string) : string :=
  "[" ++ String.concat ", " (map (fun s => "'" ++ s ++ "'") xs) ++ "]".

(** ** Exceptions *)

Inductive Exn : Type :=
| AttributeError (attr : string)
| KeyError (key : option string)
| AssertionError
| LogicError (msg : string)
| NotAttached
| SessionNotReady (msg : string).

(** [str(e)], as used in the messages of internal-error denials. *)
Definition exn_str (e : Exn) : string :=
  match e with
  | AttributeError a => "'NoneType' object has no attribute '" ++ a ++ "'"
  | KeyError (Some k) => "'" ++ k ++ "'"
  | KeyError None => "None"
  | AssertionError => EmptyString
  | LogicError m => m
  | NotAttached => EmptyString
  | SessionNotReady m => m
  end.

(** ** Transports *)

Record TransportDetails : Type := {
  channel_type : string;
  channel_framing : string;
  channel_serializer : string;
  http_headers_received : gmap string string
}.

(** [self._transport.factory._config]; [auth] is [.get('auth', None)]. *)
Record TransportConfig : Type := {
  auth : option (gmap string Any)
}.

(** The empty configuration [{}]. *)
Definition no_config : TransportConfig := {| auth := None |}.

(** A transport object, as far as the session reads or writes it.
    [ident] is the identity of the object ([proto != self._transport]). *)
Record Transport : Type := {
  ident : nat;
  peer : string;
  transport_details : TransportDetails;
  factory_config : Attr TransportConfig;
  serializer_stats : Dict;
  t_authid : option string;
  t_authrole : option string;
  t_authmethod : option string;
  t_authprovider : option string;
  t_authextra : option Dict;
  t_authrealm : Attr (option string);
  t_cbtid : Attr (option string)
}.

(** [hasattr(t, a) and t.a] *)
Definition attr_truthy (a : Attr (option string)) : bool :=
  match a with Some v => truthy_str v | None => false end.

(** The assignments of the revocation in [onHello]:
    [_authmethod = None; _authrealm = None; _authid = None]. *)
Definition revoke_transport_auth (t : Transport) : Transport :=
  {| ident := ident t;
     peer := peer t;
     transport_details := transport_details t;
     factory_config := factory_config t;
     serializer_stats := serializer_stats t;
     t_authid := None;
     t_authrole := t_authrole t;
     t_authmethod := None;
     t_authprovider := t_authprovider t;
     t_authextra := t_authextra t;
     t_authrealm := Some None;
     t_cbtid := t_cbtid t |}.

(** ** Messages *)

(** Inbound messages.  Every kind the session does not look into is
    [Other], with its class name. *)
Inductive Msg : Type :=
| Hello (realm : option string) (roles : Any)
        (authmethods : option (list string))
        (authid authrole : option string) (authextra : option Dict)
| Authenticate (signature : string)
| Abort (reason : string) (message : option string)
| Goodbye (reason : string) (message : option string)
| Other (kind : string).

(** The frames the session itself hands to [self._transport.send].
    A reason of [None] in [FGoodbye] is the default of the constructor
    [message.Goodbye()]. *)
Inductive Frame : Type :=
| FWelcome (session : option Id) (roles : Any)
           (realm authid authrole authmethod authprovider : option string)
           (authextra : Dict) (custom : Dict)
| FChallenge (method : string) (extra : option Dict)
| FAbort (reason : option string) (message : option string)
| FGoodbye (reason : option string) (message : option string).

Record HelloDetails : Type := {
  hd_realm : option string;
  hd_authmethods : option (list string);
  hd_authid : option string;
  hd_authrole : option string;
  hd_authextra : option Dict;
  hd_session_roles : Any;
  hd_pending_session : option Id
}.

Record SessionDetails : Type := {
  sd_realm : option string;
  sd_session : option Id;
  sd_authid : option string;
  sd_authrole : option string;
  sd_authmethod : option string;
  sd_authprovider : option string;
  sd_authextra : Dict;
  sd_serializer : string;
  sd_resumed : bool;
  sd_resumable : bool;
  sd_resume_token : option string;
  sd_transport : TransportDetails
}.

Record CloseDetails : Type := {
  cd_reason : option string;
  cd_message : option string
}.

(** ** Authentication results *)

(** [Accept], [Challenge] and [Deny] of [autobahn.wamp.types].  A [Deny]
    built without a reason has the reason [None]: the constructor's
    default applies. *)
Inductive Disposition : Type :=
| Accept (realm authid authrole authmethod authprovider : option string)
         (authextra : option Dict)
| Challenge (method : string) (extra : option Dict)
| Deny (reason : option string) (message : option string).

Definition NO_SUCH_ROLE : string := "wamp.error.no_such_role".
Definition NO_SUCH_REALM : string := "wamp.error.no_such_realm".
Definition NO_AUTH_METHOD : string := "wamp.error.no_auth_method".

(** What a future resolves to: a value for the success callback or a
    failure for the error callback. *)
Inductive Future : Type :=
| FutValue (d : Disposition)
| FutFailure (err : string).

(** The classes of pending authentications. *)
Inductive PAClass : Type :=
| PendingAuthAnonymous
| PendingAuthAnonymousProxy
| PendingAuthTicket
| PendingAuthWampCra
| PendingAuthTLS
| PendingAuthCryptosign
| PendingAuthCryptosignProxy
| PendingAuthScram
| PendingAuthExtra (name : string).

(** An instance: the class and the four constructor arguments (the
    worker handle is the same for all and left out). *)
Inductive PAConfig : Type :=
| StaticAnonymous (authid : string)
    (* [{'type': 'static', 'authrole': 'anonymous', 'authid': authid}] *)
| Configured (c : Any).
    (* [auth_config[authmethod]] *)

Record PendingAuth : Type := {
  pa_class : PAClass;
  pa_pending_session_id : Id;
  pa_transport_details : TransportDetails;
  pa_config : PAConfig
}.

(** A call of [hello] or [authenticate] on a pending authentication
    raises, or returns a value or a future. *)
Inductive PAResult : Type :=
| PARaise (e : Exn)
| PAReturn (f : Future).

(** ** The session object

    The attributes of a [RouterSession].  [_router] and
    [_service_session] are references: the name of the realm whose
    router, respectively whose service session, is meant.  The two
    lists of [self._testaments] are two fields.  The three [_stats_*]
    attributes exist only once [onJoin] has assigned them. *)
Record Session : Type := {
  _transport : option Transport;
  _transport_config : TransportConfig;
  _router : option string;
  _realm : option string;
  _session_id : option Id;
  _pending_session_id : option Id;
  _previous_session_id : option Id;
  _session_roles : Any;
  _session_details : option SessionDetails;
  _pending_auth : option PendingAuth;
  _authid : option string;
  _authrole : option string;
  _authmethod : option string;
  _authprovider : option string;
  _authextra : option Dict;
  _service_session : option string;
  _testaments_destroyed : list Msg;
  _testaments_detached : list Msg;
  _goodbye_sent : bool;
  _transport_is_closing : bool;
  _stats_enabled : Attr bool;
  _stats_trigger_on_leave : Attr bool;
  _stats_has_triggered_first : Attr bool
}.

(** One setter per attribute the methods assign. *)

Definition set_transport (v : option Transport) (s : Session) : Session :=
  {| _transport := v; _transport_config := _transport_config s;
     _router := _router s; _realm := _realm s;
     _session_id := _session_id s;
     _pending_session_id := _pending_session_id s;
     _previous_session_id := _previous_session_id s;
     _session_roles := _session_roles s;
     _session_details := _session_details s;
     _pending_auth := _pending_auth s; _authid := _authid s;
     _authrole := _authrole s; _authmethod := _authmethod s;
     _authprovider := _authprovider s; _authextra := _authextra s;
     _service_session := _service_session s;
     _testaments_destroyed := _testaments_destroyed s;
     _testaments_detached := _testaments_detached s;
     _goodbye_sent := _goodbye_sent s;
     _transport_is_closing := _transport_is_closing s;
     _stats_enabled := _stats_enabled s;
     _stats_trigger_on_leave := _stats_trigger_on_leave s;
     _stats_has_triggered_first := _stats_has_triggered_first s |}.

Definition set_transport_config (v : TransportConfig) (s : Session) : Session :=
  {| _transport := _transport s; _transport_config := v;
     _router := _router s; _realm := _realm s;
     _session_id := _session_id s;
     _pending_session_id := _pending_session_id s;
     _previous_session_id := _previous_session_id s;
     _session_roles := _session_roles s;
     _session_details := _session_details s;
     _pending_auth := _pending_auth s; _authid := _authid s;
     _authrole := _authrole s; _authmethod := _authmethod s;
     _authprovider := _authprovider s; _authextra := _authextra s;
     _service_session := _service_session s;
     _testaments_destroyed := _testaments_destroyed s;
     _testaments_detached := _testaments_detached s;
     _goodbye_sent := _goodbye_sent s;
     _transport_is_closing := _transport_is_closing s;
     _stats_enabled := _stats_enabled s;
     _stats_trigger_on_leave := _stats_trigger_on_leave s;
     _stats_has_triggered_first := _stats_has_triggered_first s |}.

Definition set_router (v : option string) (s : Session) : Session :=
  {| _transport := _transport s; _transport_config := _transport_config s;
     _router := v; _realm := _realm s; _session_id := _session_id s;
     _pending_session_id := _pending_session_id s;
     _previous_session_id := _previous_session_id s;
     _session_roles := _session_roles s;
     _session_details := _session_details s;
     _pending_auth := _pending_auth s; _authid := _authid s;
     _authrole := _authrole s; _authmethod := _authmethod s;
     _authprovider := _authprovider s; _authextra := _authextra s;
     _service_session := _service_session s;
     _testaments_destroyed := _testaments_destroyed s;
     _testaments_detached := _testaments_detached s;
     _goodbye_sent := _goodbye_sent s;
     _transport_is_closing := _transport_is_closing s;
     _stats_enabled := _stats_enabled s;
     _stats_trigger_on_leave := _stats_trigger_on_leave s;
     _stats_has_triggered_first := _stats_has_triggered_first s |}.

Definition set_realm (v : option string) (s : Session) : Session :=
  {| _transport := _transport s; _transport_config := _transport_config s;
     _router := _router s; _realm := v; _session_id := _session_id s;
     _pending_session_id := _pending_session_id s;
     _previous_session_id := _previous_session_id s;
     _session_roles := _session_roles s;
     _session_details := _session_details s;
     _pending_auth := _pending_auth s; _authid := _authid s;
     _authrole := _authrole s; _authmethod := _authmethod s;
     _authprovider := _authprovider s; _authextra := _authextra s;
     _service_session := _service_session s;
     _testaments_destroyed := _testaments_destroyed s;
     _testaments_detached := _testaments_detached s;
     _goodbye_sent := _goodbye_sent s;
     _transport_is_closing := _transport_is_closing s;
     _stats_enabled := _stats_enabled s;
     _stats_trigger_on_leave := _stats_trigger_on_leave s;
     _stats_has_triggered_first := _stats_has_triggered_first s |}.

Definition set_session_id (v : option Id) (s : Session) : Session :=
  {| _transport := _transport s; _transport_config := _transport_config s;
     _router := _router s; _realm := _realm s; _session_id := v;
     _pending_session_id := _pending_session_id s;
     _previous_session_id := _previous_session_id s;
     _session_roles := _session_roles s;
     _session_details := _session_details s;
     _pending_auth := _pending_auth s; _authid := _authid s;
     _authrole := _authrole s; _authmethod := _authmethod s;
     _authprovider := _authprovider s; _authextra := _authextra s;
     _service_session := _service_session s;
     _testaments_destroyed := _testaments_destroyed s;
     _testaments_detached := _testaments_detached s;
     _goodbye_sent := _goodbye_sent s;
     _transport_is_closing := _transport_is_closing s;
     _stats_enabled := _stats_enabled s;
     _stats_trigger_on_leave := _stats_trigger_on_leave s;
     _stats_has_triggered_first := _stats_has_triggered_first s |}.

Definition set_pending_session_id (v : option Id) (s : Session) : Session :=
  {| _transport := _transport s; _transport_config := _transport_config s;
     _router := _router s; _realm := _realm s;
     _session_id := _session_id s; _pending_session_id := v;
     _previous_session_id := _previous_session_id s;
     _session_roles := _session_roles s;
     _session_details := _session_details s;
     _pending_auth := _pending_auth s; _authid := _authid s;
     _authrole := _authrole s; _authmethod := _authmethod s;
     _authprovider := _authprovider s; _authextra := _authextra s;
     _service_session := _service_session s;
     _testaments_destroyed := _testaments_destroyed s;
     _testaments_detached := _testaments_detached s;
     _goodbye_sent := _goodbye_sent s;
     _transport_is_closing := _transport_is_closing s;
     _stats_enabled := _stats_enabled s;
     _stats_trigger_on_leave := _stats_trigger_on_leave s;
     _stats_has_triggered_first := _stats_has_triggered_first s |}.

Definition set_previous_session_id (v : option Id) (s : Session) : Session :=
  {| _transport := _transport s; _transport_config := _transport_config s;
     _router := _router s; _realm := _realm s;
     _session_id := _session_id s;
     _pending_session_id := _pending_session_id s;
     _previous_session_id := v; _session_roles := _session_roles s;
     _session_details := _session_details s;
     _pending_auth := _pending_auth s; _authid := _authid s;
     _authrole := _authrole s; _authmethod := _authmethod s;
     _authprovider := _authprovider s; _authextra := _authextra s;
     _service_session := _service_session s;
     _testaments_destroyed := _testaments_destroyed s;
     _testaments_detached := _testaments_detached s;
     _goodbye_sent := _goodbye_sent s;
     _transport_is_closing := _transport_is_closing s;
     _stats_enabled := _stats_enabled s;
     _stats_trigger_on_leave := _stats_trigger_on_leave s;
     _stats_has_triggered_first := _stats_has_triggered_first s |}.

Definition set_session_roles (v : Any) (s : Session) : Session :=
  {| _transport := _transport s; _transport_config := _transport_config s;
     _router := _router s; _realm := _realm s;
     _session_id := _session_id s;
     _pending_session_id := _pending_session_id s;
     _previous_session_id := _previous_session_id s; _session_roles := v;
     _session_details := _session_details s;
     _pending_auth := _pending_auth s; _authid := _authid s;
     _authrole := _authrole s; _authmethod := _authmethod s;
     _authprovider := _authprovider s; _authextra := _authextra s;
     _service_session := _service_session s;
     _testaments_destroyed := _testaments_destroyed s;
     _testaments_detached := _testaments_detached s;
     _goodbye_sent := _goodbye_sent s;
     _transport_is_closing := _transport_is_closing s;
     _stats_enabled := _stats_enabled s;
     _stats_trigger_on_leave := _stats_trigger_on_leave s;
     _stats_has_triggered_first := _stats_has_triggered_first s |}.

Definition set_session_details (v : option SessionDetails) (s : Session) : Session :=
  {| _transport := _transport s; _transport_config := _transport_config s;
     _router := _router s; _realm := _realm s;
     _session_id := _session_id s;
     _pending_session_id := _pending_session_id s;
     _previous_session_id := _previous_session_id s;
     _session_roles := _session_roles s; _session_details := v;
     _pending_auth := _pending_auth s; _authid := _authid s;
     _authrole := _authrole s; _authmethod := _authmethod s;
     _authprovider := _authprovider s; _authextra := _authextra s;
     _service_session := _service_session s;
     _testaments_destroyed := _testaments_destroyed s;
     _testaments_detached := _testaments_detached s;
     _goodbye_sent := _goodbye_sent s;
     _transport_is_closing := _transport_is_closing s;
     _stats_enabled := _stats_enabled s;
     _stats_trigger_on_leave := _stats_trigger_on_leave s;
     _stats_has_triggered_first := _stats_has_triggered_first s |}.

Definition set_pending_auth (v : option PendingAuth) (s : Session) : Session :=
  {| _transport := _transport s; _transport_config := _transport_config s;
     _router := _router s; _realm := _realm s;
     _session_id := _session_id s;
     _pending_session_id := _pending_session_id s;
     _previous_session_id := _previous_session_id s;
     _session_roles := _session_roles s;
     _session_details := _session_details s; _pending_auth := v;
     _authid := _authid s; _authrole := _authrole s;
     _authmethod := _authmethod s; _authprovider := _authprovider s;
     _authextra := _authextra s; _service_session := _service_session s;
     _testaments_destroyed := _testaments_destroyed s;
     _testaments_detached := _testaments_detached s;
     _goodbye_sent := _goodbye_sent s;
     _transport_is_closing := _transport_is_closing s;
     _stats_enabled := _stats_enabled s;
     _stats_trigger_on_leave := _stats_trigger_on_leave s;
     _stats_has_triggered_first := _stats_has_triggered_first s |}.

Definition set_authid (v : option string) (s : Session) : Session :=
  {| _transport := _transport s; _transport_config := _transport_config s;
     _router := _router s; _realm := _realm s;
     _session_id := _session_id s;
     _pending_session_id := _pending_session_id s;
     _previous_session_id := _previous_session_id s;
     _session_roles := _session_roles s;
     _session_details := _session_details s;
     _pending_auth := _pending_auth s; _authid := v;
     _authrole := _authrole s; _authmethod := _authmethod s;
     _authprovider := _authprovider s; _authextra := _authextra s;
     _service_session := _service_session s;
     _testaments_destroyed := _testaments_destroyed s;
     _testaments_detached := _testaments_detached s;
     _goodbye_sent := _goodbye_sent s;
     _transport_is_closing := _transport_is_closing s;
     _stats_enabled := _stats_enabled s;
     _stats_trigger_on_leave := _stats_trigger_on_leave s;
     _stats_has_triggered_first := _stats_has_triggered_first s |}.

Definition set_authrole (v : option string) (s : Session) : Session :=
  {| _transport := _transport s; _transport_config := _transport_config s;
     _router := _router s; _realm := _realm s;
     _session_id := _session_id s;
     _pending_session_id := _pending_session_id s;
     _previous_session_id := _previous_session_id s;
     _session_roles := _session_roles s;
     _session_details := _session_details s;
     _pending_auth := _pending_auth s; _authid := _authid s;
     _authrole := v; _authmethod := _authmethod s;
     _authprovider := _authprovider s; _authextra := _authextra s;
     _service_session := _service_session s;
     _testaments_destroyed := _testaments_destroyed s;
     _testaments_detached := _testaments_detached s;
     _goodbye_sent := _goodbye_sent s;
     _transport_is_closing := _transport_is_closing s;
     _stats_enabled := _stats_enabled s;
     _stats_trigger_on_leave := _stats_trigger_on_leave s;
     _stats_has_triggered_first := _stats_has_triggered_first s |}.

Definition set_authmethod (v : option string) (s : Session) : Session :=
  {| _transport := _transport s; _transport_config := _transport_config s;
     _router := _router s; _realm := _realm s;
     _session_id := _session_id s;
     _pending_session_id := _pending_session_id s;
     _previous_session_id := _previous_session_id s;
     _session_roles := _session_roles s;
     _session_details := _session_details s;
     _pending_auth := _pending_auth s; _authid := _authid s;
     _authrole := _authrole s; _authmethod := v;
     _authprovider := _authprovider s; _authextra := _authextra s;
     _service_session := _service_session s;
     _testaments_destroyed := _testaments_destroyed s;
     _testaments_detached := _testaments_detached s;
     _goodbye_sent := _goodbye_sent s;
     _transport_is_closing := _transport_is_closing s;
     _stats_enabled := _stats_enabled s;
     _stats_trigger_on_leave := _stats_trigger_on_leave s;
     _stats_has_triggered_first := _stats_has_triggered_first s |}.

Definition set_authprovider (v : option string) (s : Session) : Session :=
  {| _transport := _transport s; _transport_config := _transport_config s;
     _router := _router s; _realm := _realm s;
     _session_id := _session_id s;
     _pending_session_id := _pending_session_id s;
     _previous_session_id := _previous_session_id s;
     _session_roles := _session_roles s;
     _session_details := _session_details s;
     _pending_auth := _pending_auth s; _authid := _authid s;
     _authrole := _authrole s; _authmethod := _authmethod s;
     _authprovider := v; _authextra := _authextra s;
     _service_session := _service_session s;
     _testaments_destroyed := _testaments_destroyed s;
     _testaments_detached := _testaments_detached s;
     _goodbye_sent := _goodbye_sent s;
     _transport_is_closing := _transport_is_closing s;
     _stats_enabled := _stats_enabled s;
     _stats_trigger_on_leave := _stats_trigger_on_leave s;
     _stats_has_triggered_first := _stats_has_triggered_first s |}.

Definition set_authextra (v : option Dict) (s : Session) : Session :=
  {| _transport := _transport s; _transport_config := _transport_config s;
     _router := _router s; _realm := _realm s;
     _session_id := _session_id s;
     _pending_session_id := _pending_session_id s;
     _previous_session_id := _previous_session_id s;
     _session_roles := _session_roles s;
     _session_details := _session_details s;
     _pending_auth := _pending_auth s; _authid := _authid s;
     _authrole := _authrole s; _authmethod := _authmethod s;
     _authprovider := _authprovider s; _authextra := v;
     _service_session := _service_session s;
     _testaments_destroyed := _testaments_destroyed s;
     _testaments_detached := _testaments_detached s;
     _goodbye_sent := _goodbye_sent s;
     _transport_is_closing := _transport_is_closing s;
     _stats_enabled := _stats_enabled s;
     _stats_trigger_on_leave := _stats_trigger_on_leave s;
     _stats_has_triggered_first := _stats_has_triggered_first s |}.

Definition set_service_session (v : option string) (s : Session) : Session :=
  {| _transport := _transport s; _transport_config := _transport_config s;
     _router := _router s; _realm := _realm s;
     _session_id := _session_id s;
     _pending_session_id := _pending_session_id s;
     _previous_session_id := _previous_session_id s;
     _session_roles := _session_roles s;
     _session_details := _session_details s;
     _pending_auth := _pending_auth s; _authid := _authid s;
     _authrole := _authrole s; _authmethod := _authmethod s;
     _authprovider := _authprovider s; _authextra := _authextra s;
     _service_session := v;
     _testaments_destroyed := _testaments_destroyed s;
     _testaments_detached := _testaments_detached s;
     _goodbye_sent := _goodbye_sent s;
     _transport_is_closing := _transport_is_closing s;
     _stats_enabled := _stats_enabled s;
     _stats_trigger_on_leave := _stats_trigger_on_leave s;
     _stats_has_triggered_first := _stats_has_triggered_first s |}.

Definition set_goodbye_sent (v : bool) (s : Session) : Session :=
  {| _transport := _transport s; _transport_config := _transport_config s;
     _router := _router s; _realm := _realm s;
     _session_id := _session_id s;
     _pending_session_id := _pending_session_id s;
     _previous_session_id := _previous_session_id s;
     _session_roles := _session_roles s;
     _session_details := _session_details s;
     _pending_auth := _pending_auth s; _authid := _authid s;
     _authrole := _authrole s; _authmethod := _authmethod s;
     _authprovider := _authprovider s; _authextra := _authextra s;
     _service_session := _service_session s;
     _testaments_destroyed := _testaments_destroyed s;
     _testaments_detached := _testaments_detached s; _goodbye_sent := v;
     _transport_is_closing := _transport_is_closing s;
     _stats_enabled := _stats_enabled s;
     _stats_trigger_on_leave := _stats_trigger_on_leave s;
     _stats_has_triggered_first := _stats_has_triggered_first s |}.

Definition set_stats_enabled (v : Attr bool) (s : Session) : Session :=
  {| _transport := _transport s; _transport_config := _transport_config s;
     _router := _router s; _realm := _realm s;
     _session_id := _session_id s;
     _pending_session_id := _pending_session_id s;
     _previous_session_id := _previous_session_id s;
     _session_roles := _session_roles s;
     _session_details := _session_details s;
     _pending_auth := _pending_auth s; _authid := _authid s;
     _authrole := _authrole s; _authmethod := _authmethod s;
     _authprovider := _authprovider s; _authextra := _authextra s;
     _service_session := _service_session s;
     _testaments_destroyed := _testaments_destroyed s;
     _testaments_detached := _testaments_detached s;
     _goodbye_sent := _goodbye_sent s;
     _transport_is_closing := _transport_is_closing s;
     _stats_enabled := v;
     _stats_trigger_on_leave := _stats_trigger_on_leave s;
     _stats_has_triggered_first := _stats_has_triggered_first s |}.

Definition set_stats_trigger_on_leave (v : Attr bool) (s : Session) : Session :=
  {| _transport := _transport s; _transport_config := _transport_config s;
     _router := _router s; _realm := _realm s;
     _session_id := _session_id s;
     _pending_session_id := _pending_session_id s;
     _previous_session_id := _previous_session_id s;
     _session_roles := _session_roles s;
     _session_details := _session_details s;
     _pending_auth := _pending_auth s; _authid := _authid s;
     _authrole := _authrole s; _authmethod := _authmethod s;
     _authprovider := _authprovider s; _authextra := _authextra s;
     _service_session := _service_session s;
     _testaments_destroyed := _testaments_destroyed s;
     _testaments_detached := _testaments_detached s;
     _goodbye_sent := _goodbye_sent s;
     _transport_is_closing := _transport_is_closing s;
     _stats_enabled := _stats_enabled s; _stats_trigger_on_leave := v;
     _stats_has_triggered_first := _stats_has_triggered_first s |}.

Definition set_stats_has_triggered_first (v : Attr bool) (s : Session) : Session :=
  {| _transport := _transport s; _transport_config := _transport_config s;
     _router := _router s; _realm := _realm s;
     _session_id := _session_id s;
     _pending_session_id := _pending_session_id s;
     _previous_session_id := _previous_session_id s;
     _session_roles := _session_roles s;
     _session_details := _session_details s;
     _pending_auth := _pending_auth s; _authid := _authid s;
     _authrole := _authrole s; _authmethod := _authmethod s;
     _authprovider := _authprovider s; _authextra := _authextra s;
     _service_session := _service_session s;
     _testaments_destroyed := _testaments_destroyed s;
     _testaments_detached := _testaments_detached s;
     _goodbye_sent := _goodbye_sent s;
     _transport_is_closing := _transport_is_closing s;
     _stats_enabled := _stats_enabled s;
     _stats_trigger_on_leave := _stats_trigger_on_leave s;
     _stats_has_triggered_first := v |}.

(** ** Collaborators *)

(** [realm.config['stats']], each key optional ([.get] with default). *)
Record StatsConfig : Type := {
  rated_message_size : option Z;
  trigger_after_rated_messages : option Z;
  trigger_after_duration : option Z;
  trigger_on_join : option bool;
  trigger_on_leave : option bool
}.

(** Modelled from the spec: the router of one realm, which is not part
    of this file, through its capability set: [has_role(authrole)] is
    membership in [r_roles], [attach(session)] returns [r_attach_roles],
    [realm.session] is the service session when [r_service_session]
    holds, and [realm.config] has the key ['stats'] when [r_stats] is
    not [None]. *)
Record Router : Type := {
  r_roles : list string;
  r_attach_roles : Any;
  r_service_session : bool;
  r_stats : option StatsConfig
}.

Definition has_role (r : Router) (authrole : option string) : bool :=
  opt_in authrole (r_roles r).

(** What the cookie store holds for one cookie id. *)
Record CookieAuth : Type := {
  ck_authid : option string;
  ck_authrole : option string;
  ck_authmethod : option string;
  ck_authextra : option Dict;
  ck_authrealm : option string
}.

(** Modelled from the spec: the cookie store, which is not part of this
    file, through its capability set.  [setAuth] records
    [cbtid -> (authid, authrole, authmethod, authextra, realm)],
    [exists] tells whether a cookie id has a stored binding, [getAuth]
    returns it, [delAuth] removes it, and [getProtos] lists the
    transports bound to a cookie id (by identity). *)
Record CookieStore : Type := {
  cookies : gmap string CookieAuth;
  protos : gmap string (list nat)
}.

Definition cs_exists (cs : CookieStore) (cbtid : string) : bool :=
  match cookies cs !! cbtid with Some _ => true | None => false end.

Definition cs_getAuth (cs : CookieStore) (cbtid : string) : option CookieAuth :=
  cookies cs !! cbtid.

(** [None] is no cookie id: nothing is recorded for it. *)
Definition cs_setAuth (cs : CookieStore) (cbtid : option string)
    (authid authrole authmethod : option string) (authextra : option Dict)
    (authrealm : option string) : CookieStore :=
  match cbtid with
  | Some c =>
      {| cookies := <[c := {| ck_authid := authid; ck_authrole := authrole;
                               ck_authmethod := authmethod;
                               ck_authextra := authextra;
                               ck_authrealm := authrealm |}]> (cookies cs);
         protos := protos cs |}
  | None => cs
  end.

Definition cs_delAuth (cs : CookieStore) (cbtid : string) : CookieStore :=
  {| cookies := delete cbtid (cookies cs); protos := protos cs |}.

Definition cs_getProtos (cs : CookieStore) (cbtid : string) : list nat :=
  default [] (protos cs !! cbtid).

(** The session together with the collaborators it changes:
    [routers] is [self._router_factory._routers], [cookiestore] is
    [self._transport.factory._cookiestore] ([None] when the factory has
    none), and [attached] holds the realms whose router has this
    session attached ([detach] of a session that is not attached raises
    [NotAttached]). *)
Record World : Type := {
  session : Session;
  routers : gmap string Router;
  cookiestore : option CookieStore;
  attached : gset string
}.

Definition set_session (s : Session) (w : World) : World :=
  {| session := s; routers := routers w; cookiestore := cookiestore w;
     attached := attached w |}.

Definition set_cookiestore (c : option CookieStore) (w : World) : World :=
  {| session := session w; routers := routers w; cookiestore := c;
     attached := attached w |}.

Definition set_attached (a : gset string) (w : World) : World :=
  {| session := session w; routers := routers w;
     cookiestore := cookiestore w; attached := a |}.

(** What is published on a service session. *)
Inductive Payload : Type :=
| PSession (sid : option Id)
| PDetails (d : SessionDetails)
| PDict (d : Dict).

(** The calls the session makes on its collaborators.  [EvPublish]
    records, next to the arguments of [publish], the value
    [self._session_id] has at the time of the call. *)
Inductive Event : Type :=
| EvSend (t : nat) (f : Frame)
| EvSendClose (t : nat)
| EvAttach (realm : string)
| EvDetach (realm : string)
| EvProcess (realm : string) (m : Msg)
| EvSessionJoined (realm : string) (d : SessionDetails)
| EvSessionLeft (realm : string) (d : option SessionDetails) (c : CloseDetails)
| EvPublish (service : string) (topic : string) (args : list Payload)
            (publisher_session_id : option Id)
| EvSetAuth (cbtid : option string) (a : CookieAuth)
| EvDelAuth (cbtid : string)
| EvStatsAutoreset (rated_size : Z) (after_messages after_duration : Z).

(** The frame an event sends, if it is a [send]. *)
Definition sent (e : Event) : option Frame :=
  match e with EvSend _ f => Some f | _ => None end.

(** The frames sent, in order. *)
Definition frames (tr : list Event) : list Frame := omap sent tr.

Definition is_welcome (f : Frame) : bool :=
  match f with FWelcome _ _ _ _ _ _ _ _ _ => true | _ => false end.
Definition is_abort (f : Frame) : bool :=
  match f with FAbort _ _ => true | _ => false end.
Definition is_challenge (f : Frame) : bool :=
  match f with FChallenge _ _ => true | _ => false end.
Definition is_goodbye (f : Frame) : bool :=
  match f with FGoodbye _ _ => true | _ => false end.

(** How many of the frames sent are of kind [p]. *)
Definition count_frames (p : Frame -> bool) (tr : list Event) : nat :=
  length (List.filter p (frames tr)).

(** The transport an event closes, if it is a [sendClose]. *)
Definition closed (e : Event) : option nat :=
  match e with EvSendClose t => Some t | _ => None end.

(** The transports [sendClose] was called on, in order. *)
Definition closed_protos (tr : list Event) : list nat := omap closed tr.

(** For a publication of [wamp.session.on_leave]: its arguments and
    the session id the publishing session had at that time. *)
Definition on_leave_published (e : Event) : option (list Payload * option Id) :=
  match e with
  | EvPublish _ topic args sid =>
      if String.eqb topic "wamp.session.on_leave" then Some (args, sid) else None
  | _ => None
  end.

Definition on_leave_publications (tr : list Event)
    : list (list Payload * option Id) :=
  omap on_leave_published tr.

(** Modelled from the spec: the broker, which delivers what a service
    session publishes, is not part of this file.  By the spec a session
    whose [session_id] is cleared is no recipient of a meta-event
    ("enforced by clearing [session_id] before publishing"), so a
    publication can reach the publishing session only if that session's
    id was set when it published. *)
Definition may_reach_publisher (publisher_session_id : option Id) : bool :=
  is_set publisher_session_id.

(** ** The environment

    What the session takes from modules that are not part of this file:
    the tables of [crossbar.router.auth], the personality's extra
    methods ([{}] without a worker), the identifiers of the router
    factory, the behaviour of the pending authentications, and two
    parsers. *)
Record Env : Type := {
  AUTHMETHODS : list string;
  AUTHMETHOD_MAP : gmap string (option PAClass);
  EXTRA_AUTH_METHODS : gmap string PAClass;
  node_id : Any;
  worker_id : Any;
  getpid : Z;
  pa_hello : PendingAuth -> option string -> HelloDetails -> PAResult;
  pa_authenticate : PendingAuth -> string -> PAResult;
  parse_cookie : string -> gmap string string;
  TransportDetails_parse : Any -> TransportDetails
}.

(** What [util.id()] and [util.generate_serial_number()] return when a
    message is handled. *)
Record Random : Type := {
  util_id : Id;
  generate_serial_number : string
}.

(** ** The monad of methods *)

Record Outcome (A : Type) : Type := mkOut {
  result : Exn + A;
  world : World;
  trace : list Event
}.
Arguments mkOut {A} _ _ _.
Arguments result {A} _.
Arguments world {A} _.
Arguments trace {A} _.

Definition M (A : Type) : Type := World -> Outcome A.

Definition ret {A} (a : A) : M A := fun w => mkOut (inr a) w [].

Definition raise {A} (e : Exn) : M A := fun w => mkOut (inl e) w [].

Definition bind {A B} (m : M A) (f : A -> M B) : M B := fun w =>
  match m w with
  | mkOut (inl e) w1 t1 => mkOut (inl e) w1 t1
  | mkOut (inr a) w1 t1 =>
      match f a w1 with
      | mkOut r w2 t2 => mkOut r w2 (t1 ++ t2)
      end
  end.

(** [try: m  except Exception as e: h e] *)
Definition try_except {A} (m : M A) (h : Exn -> M A) : M A := fun w =>
  match m w with
  | mkOut (inl e) w1 t1 =>
      match h e w1 with
      | mkOut r w2 t2 => mkOut r w2 (t1 ++ t2)
      end
  | mkOut (inr a) w1 t1 => mkOut (inr a) w1 t1
  end.

Definition get_session : M Session := fun w => mkOut (inr (session w)) w [].
Definition get_world : M World := fun w => mkOut (inr w) w [].
Definition modify_session (f : Session -> Session) : M unit := fun w =>
  mkOut (inr tt) (set_session (f (session w)) w) [].
Definition modify_world (f : World -> World) : M unit := fun w =>
  mkOut (inr tt) (f w) [].
Definition emit (e : Event) : M unit := fun w => mkOut (inr tt) w [e].

Notation "x <- m ;; k" := (bind m (fun x => k))
  (at level 100, m at next level, right associativity).
Notation "m ;; k" := (bind m (fun _ => k))
  (at level 100, right associativity).

Definition when (b : bool) (m : M unit) : M unit :=
  if b then m else ret tt.

(** [for x in xs: f x] *)
Fixpoint for_each {A} (xs : list A) (f : A -> M unit) : M unit :=
  match xs with
  | [] => ret tt
  | x :: xs' => f x ;; for_each xs' f
  end.

(** [assert b] *)
Definition assert (b : bool) : M unit :=
  if b then ret tt else raise AssertionError.

(** Reading an attribute that may not exist. *)
Definition read_attr {A} (name : string) (a : Attr A) : M A :=
  match a with Some v => ret v | None => raise (AttributeError name) end.

(** [self._transport.<attr>]: fails on [None]. *)
Definition the_transport (attr : string) : M Transport :=
  s <- get_session ;;
  match _transport s with
  | Some t => ret t
  | None => raise (AttributeError attr)
  end.

(** [self._transport.send(msg)] *)
Definition transport_send (f : Frame) : M unit :=
  t <- the_transport "send" ;; emit (EvSend (ident t) f).

(** [self._router.<attr>]: fails on [None]. *)
Definition the_router (attr : string) : M string :=
  s <- get_session ;;
  match _router s with
  | Some r => ret r
  | None => raise (AttributeError attr)
  end.

(** [self._router.detach(self)] *)
Definition router_detach : M unit :=
  r <- the_router "detach" ;;
  w <- get_world ;;
  if bool_decide (r ∈ attached w)
  then modify_world (fun w => set_attached (attached w ∖ {[r]}) w) ;;
       emit (EvDetach r)
  else raise NotAttached.

(** [self._router.attach(self)] *)
Definition router_attach : M Any :=
  r <- the_router "attach" ;;
  w <- get_world ;;
  match routers w !! r with
  | Some rt =>
      modify_world (fun w => set_attached (attached w ∪ {[r]}) w) ;;
      emit (EvAttach r) ;;
      ret (r_attach_roles rt)
  | None => raise (KeyError (Some r))
  end.

(** [self._router.process(self, msg)] *)
Definition router_process (m : Msg) : M unit :=
  r <- the_router "process" ;; emit (EvProcess r m).

(** [self._service_session.publish(topic, *args)] *)
Definition service_publish (svc : string) (topic : string)
    (args : list Payload) : M unit :=
  s <- get_session ;; emit (EvPublish svc topic args (_session_id s)).

(** [self._transport.factory._cookiestore.<attr>]: fails on [None]. *)
Definition the_cookiestore (attr : string) : M CookieStore :=
  w <- get_world ;;
  match cookiestore w with
  | Some cs => ret cs
  | None => raise (AttributeError attr)
  end.

Definition cookiestore_setAuth (cbtid : option string)
    (authid authrole authmethod : option string) (authextra : option Dict)
    (authrealm : option string) : M unit :=
  cs <- the_cookiestore "setAuth" ;;
  modify_world (set_cookiestore
    (Some (cs_setAuth cs cbtid authid authrole authmethod authextra authrealm))) ;;
  emit (EvSetAuth cbtid
    {| ck_authid := authid; ck_authrole := authrole;
       ck_authmethod := authmethod; ck_authextra := authextra;
       ck_authrealm := authrealm |}).

Definition cookiestore_delAuth (cbtid : string) : M unit :=
  cs <- the_cookiestore "delAuth" ;;
  modify_world (set_cookiestore (Some (cs_delAuth cs cbtid))) ;;
  emit (EvDelAuth cbtid).

(** [str(x)] of an [Optional[str]]. *)
Definition py_str (o : option string) : string := default "None" o.

(** [{'session': .., 'realm': .., 'authid': .., 'authrole': ..}] *)
Definition session_info_short (sid : option Id)
    (realm authid authrole : option string) : Dict :=
  <["session" := any_id sid]>
    (<["realm" := any_str realm]>
       (<["authid" := any_str authid]>
          (<["authrole" := any_str authrole]> ∅))).

(** [stats['first'] = first; stats['last'] = last] *)
Definition mark_stats (first last : bool) (stats : Dict) : Dict :=
  <["last" := ABool last]> (<["first" := ABool first]> stats).

(** ** The methods of [RouterSession] *)

Section RouterSession.

Variable E : Env.

(** [__init__]: the attributes [onOpen] has not yet assigned are taken
    as [None]. *)
Definition init_session : Session :=
  {| _transport := None;
     _transport_config := no_config;
     _router := None;
     _realm := None;
     _session_id := None;
     _pending_session_id := None;
     _previous_session_id := None;
     _session_roles := ANone;
     _session_details := None;
     _pending_auth := None;
     _authid := None;
     _authrole := None;
     _authmethod := None;
     _authprovider := None;
     _authextra := None;
     _service_session := None;
     _testaments_destroyed := [];
     _testaments_detached := [];
     _goodbye_sent := false;
     _transport_is_closing := false;
     _stats_enabled := None;
     _stats_trigger_on_leave := None;
     _stats_has_triggered_first := None |}.

Definition onOpen (transport : Transport) : M unit :=
  modify_session (set_transport (Some transport)) ;;
  modify_session (set_transport_config
    (default no_config (factory_config transport))) ;;
  modify_session (set_pending_session_id None) ;;
  modify_session (set_previous_session_id None) ;;
  modify_session (set_realm None) ;;
  modify_session (set_session_id None) ;;
  modify_session (set_session_roles ANone) ;;
  modify_session (set_session_details None) ;;
  modify_session (set_pending_auth None) ;;
  modify_session (set_authid None) ;;
  modify_session (set_authrole None) ;;
  modify_session (set_authmethod None) ;;
  modify_session (set_authprovider None) ;;
  modify_session (set_authextra None) ;;
  modify_session (set_service_session None).

(** The logout part of [onLeave]: delete the cookie's binding and close
    the other transports of the cookie. *)
Definition logout_kick : M unit :=
  s <- get_session ;;
  w <- get_world ;;
  match _transport s with
  | Some t =>
      if attr_truthy (t_cbtid t) then
        match cookiestore w, t_cbtid t with
        | Some cs, Some (Some cbtid) =>
            cookiestore_delAuth cbtid ;;
            cs' <- the_cookiestore "getProtos" ;;
            for_each (cs_getProtos cs' cbtid) (fun proto =>
              when (negb (Nat.eqb proto (ident t))) (emit (EvSendClose proto)))
        | _, _ => ret tt
        end
      else ret tt
  | None => ret tt
  end.

(** The last statistics of [onLeave]. *)
Definition leave_stats (svc : string) : M unit :=
  s <- get_session ;;
  enabled <- read_attr "_stats_enabled" (_stats_enabled s) ;;
  if enabled then
    on_leave <- read_attr "_stats_trigger_on_leave" (_stats_trigger_on_leave s) ;;
    if on_leave then
      match _transport s with
      | Some t =>
          triggered <- read_attr "_stats_has_triggered_first"
                         (_stats_has_triggered_first s) ;;
          when (negb triggered)
            (modify_session (set_stats_has_triggered_first (Some true))) ;;
          service_publish svc "wamp.session.on_stats"
            [PDict (session_info_short (_session_id s) (_realm s)
                      (_authid s) (_authrole s));
             PDict (mark_stats (negb triggered) true (serializer_stats t))]
      | None => ret tt
      end
    else ret tt
  else ret tt.

(** The router part of [onLeave]: the testaments are processed and the
    router is told that the session has left. *)
Definition leave_router (details : CloseDetails) : M unit :=
  s <- get_session ;;
  match _router s with
  | Some r =>
      for_each (_testaments_detached s) router_process ;;
      for_each (_testaments_destroyed s) router_process ;;
      emit (EvSessionLeft r (_session_details s) details)
  | None => ret tt
  end.

(** The meta-events of [onLeave]. *)
Definition leave_publish : M unit :=
  s <- get_session ;;
  match _service_session s, _session_id s with
  | Some svc, Some sid =>
      service_publish svc "wamp.session.on_leave" [PSession (Some sid)] ;;
      leave_stats svc
  | _, _ => ret tt
  end.

Definition onLeave (details : CloseDetails) : M unit :=
  leave_router details ;;
  leave_publish ;;
  modify_session (set_session_details None) ;;
  when (opt_eqb (cd_reason details) "wamp.close.logout") logout_kick.

Definition onClose (wasClean : bool) : M unit :=
  s <- get_session ;;
  match _service_session s with
  | Some svc =>
      t <- the_transport "_serializer" ;;
      service_publish svc "wamp.session.on_stats"
        [PDict (session_info_short (_session_id s) (_realm s)
                  (_authid s) (_authrole s));
         PDict (mark_stats false true (serializer_stats t))]
  | None => ret tt
  end ;;
  modify_session (set_transport None) ;;
  match _session_id s with
  | Some _ =>
      try_except (onLeave {| cd_reason := None; cd_message := None |})
                 (fun _ => ret tt) ;;
      try_except router_detach (fun _ => ret tt) ;;
      modify_session (set_session_id None)
  | None => ret tt
  end ;;
  modify_session (set_previous_session_id None) ;;
  modify_session (set_pending_session_id None) ;;
  modify_session (set_authid None) ;;
  modify_session (set_authrole None) ;;
  modify_session (set_authmethod None) ;;
  modify_session (set_authprovider None).

Definition leave (reason message : option string) : M unit :=
  s <- get_session ;;
  if negb (_goodbye_sent s) then
    transport_send
      (FGoodbye (if truthy_str reason then reason else None) message) ;;
    modify_session (set_goodbye_sent true)
  else raise (SessionNotReady "Already requested to close the session").

Definition _swallow_error_and_abort (fail : string) : M unit :=
  transport_send
    (FAbort (Some "wamp.error.authorization_failed")
            (Some "Internal server error")) ;;
  s <- get_session ;;
  match _router s with
  | Some _ => try_except router_detach (fun _ => ret tt)
  | None => ret tt
  end ;;
  modify_session (set_session_id None) ;;
  modify_session (set_previous_session_id None) ;;
  modify_session (set_pending_session_id None).

(** The statistics part of [onJoin], for a realm whose configuration
    has the key ['stats'].  The callback [on_stats] that is handed to
    [set_stats_autoreset] is not modelled: [EvStatsAutoreset] records
    the registration only, and what the serializer publishes through
    the callback later (always with [last = False]) is in no trace. *)
Definition join_stats (svc : string) (details : SessionDetails)
    (cfg : StatsConfig) : M unit :=
  let rated := default 512%Z (rated_message_size cfg) in
  let after_messages := default 0%Z (trigger_after_rated_messages cfg) in
  let after_duration := default 0%Z (trigger_after_duration cfg) in
  let on_join := default false (trigger_on_join cfg) in
  let on_leave := default true (trigger_on_leave cfg) in
  assert (Z.ltb 0 rated && Z.eqb (rated mod 2) 0) ;;
  assert (negb (Z.eqb after_messages 0) || negb (Z.eqb after_duration 0)) ;;
  s <- get_session ;;
  modify_session (set_stats_trigger_on_leave (Some on_leave)) ;;
  (if on_join then
     t <- the_transport "_serializer" ;;
     service_publish svc "wamp.session.on_stats"
       [PDict (session_info_short (sd_session details) (_realm s)
                 (sd_authid details) (sd_authrole details));
        PDict (mark_stats true false (serializer_stats t))] ;;
     modify_session (set_stats_has_triggered_first (Some true))
   else
     modify_session (set_stats_has_triggered_first (Some false))) ;;
  _ <- the_transport "_serializer" ;;
  emit (EvStatsAutoreset rated after_messages after_duration) ;;
  modify_session (set_stats_enabled (Some true)).

(** The cookie part of [onJoin]: a session that joins on a transport
    with a cookie id, by another method than [cookie], has its
    identity recorded for the cookie. *)
Definition join_cookie (details : SessionDetails) : M unit :=
  s <- get_session ;;
  match _transport s with
  | Some t =>
      when (attr_truthy (t_cbtid t) && negb (opt_eqb (sd_authmethod details) "cookie"))
        (cookiestore_setAuth (mjoin (t_cbtid t)) (sd_authid details)
           (sd_authrole details) (sd_authmethod details)
           (Some (sd_authextra details)) (_realm s))
  | None => ret tt
  end.

(** The rest of [onJoin]: the service session, the router, the
    meta-events. *)
Definition join_router (details : SessionDetails) : M unit :=
  s <- get_session ;;
  r <- match _router s with
       | Some r => ret r
       | None => raise AssertionError
       end ;;
  w <- get_world ;;
  rt <- match routers w !! r with
        | Some rt => ret rt
        | None => raise (KeyError (Some r))
        end ;;
  modify_session (set_service_session
    (if r_service_session rt then Some r else None)) ;;
  modify_session (set_session_details (Some details)) ;;
  emit (EvSessionJoined r details) ;;
  if r_service_session rt then
    service_publish r "wamp.session.on_join" [PDetails details] ;;
    match r_stats rt with
    | Some cfg => join_stats r details cfg
    | None => modify_session (set_stats_enabled (Some false))
    end
  else ret tt.

Definition onJoin (details : SessionDetails) : M unit :=
  join_cookie details ;; join_router details.

(** [custom.get(k, None)] *)
Definition dict_get (d : Dict) (k : string) : Any := default ANone (d !! k).

(** The local function [welcome] of [onMessage]. *)
Definition welcome (realm authid authrole authmethod authprovider : option string)
    (authextra : option Dict) (custom : Dict) : M unit :=
  modify_session (set_realm realm) ;;
  s0 <- get_session ;;
  modify_session (set_session_id (_pending_session_id s0)) ;;
  modify_session (set_pending_session_id None) ;;
  modify_session (set_goodbye_sent false) ;;
  w <- get_world ;;
  let router :=
    match realm with
    | Some r => match routers w !! r with Some _ => Some r | None => None end
    | None => None
    end in
  modify_session (set_router router) ;;
  match router with
  | None =>
      raise (LogicError "logic error (no realm at a stage were we should have one)")
  | Some _ =>
      modify_session (set_authid authid) ;;
      modify_session (set_authrole authrole) ;;
      modify_session (set_authmethod authmethod) ;;
      modify_session (set_authprovider authprovider) ;;
      let extra :=
        <["x_cb_pid" := dict_get custom "x_cb_pid"]>
          (<["x_cb_peer" := dict_get custom "x_cb_peer"]>
             (<["x_cb_worker" := dict_get custom "x_cb_worker"]>
                (<["x_cb_node" := dict_get custom "x_cb_node"]>
                   (default ∅ authextra)))) in
      modify_session (set_authextra (Some extra)) ;;
      roles <- router_attach ;;
      s1 <- get_session ;;
      transport_send
        (FWelcome (_session_id s1) roles realm authid authrole authmethod
                  authprovider extra custom) ;;
      t <- the_transport "transport_details" ;;
      let td :=
        match extra !! "transport" with
        | Some v => TransportDetails_parse E v
        | None => transport_details t
        end in
      let extra' := delete "transport" extra in
      modify_session (set_authextra (Some extra')) ;;
      onJoin {| sd_realm := realm;
                sd_session := _session_id s1;
                sd_authid := authid;
                sd_authrole := authrole;
                sd_authmethod := authmethod;
                sd_authprovider := authprovider;
                sd_authextra := extra';
                sd_serializer := channel_serializer td;
                sd_resumed := false;
                sd_resumable := false;
                sd_resume_token := None;
                sd_transport := td |}
  end.

(** [k in d] for a dictionary. *)
Definition in_dict {V : Type} (k : string) (d : gmap string V) : bool :=
  match d !! k with Some _ => true | None => false end.

(** The double quote character, as a string. *)
Definition dq : string := String "034"%char EmptyString.

Definition pending_auth_methods : list string :=
  ["anonymous"; "anonymous-proxy"; "ticket"; "wampcra"; "tls";
   "cryptosign"; "cryptosign-proxy"; "scram"].

(** [AUTHMETHOD_MAP[authmethod]] if the method is in the map, else
    [extra_auth_methods[authmethod]]; then [assert pending_auth_klass]. *)
Definition pending_auth_klass (authmethod : string) : M PAClass :=
  match AUTHMETHOD_MAP E !! authmethod with
  | Some (Some c) => ret c
  | Some None => raise AssertionError
  | None =>
      match EXTRA_AUTH_METHODS E !! authmethod with
      | Some c => ret c
      | None => raise (KeyError (Some authmethod))
      end
  end.

(** Create the pending authentication of [authmethod], store it in
    [self._pending_auth] and return what its [hello] returns. *)
Definition start_pending_auth (authmethod : string) (config : PAConfig)
    (realm : option string) (details : HelloDetails) : M Future :=
  klass <- pending_auth_klass authmethod ;;
  s <- get_session ;;
  psid <- match _pending_session_id s with
          | Some i => ret i
          | None => raise AssertionError
          end ;;
  t <- the_transport "transport_details" ;;
  let pa := {| pa_class := klass;
               pa_pending_session_id := psid;
               pa_transport_details := transport_details t;
               pa_config := config |} in
  modify_session (set_pending_auth (Some pa)) ;;
  match pa_hello E pa realm details with
  | PARaise e => raise e
  | PAReturn f => ret f
  end.

(** The cookie id the transport presents in the headers it received. *)
Definition received_cbtid (t : Transport) : option string :=
  match http_headers_received (transport_details t) !! "set-cookie" with
  | Some h => parse_cookie E h !! "cbtid"
  | None => None
  end.

(** The loop [for authmethod in authmethods] of [onHello]; [todo] is
    what is left of [authmethods], and falling out of the list is the
    code after the loop. *)
Fixpoint hello_loop (authmethods : list string) (auth_config : gmap string Any)
    (realm : option string) (details : HelloDetails)
    (todo : list string) : M Future :=
  match todo with
  | [] =>
      ret (FutValue (Deny (Some NO_AUTH_METHOD)
        (Some ("cannot authenticate [2] using any of the offered authmethods "
               ++ repr_list authmethods))))
  | authmethod :: rest =>
      let continue := hello_loop authmethods auth_config realm details rest in
      if negb (str_in authmethod (AUTHMETHODS E))
         && negb (in_dict authmethod (EXTRA_AUTH_METHODS E)) then
        ret (FutValue (Deny None
          (Some ("invalid authmethod " ++ dq ++ authmethod ++ dq))))
      else if negb (in_dict authmethod auth_config) then continue
      else if negb (in_dict authmethod (AUTHMETHOD_MAP E))
              && negb (in_dict authmethod (EXTRA_AUTH_METHODS E)) then continue
      else if str_in authmethod pending_auth_methods
              || in_dict authmethod (EXTRA_AUTH_METHODS E) then
        match auth_config !! authmethod with
        | Some c => start_pending_auth authmethod (Configured c) realm details
        | None => raise (KeyError (Some authmethod))
        end
      else if String.eqb authmethod "cookie" then
        t <- the_transport "transport_details" ;;
        match received_cbtid t with
        | Some cbtid =>
            if truthy_str (Some cbtid) then
              cs <- the_cookiestore "exists" ;;
              if cs_exists cs cbtid then
                match cs_getAuth cs cbtid with
                | Some a =>
                    ret (FutValue (Accept (ck_authrealm a) (ck_authid a)
                           (ck_authrole a) (ck_authmethod a) (Some "cookie")
                           (ck_authextra a)))
                | None => raise (KeyError (Some cbtid))
                end
              else continue
            else continue
        | None => continue
        end
      else raise (LogicError "logic error")
  end.

(** [details.authmethods or ['anonymous']] *)
Definition effective_authmethods (details : HelloDetails) : list string :=
  match hd_authmethods details with
  | Some (m :: ms) => m :: ms
  | _ => ["anonymous"]
  end.

(** The block of [onHello] before ["perform authentication"]: with a
    realm stored on the transport, take realm and authextra from the
    transport when the client offers [cookie]; else, when the
    transport's identity came from a cookie, revoke it. *)
Definition restore_or_revoke (authmethods : list string)
    (realm : option string) (authextra : option Dict)
    : M (option string * option Dict) :=
  t <- the_transport "_authrealm" ;;
  if attr_truthy (t_authrealm t) then
    if str_in "cookie" authmethods then
      ret (mjoin (t_authrealm t), t_authextra t)
    else if opt_eqb (t_authprovider t) "cookie" then
      modify_session (set_transport (Some (revoke_transport_auth t))) ;;
      match t_cbtid t with
      | Some cbtid => cookiestore_setAuth cbtid None None None None None
      | None => ret tt
      end ;;
      ret (realm, authextra)
    else ret (realm, authextra)
  else ret (realm, authextra).

(** The branch of [onHello] for a transport without configured
    authentication: anybody may join as anonymous. *)
Definition hello_unconfigured (rnd : Random) (authmethods : list string)
    (realm : option string) (details : HelloDetails) : M Future :=
  if negb (str_in "anonymous" authmethods) then
    ret (FutValue (Deny (Some NO_AUTH_METHOD)
      (Some ("cannot authenticate [1] using any of the offered authmethods "
             ++ repr_list authmethods))))
  else if negb (truthy_str realm) then
    ret (FutValue (Deny (Some NO_SUCH_REALM) (Some "no realm requested")))
  else
    w <- get_world ;;
    if negb (in_dict (py_str realm) (routers w)) then
      ret (FutValue (Deny (Some NO_SUCH_REALM)
        (Some ("no realm " ++ dq ++ py_str realm ++ dq
               ++ " exists on this router"))))
    else
      t <- the_transport "_cbtid" ;;
      let authid :=
        if attr_truthy (t_cbtid t)
        then py_str (mjoin (t_cbtid t))
        else generate_serial_number rnd in
      start_pending_auth "anonymous" (StaticAnonymous authid) realm details.

(** The branch of [onHello] for a transport that is already
    authenticated. *)
Definition hello_preauthenticated (t : Transport) (realm : option string)
    (authextra : option Dict) : M Future :=
  w <- get_world ;;
  rt <- match realm with
        | Some r =>
            match routers w !! r with
            | Some rt => ret rt
            | None => raise (KeyError realm)
            end
        | None => raise (KeyError None)
        end ;;
  if has_role rt (t_authrole t) then
    ret (FutValue (Accept realm (t_authid t) (t_authrole t) (t_authmethod t)
                          (t_authprovider t) authextra))
  else
    ret (FutValue (Deny (Some NO_SUCH_ROLE)
      (Some ("session was previously authenticated (via transport), but role "
             ++ dq ++ py_str (t_authrole t) ++ dq
             ++ " no longer exists on realm " ++ dq ++ py_str realm ++ dq)))).

(** The test of ["perform authentication"]. *)
Definition is_preauthenticated (t : Transport) (authmethods : list string) : bool :=
  is_set (t_authid t)
  && (opt_eqb (t_authmethod t) "trusted"
      || opt_in (t_authprovider t) authmethods).

Definition onHello (rnd : Random) (realm : option string)
    (details : HelloDetails) : M Future :=
  try_except
    (let authmethods := effective_authmethods details in
     s <- get_session ;;
     assert (is_set (_transport s)) ;;
     ra <- restore_or_revoke authmethods realm (hd_authextra details) ;;
     let realm := fst ra in
     let authextra := snd ra in
     t <- the_transport "_authid" ;;
     if is_preauthenticated t authmethods then
       hello_preauthenticated t realm authextra
     else
       match auth (_transport_config s) with
       | Some auth_config =>
           if dict_is_empty auth_config
           then hello_unconfigured rnd authmethods realm details
           else hello_loop authmethods auth_config realm details authmethods
       | None => hello_unconfigured rnd authmethods realm details
       end)
    (fun e =>
       ret (FutValue (Deny None (Some ("internal error: " ++ exn_str e))))).

(** The classes [onAuthenticate] accepts a signature for. *)
Definition verifies_signature (c : PAClass) : bool :=
  match c with
  | PendingAuthTicket | PendingAuthWampCra | PendingAuthCryptosign
  | PendingAuthCryptosignProxy | PendingAuthScram => true
  | _ => false
  end.

Definition onAuthenticate (signature : string) : M Future :=
  try_except
    (s <- get_session ;;
     match _pending_auth s with
     | Some pa =>
         if verifies_signature (pa_class pa) then
           match pa_authenticate E pa signature with
           | PARaise e => raise e
           | PAReturn f => ret f
           end
         else
           ret (FutValue (Deny None
             (Some "internal error: unexpected pending authentication")))
     | None =>
         ret (FutValue (Deny None (Some "no pending authentication")))
     end)
    (fun e =>
       ret (FutValue (Deny None (Some ("internal error: " ++ exn_str e))))).

(** The dictionary [custom] the success callbacks build. *)
Definition custom_of (t : Transport) : Dict :=
  <["x_cb_pid" := AInt (getpid E)]>
    (<["x_cb_peer" := AStr (peer t)]>
       (<["x_cb_worker" := worker_id E]>
          (<["x_cb_node" := node_id E]> ∅))).

(** The callbacks [onMessage] adds to the future of [onHello]. *)
Definition onHello_success (res : Disposition) : M unit :=
  s <- get_session ;;
  match _transport s with
  | None => ret tt
  | Some t =>
      match res with
      | Accept realm authid authrole authmethod authprovider authextra =>
          welcome realm authid authrole authmethod authprovider authextra
                  (custom_of t)
      | Challenge method extra => transport_send (FChallenge method extra)
      | Deny reason message => transport_send (FAbort reason message)
      end
  end.

Definition onHello_error (err : string) : M unit :=
  _swallow_error_and_abort err.

(** The callbacks [onMessage] adds to the future of [onAuthenticate]. *)
Definition onAuthenticate_success (res : Disposition) : M unit :=
  s <- get_session ;;
  match _transport s with
  | None => ret tt
  | Some t =>
      match res with
      | Accept realm authid authrole authmethod authprovider authextra =>
          welcome realm authid authrole authmethod authprovider authextra
                  (custom_of t)
      | Deny reason message => transport_send (FAbort reason message)
      | Challenge _ _ => ret tt
      end
  end.

Definition onAuthenticate_error (err : string) : M unit :=
  _swallow_error_and_abort err.

(** A future with its two callbacks added, waiting to resolve. *)
Inductive Callback : Type :=
| CbHello (f : Future)
| CbAuthenticate (f : Future).

(** The future resolves: its success or its error callback runs. *)
Definition fire (cb : Callback) : M unit :=
  match cb with
  | CbHello (FutValue res) => onHello_success res
  | CbHello (FutFailure err) => onHello_error err
  | CbAuthenticate (FutValue res) => onAuthenticate_success res
  | CbAuthenticate (FutFailure err) => onAuthenticate_error err
  end.

(** The joined-state handling of GOODBYE. *)
Definition on_goodbye (reason : string) (message : option string) : M unit :=
  s <- get_session ;;
  (if negb (_goodbye_sent s) then
     transport_send (FGoodbye None None) ;;
     modify_session (set_goodbye_sent true)
   else ret tt) ;;
  try_except router_detach (fun _ => ret tt) ;;
  s1 <- get_session ;;
  modify_session (set_previous_session_id (_session_id s1)) ;;
  modify_session (set_session_id None) ;;
  modify_session (set_pending_session_id None) ;;
  s2 <- get_session ;;
  match _service_session s2 with
  | Some svc =>
      service_publish svc "wamp.session.on_leave"
        [PSession (_previous_session_id s2)]
  | None => ret tt
  end ;;
  onLeave {| cd_reason := Some reason; cd_message := message |}.

(** The not-yet-joined handling of ABORT. *)
Definition on_abort (reason : string) (message : option string) : M unit :=
  onLeave {| cd_reason := Some reason; cd_message := message |} ;;
  modify_session (set_session_id None) ;;
  modify_session (set_previous_session_id None) ;;
  modify_session (set_pending_session_id None).

(** [if not self._pending_session_id:
       self._pending_session_id = util.id()] *)
Definition reserve_session_id (rnd : Random) : M unit :=
  s <- get_session ;;
  when (negb (is_set (_pending_session_id s)))
    (modify_session (set_pending_session_id (Some (util_id rnd)))).

(** [onMessage] up to the point where it has added the callbacks to a
    future, which it returns; [None] when the message is handled
    without a future. *)
Definition onMessage_begin (rnd : Random) (msg : Msg) : M (option Callback) :=
  s <- get_session ;;
  match _session_id s with
  | None =>
      reserve_session_id rnd ;;
      match msg with
      | Hello realm roles authmethods authid authrole authextra =>
          modify_session (set_session_roles roles) ;;
          s1 <- get_session ;;
          f <- onHello rnd realm
                 {| hd_realm := realm;
                    hd_authmethods := authmethods;
                    hd_authid := authid;
                    hd_authrole := authrole;
                    hd_authextra := authextra;
                    hd_session_roles := roles;
                    hd_pending_session := _pending_session_id s1 |} ;;
          ret (Some (CbHello f))
      | Authenticate signature =>
          f <- onAuthenticate signature ;;
          ret (Some (CbAuthenticate f))
      | Abort reason message =>
          on_abort reason message ;; ret None
      | _ => ret None
      end
  | Some _ =>
      match msg with
      | Hello _ _ _ _ _ _ => ret None
      | Goodbye reason message =>
          on_goodbye reason message ;; ret None
      | _ => router_process msg ;; ret None
      end
  end.

(** [onMessage] when the future is resolved by the time the callbacks
    are added: they run at once. *)
Definition onMessage (rnd : Random) (msg : Msg) : M unit :=
  cb <- onMessage_begin rnd msg ;;
  match cb with
  | Some cb => fire cb
  | None => ret tt
  end.

End RouterSession.

(** The methods are unfolded by name only. *)
Arguments ret : simpl never.
Arguments raise : simpl never.
Arguments bind : simpl never.
Arguments try_except : simpl never.
Arguments get_session : simpl never.
Arguments get_world : simpl never.
Arguments modify_session : simpl never.
Arguments modify_world : simpl never.
Arguments emit : simpl never.
Arguments when : simpl never.
Arguments assert : simpl never.
Arguments read_attr : simpl never.
Arguments the_transport : simpl never.
Arguments transport_send : simpl never.
Arguments the_router : simpl never.
Arguments router_detach : simpl never.
Arguments router_attach : simpl never.
Arguments router_process : simpl never.
Arguments service_publish : simpl never.
Arguments the_cookiestore : simpl never.
Arguments cookiestore_setAuth : simpl never.
Arguments cookiestore_delAuth : simpl never.
Arguments onOpen : simpl never.
Arguments logout_kick : simpl never.
Arguments leave_stats : simpl never.
Arguments leave_router : simpl never.
Arguments leave_publish : simpl never.
Arguments onLeave : simpl never.
Arguments onClose : simpl never.
Arguments leave : simpl never.
Arguments _swallow_error_and_abort : simpl never.
Arguments join_stats : simpl never.
Arguments onJoin : simpl never.
Arguments join_cookie : simpl never.
Arguments join_router : simpl never.
Arguments welcome : simpl never.
Arguments pending_auth_klass : simpl never.
Arguments start_pending_auth : simpl never.
Arguments restore_or_revoke : simpl never.
Arguments hello_unconfigured : simpl never.
Arguments hello_preauthenticated : simpl never.
Arguments onHello : simpl never.
Arguments onAuthenticate : simpl never.
Arguments onHello_success : simpl never.
Arguments onHello_error : simpl never.
Arguments onAuthenticate_success : simpl never.
Arguments onAuthenticate_error : simpl never.
Arguments fire : simpl never.
Arguments on_goodbye : simpl never.
Arguments on_abort : simpl never.
Arguments reserve_session_id : simpl never.
Arguments onMessage_begin : simpl never.
Arguments onMessage : simpl never.

(** * Reasoning about methods *)

(** [keeps p m]: running [m] leaves the observation [p] of the world
    as it was, whether [m] returns or raises. *)
Definition keeps {A B} (p : World -> B) (m : M A) : Prop :=
  forall w, p (world (m w)) = p w.

(** [mute sel m]: none of the events of [m] is selected by [sel]. *)
Definition mute {A X} (sel : Event -> option X) (m : M A) : Prop :=
  forall w, omap sel (trace (m w)) = [].

(** [wp m Q w]: the outcome of [m] from [w] (result, world and trace)
    satisfies [Q]. *)
Definition wp {A} (m : M A) (Q : Exn + A -> World -> list Event -> Prop)
    (w : World) : Prop :=
  Q (result (m w)) (world (m w)) (trace (m w)).
Arguments wp : simpl never.

(** ** Sample data *)

Definition td0 : TransportDetails :=
  {| channel_type := "websocket";
     channel_framing := "websocket";
     channel_serializer := "json";
     http_headers_received := ∅ |}.

(** A transport without identity, cookie or configuration. *)
Definition transport0 : Transport :=
  {| ident := 1;
     peer := "tcp4:127.0.0.1:50000";
     transport_details := td0;
     factory_config := Some no_config;
     serializer_stats := ∅;
     t_authid := None;
     t_authrole := None;
     t_authmethod := None;
     t_authprovider := None;
     t_authextra := None;
     t_authrealm := Some None;
     t_cbtid := Some None |}.

Definition router0 : Router :=
  {| r_roles := ["anonymous"; "user"];
     r_attach_roles := AObj 0;
     r_service_session := true;
     r_stats := None |}.

(** A session on which [onOpen] has not run, on a router with the
    realm [realm1]. *)
Definition world0 : World :=
  {| session := init_session;
     routers := <["realm1" := router0]> ∅;
     cookiestore := None;
     attached := ∅ |}.

Definition rnd0 : Random :=
  {| util_id := 7%positive; generate_serial_number := "ABCD-EFGH" |}.

(** An environment: the method tables, a ticket-like pending
    authentication that challenges and then accepts the signature
    [secret], and an anonymous one that accepts. *)
Definition env0 : Env :=
  {| AUTHMETHODS :=
       ["ticket"; "wampcra"; "tls"; "cryptosign"; "cryptosign-proxy";
        "cookie"; "anonymous"; "anonymous-proxy"; "scram"];
     AUTHMETHOD_MAP :=
       <["anonymous" := Some PendingAuthAnonymous]>
         (<["ticket" := Some PendingAuthTicket]>
            (<["wampcra" := Some PendingAuthWampCra]>
               (<["cookie" := None]> ∅)));
     EXTRA_AUTH_METHODS := ∅;
     node_id := AStr "node1";
     worker_id := AStr "worker1";
     getpid := 4711%Z;
     pa_hello := fun pa realm d =>
       match pa_config pa with
       | StaticAnonymous a =>
           PAReturn (FutValue (Accept realm (Some a) (Some "anonymous")
                                 (Some "anonymous") (Some "static") None))
       | Configured _ => PAReturn (FutValue (Challenge "ticket" None))
       end;
     pa_authenticate := fun pa sig =>
       if String.eqb sig "secret"
       then PAReturn (FutValue (Accept (Some "realm1") (Some "joe")
                                  (Some "user") (Some "ticket")
                                  (Some "static") None))
       else PAReturn (FutValue (Deny (Some "wamp.error.authorization_failed") None));
     parse_cookie := fun h => <["cbtid" := h]> ∅;
     TransportDetails_parse := fun _ => td0 |}.

(** [world0] after [onOpen transport0]. *)
Definition world_open : World := world (onOpen transport0 world0).

(** ... and after an anonymous HELLO for [realm1]: a joined session. *)
Definition world_joined : World :=
  world (onMessage env0 rnd0
           (Hello (Some "realm1") ANone None None None None) world_open).

(** What [leave_router] writes to the trace. *)
Definition router_events (s : Session) (details : CloseDetails) : list Event :=
  match _router s with
  | Some r =>
      map (EvProcess r) (_testaments_detached s)
      ++ map (EvProcess r) (_testaments_destroyed s)
      ++ [EvSessionLeft r (_session_details s) details]
  | None => []
  end.

(** A transport whose configuration has ticket authentication. *)
Definition transport_ticket : Transport :=
  {| ident := 2;
     peer := "tcp4:127.0.0.1:50002";
     transport_details := td0;
     factory_config := Some {| auth := Some (<["ticket" := AObj 1]> ∅) |};
     serializer_stats := ∅;
     t_authid := None;
     t_authrole := None;
     t_authmethod := None;
     t_authprovider := None;
     t_authextra := None;
     t_authrealm := Some None;
     t_cbtid := Some None |}.

(** A session that was sent a CHALLENGE and waits for AUTHENTICATE. *)
Definition world_challenged : World :=
  world (onMessage env0 rnd0
           (Hello (Some "realm1") ANone (Some ["ticket"]) (Some "joe") None None)
           (world (onOpen transport_ticket world0))).

(** [world_challenged] after the transport is closed. *)
Definition world_lost : World := world (onClose true world_challenged).

(** A transport with the cookie id [COOKIE1], and a cookie store in
    which three transports are bound to that cookie. *)
Definition transport_cookie : Transport :=
  {| ident := 3;
     peer := "tcp4:127.0.0.1:50003";
     transport_details := td0;
     factory_config := Some no_config;
     serializer_stats := ∅;
     t_authid := None;
     t_authrole := None;
     t_authmethod := None;
     t_authprovider := None;
     t_authextra := None;
     t_authrealm := Some None;
     t_cbtid := Some (Some "COOKIE1") |}.

Definition cookiestore0 : CookieStore :=
  {| cookies :=
       <["COOKIE1" := {| ck_authid := Some "joe";
                         ck_authrole := Some "user";
                         ck_authmethod := Some "ticket";
                         ck_authextra := None;
                         ck_authrealm := Some "realm1" |}]> ∅;
     protos := <["COOKIE1" := [3; 4; 5]]> ∅ |}.

Definition world_cookie : World :=
  set_cookiestore (Some cookiestore0) (world (onOpen transport_cookie world0)).

(** ** Notions for the statements about [onHello] *)

(** The first block of [onHello] takes realm and authextra from the
    transport. *)
Definition restores (t : Transport) (authmethods : list string) : bool :=
  attr_truthy (t_authrealm t) && str_in "cookie" authmethods.

(** The first block of [onHello] revokes the identity of the transport. *)
Definition revokes (t : Transport) (authmethods : list string) : bool :=
  attr_truthy (t_authrealm t) && negb (str_in "cookie" authmethods)
  && opt_eqb (t_authprovider t) "cookie".

(** The transport has no authentication configured:
    [not self._transport_config.get('auth', None)]. *)
Definition unconfigured (c : TransportConfig) : bool :=
  match auth c with Some d => dict_is_empty d | None => true end.

(** The loop of [onHello] passes over [authmethod]: it is a known
    method, and it is not configured or not available. *)
Definition skipped (E : Env) (auth_config : gmap string Any)
    (authmethod : string) : bool :=
  (str_in authmethod (AUTHMETHODS E) || in_dict authmethod (EXTRA_AUTH_METHODS E))
  && (negb (in_dict authmethod auth_config)
      || (negb (in_dict authmethod (AUTHMETHOD_MAP E))
          && negb (in_dict authmethod (EXTRA_AUTH_METHODS E)))).

(** The loop of [onHello] reaches its cookie branch for the method
    [cookie]: the method is known, configured and available, and no
    extra method of the personality goes by that name. *)
Definition cookie_usable (E : Env) (auth_config : gmap string Any) : bool :=
  str_in "cookie" (AUTHMETHODS E)
  && in_dict "cookie" auth_config
  && in_dict "cookie" (AUTHMETHOD_MAP E)
  && negb (in_dict "cookie" (EXTRA_AUTH_METHODS E)).

(** A transport that comes with an identity someone else established:
    the method is [trusted], the provider is [cookie], and a realm is
    stored. *)
Definition transport_trusted : Transport :=
  {| ident := 6;
     peer := "tcp4:127.0.0.1:50006";
     transport_details := td0;
     factory_config := Some no_config;
     serializer_stats := ∅;
     t_authid := Some "joe";
     t_authrole := Some "user";
     t_authmethod := Some "trusted";
     t_authprovider := Some "cookie";
     t_authextra := None;
     t_authrealm := Some (Some "realm1");
     t_cbtid := None |}.

Definition world_trusted : World := world (onOpen transport_trusted world0).

(** A transport authenticated by its TLS client certificate. *)
Definition transport_tls : Transport :=
  {| ident := 7;
     peer := "tcp4:127.0.0.1:50007";
     transport_details := td0;
     factory_config := Some no_config;
     serializer_stats := ∅;
     t_authid := Some "client1";
     t_authrole := Some "user";
     t_authmethod := Some "tls";
     t_authprovider := Some "tls";
     t_authextra := None;
     t_authrealm := None;
     t_cbtid := None |}.

Definition world_tls : World := world (onOpen transport_tls world0).

Definition hello_details (realm : option string) (authmethods : option (list string))
    : HelloDetails :=
  {| hd_realm := realm;
     hd_authmethods := authmethods;
     hd_authid := None;
     hd_authrole := None;
     hd_authextra := None;
     hd_session_roles := ANone;
     hd_pending_session := Some 7%positive |}.

Definition auth_ticket : gmap string Any := <["ticket" := AObj 1]> ∅.
Definition auth_ticket_cookie : gmap string Any :=
  <["cookie" := AObj 2]> (<["ticket" := AObj 1]> ∅).

(** A transport with cookie tracking, on which a client authenticates
    with a ticket. *)
Definition transport_first : Transport :=
  {| ident := 8;
     peer := "tcp4:127.0.0.1:50008";
     transport_details := td0;
     factory_config := Some {| auth := Some auth_ticket_cookie |};
     serializer_stats := ∅;
     t_authid := None;
     t_authrole := None;
     t_authmethod := None;
     t_authprovider := None;
     t_authextra := None;
     t_authrealm := Some None;
     t_cbtid := Some (Some "COOKIE1") |}.

(** The session of [transport_first] before and after it has joined
    with the ticket [secret]. *)
Definition world_first : World :=
  set_cookiestore (Some {| cookies := ∅; protos := <["COOKIE1" := [8]]> ∅ |})
    (world (onOpen transport_first world0)).

Definition world_first_joined : World :=
  world (onMessage env0 rnd0 (Authenticate "secret")
    (world (onMessage env0 rnd0
       (Hello (Some "realm1") ANone (Some ["ticket"]) (Some "joe") None None)
       world_first))).

(** A later transport that presents the same cookie in its headers,
    with cookie authentication configured or not. *)
Definition transport_return (auth_config : gmap string Any) : Transport :=
  {| ident := 9;
     peer := "tcp4:127.0.0.1:50009";
     transport_details :=
       {| channel_type := "websocket";
          channel_framing := "websocket";
          channel_serializer := "json";
          http_headers_received := <["set-cookie" := "COOKIE1"]> ∅ |};
     factory_config := Some {| auth := Some auth_config |};
     serializer_stats := ∅;
     t_authid := None;
     t_authrole := None;
     t_authmethod := None;
     t_authprovider := None;
     t_authextra := None;
     t_authrealm := Some None;
     t_cbtid := Some (Some "COOKIE1") |}.

(** A fresh session on the later transport, with the cookie store the
    first session has left. *)
Definition world_return (auth_config : gmap string Any) : World :=
  set_cookiestore (cookiestore world_first_joined)
    (world (onOpen (transport_return auth_config) world0)).

(** The session of [transport_cookie] as [welcome] leaves it when it
    calls [onJoin]: the realm is assigned. *)
Definition world_welcomed : World :=
  set_session (set_realm (Some "realm1") (session world_cookie)) world_cookie.

Definition details_joe : SessionDetails :=
  {| sd_realm := Some "realm1";
     sd_session := Some 7%positive;
     sd_authid := Some "joe";
     sd_authrole := Some "user";
     sd_authmethod := Some "ticket";
     sd_authprovider := Some "static";
     sd_authextra := <["x_cb_node" := AStr "node1"]> ∅;
     sd_serializer := "json";
     sd_resumed := false;
     sd_resumable := false;
     sd_resume_token := None;
     sd_transport := td0 |}.

(** A fresh session on a later transport, with the cookie store as
    [onJoin details_joe] on [world_welcomed] leaves it. *)
Definition world_second : World :=
  set_cookiestore (cookiestore (world (onJoin details_joe world_welcomed)))
    (world (onOpen (transport_return auth_ticket_cookie) world0)).

(** The messages of the handshake that start a future. *)
Definition is_handshake (msg : Msg) : bool :=
  match msg with
  | Hello _ _ _ _ _ _ | Authenticate _ => true
  | _ => false
  end.

Definition welcomes (tr : list Event) : nat := count_frames is_welcome tr.
Definition aborts (tr : list Event) : nat := count_frames is_abort tr.

(** What the handshake relies on between a message and the resolution
    of its future: the ids of the session, the routers, and which
    transport the session is on. *)
Definition handshake_frame (w : World)
    : option Id * option Id * gmap string Router * option nat :=
  (_session_id (session w), _pending_session_id (session w), routers w,
   ident <$> _transport (session w)).

(** ** Notions for the further properties *)

(** For a publication of [wamp.session.on_stats]: its arguments. *)
Definition on_stats_published (e : Event) : option (list Payload) :=
  match e with
  | EvPublish _ topic args _ =>
      if String.eqb topic "wamp.session.on_stats" then Some args else None
  | _ => None
  end.

Definition on_stats_publications (tr : list Event) : list (list Payload) :=
  omap on_stats_published tr.

(** The arguments of a statistics publication say that it is the last
    one of the session: [session_stats['last'] = True]. *)
Definition marked_last (args : list Payload) : bool :=
  match args with
  | [_; PDict stats] =>
      match stats !! "last" with
      | Some (ABool true) => true
      | _ => false
      end
  | _ => false
  end.

(** For a publication of [wamp.session.on_stats] that is marked as the
    last one: its arguments. *)
Definition last_stats_published (e : Event) : option (list Payload) :=
  match on_stats_published e with
  | Some args => if marked_last args then Some args else None
  | None => None
  end.

Definition last_stats_publications (tr : list Event) : list (list Payload) :=
  omap last_stats_published tr.

(** What [try: self._router.detach(self)  except Exception: ...] does. *)
Definition detach_events (w : World) : list Event :=
  match _router (session w) with
  | Some r => if bool_decide (r ∈ attached w) then [EvDetach r] else []
  | None => []
  end.

Definition detach_world (w : World) : World :=
  match _router (session w) with
  | Some r =>
      if bool_decide (r ∈ attached w)
      then set_attached (attached w ∖ {[r]}) w else w
  | None => w
  end.

(** The session as the handling of a GOODBYE leaves it: the reply is
    sent, the id is moved to [_previous_session_id], the details are
    dropped. *)
Definition said_goodbye (sid : Id) (s : Session) : Session :=
  set_session_details None
    (set_pending_session_id None
       (set_session_id None
          (set_previous_session_id (Some sid)
             (set_goodbye_sent true s)))).

(** The session at the point where the handling of a GOODBYE calls
    [onLeave]. *)
Definition cleared_for_goodbye (sid : Id) (s : Session) : Session :=
  set_pending_session_id None
    (set_session_id None
       (set_previous_session_id (Some sid)
          (set_goodbye_sent true s))).

(** What the handling of a GOODBYE writes before it calls [onLeave]:
    the reply, the detaching, the meta-event. *)
Definition goodbye_events (sid : Id) (w : World) : list Event :=
  match _transport (session w) with
  | Some t =>
      if _goodbye_sent (session w) then []
      else [EvSend (ident t) (FGoodbye None None)]
  | None => []
  end
  ++ detach_events w
  ++ match _service_session (session w) with
     | Some svc =>
         [EvPublish svc "wamp.session.on_leave" [PSession (Some sid)] None]
     | None => []
     end.

(** The session of [transport_cookie] after an anonymous HELLO for
    [realm1]: joined, with its identity recorded for the cookie. *)
Definition world_cookie_joined : World :=
  world (onMessage env0 rnd0
           (Hello (Some "realm1") ANone None None None None) world_cookie).





(** A transport without identity that has the realm [realm1] stored,
    and a fresh session on it. *)
Definition transport_stored_realm : Transport :=
  {| ident := 10;
     peer := "tcp4:127.0.0.1:50010";
     transport_details := td0;
     factory_config := Some no_config;
     serializer_stats := ∅;
     t_authid := None;
     t_authrole := None;
     t_authmethod := None;
     t_authprovider := None;
     t_authextra := None;
     t_authrealm := Some (Some "realm1");
     t_cbtid := Some None |}.

Definition world_stored_realm : World :=
  world (onOpen transport_stored_realm world0).

(** ** Rules for [keeps] *)
Section Keeps.
Context {B : Type} (p : World -> B).

Lemma keeps_ret {A} (a : A) : keeps p (ret a).
Proof. intros w. reflexivity. Qed.

Lemma keeps_raise {A} e : keeps p (@raise A e).
Proof. intros w. reflexivity. Qed.

Lemma keeps_emit e : keeps p (emit e).
Proof. intros w. reflexivity. Qed.

Lemma keeps_get_session : keeps p get_session.
Proof. intros w. reflexivity. Qed.

Lemma keeps_get_world : keeps p get_world.
Proof. intros w. reflexivity. Qed.

Lemma keeps_bind {A C} (m : M A) (f : A -> M C) :
  keeps p m -> (forall a, keeps p (f a)) -> keeps p (bind m f).
Proof.
  intros Hm Hf w. unfold bind. specialize (Hm w).
  destruct (m w) as [[e|a] w1 t1]; cbn in *; [exact Hm|].
  specialize (Hf a w1). destruct (f a w1) as [r w2 t2]; cbn in *. congruence.
Qed.

Lemma keeps_try_except {A} (m : M A) (h : Exn -> M A) :
  keeps p m -> (forall e, keeps p (h e)) -> keeps p (try_except m h).
Proof.
  intros Hm Hh w. unfold try_except. specialize (Hm w).
  destruct (m w) as [[e|a] w1 t1]; cbn in *; [|exact Hm].
  specialize (Hh e w1). destruct (h e w1) as [r w2 t2]; cbn in *. congruence.
Qed.

Lemma keeps_modify_world (f : World -> World) :
  (forall w, p (f w) = p w) -> keeps p (modify_world f).
Proof. intros H w. apply H. Qed.

Lemma keeps_modify_session (f : Session -> Session) :
  (forall w, p (set_session (f (session w)) w) = p w) ->
  keeps p (modify_session f).
Proof. intros H w. apply H. Qed.

Lemma keeps_when b m : keeps p m -> keeps p (when b m).
Proof. intros H. destruct b; [exact H|apply keeps_ret]. Qed.

Lemma keeps_for_each {A} (xs : list A) f :
  (forall x, keeps p (f x)) -> keeps p (for_each xs f).
Proof.
  intros H. induction xs as [|x xs IH]; cbn; [apply keeps_ret|].
  apply keeps_bind; [apply H|intros _; exact IH].
Qed.

Lemma keeps_assert b : keeps p (assert b).
Proof. destruct b; [apply keeps_ret|apply keeps_raise]. Qed.

Lemma keeps_read_attr {A} n (a : Attr A) : keeps p (read_attr n a).
Proof. destruct a; [apply keeps_ret|apply keeps_raise]. Qed.

End Keeps.

(** ** Rules for [mute] *)
Section Mute.
Context {X : Type} (sel : Event -> option X).

Lemma mute_ret {A} (a : A) : mute sel (ret a).
Proof. intros w. reflexivity. Qed.

Lemma mute_raise {A} e : mute sel (@raise A e).
Proof. intros w. reflexivity. Qed.

Lemma mute_emit e : sel e = None -> mute sel (emit e).
Proof. intros H w. unfold emit. cbn. rewrite H. reflexivity. Qed.

Lemma mute_get_session : mute sel get_session.
Proof. intros w. reflexivity. Qed.

Lemma mute_get_world : mute sel get_world.
Proof. intros w. reflexivity. Qed.

Lemma mute_modify_world f : mute sel (modify_world f).
Proof. intros w. reflexivity. Qed.

Lemma mute_modify_session f : mute sel (modify_session f).
Proof. intros w. reflexivity. Qed.

Lemma mute_bind {A C} (m : M A) (f : A -> M C) :
  mute sel m -> (forall a, mute sel (f a)) -> mute sel (bind m f).
Proof.
  intros Hm Hf w. unfold bind. specialize (Hm w).
  destruct (m w) as [[e|a] w1 t1]; cbn in *; [exact Hm|].
  specialize (Hf a w1). destruct (f a w1) as [r w2 t2]; cbn in *.
  rewrite omap_app, Hm, Hf. reflexivity.
Qed.

Lemma mute_try_except {A} (m : M A) (h : Exn -> M A) :
  mute sel m -> (forall e, mute sel (h e)) -> mute sel (try_except m h).
Proof.
  intros Hm Hh w. unfold try_except. specialize (Hm w).
  destruct (m w) as [[e|a] w1 t1]; cbn in *; [|exact Hm].
  specialize (Hh e w1). destruct (h e w1) as [r w2 t2]; cbn in *.
  rewrite omap_app, Hm, Hh. reflexivity.
Qed.

Lemma mute_when b m : mute sel m -> mute sel (when b m).
Proof. intros H. destruct b; [exact H|apply mute_ret]. Qed.

Lemma mute_for_each {A} (xs : list A) f :
  (forall x, mute sel (f x)) -> mute sel (for_each xs f).
Proof.
  intros H. induction xs as [|x xs IH]; cbn; [apply mute_ret|].
  apply mute_bind; [apply H|intros _; exact IH].
Qed.

Lemma mute_assert b : mute sel (assert b).
Proof. destruct b; [apply mute_ret|apply mute_raise]. Qed.

Lemma mute_read_attr {A} n (a : Attr A) : mute sel (read_attr n a).
Proof. destruct a; [apply mute_ret|apply mute_raise]. Qed.

End Mute.

(** ** Rules for [wp] *)
Section Wp.
Context {A : Type} (Q : Exn + A -> World -> list Event -> Prop) (w : World).

Lemma wp_ret a : Q (inr a) w [] -> wp (ret a) Q w.
Proof. intros H; exact H. Qed.

Lemma wp_raise e : Q (inl e) w [] -> wp (raise e) Q w.
Proof. intros H; exact H. Qed.

Lemma wp_bind {C} (m : M C) (f : C -> M A) :
  wp m (fun r w1 t1 =>
          match r with
          | inl e => Q (inl e) w1 t1
          | inr c => wp (f c) (fun r2 w2 t2 => Q r2 w2 (t1 ++ t2)) w1
          end) w ->
  wp (bind m f) Q w.
Proof.
  unfold wp, bind. destruct (m w) as [[e|c] w1 t1]; cbn; [intros H; exact H|].
  destruct (f c w1) as [r w2 t2]; intros H; exact H.
Qed.

Lemma wp_try_except (m : M A) (h : Exn -> M A) :
  wp m (fun r w1 t1 =>
          match r with
          | inl e => wp (h e) (fun r2 w2 t2 => Q r2 w2 (t1 ++ t2)) w1
          | inr a => Q (inr a) w1 t1
          end) w ->
  wp (try_except m h) Q w.
Proof.
  unfold wp, try_except. destruct (m w) as [[e|a] w1 t1]; cbn;
    [|intros H; exact H].
  destruct (h e w1) as [r w2 t2]; intros H; exact H.
Qed.

Lemma wp_conseq (m : M A) (R : Exn + A -> World -> list Event -> Prop) :
  wp m R w -> (forall r w1 t1, R r w1 t1 -> Q r w1 t1) -> wp m Q w.
Proof. intros H HI. apply HI, H. Qed.

End Wp.

Section WpPrim.
Context (Q : Exn + unit -> World -> list Event -> Prop) (w : World).

Lemma wp_emit e : Q (inr tt) w [e] -> wp (emit e) Q w.
Proof. intros H; exact H. Qed.

Lemma wp_modify_session f :
  Q (inr tt) (set_session (f (session w)) w) [] -> wp (modify_session f) Q w.
Proof. intros H; exact H. Qed.

Lemma wp_modify_world f : Q (inr tt) (f w) [] -> wp (modify_world f) Q w.
Proof. intros H; exact H. Qed.

Lemma wp_when (b : bool) m :
  (if b then wp m Q w else Q (inr tt) w []) -> wp (when b m) Q w.
Proof. destruct b; intros H; exact H. Qed.

Lemma wp_assert (b : bool) :
  (if b then Q (inr tt) w [] else Q (inl AssertionError) w []) ->
  wp (assert b) Q w.
Proof. destruct b; intros H; exact H. Qed.

End WpPrim.

Lemma wp_get_session (Q : Exn + Session -> World -> list Event -> Prop) w :
  Q (inr (session w)) w [] -> wp get_session Q w.
Proof. intros H; exact H. Qed.

Lemma wp_get_world (Q : Exn + World -> World -> list Event -> Prop) w :
  Q (inr w) w [] -> wp get_world Q w.
Proof. intros H; exact H. Qed.

Lemma wp_read_attr {A} (Q : Exn + A -> World -> list Event -> Prop) w n
    (a : Attr A) :
  match a with
  | Some v => Q (inr v) w []
  | None => Q (inl (AttributeError n)) w []
  end ->
  wp (read_attr n a) Q w.
Proof. destruct a; intros H; exact H. Qed.

(** What [keeps] and [mute] say about an outcome. *)
Lemma wp_keeps {A B} (p : World -> B) (m : M A) w :
  keeps p m -> wp m (fun _ w1 _ => p w1 = p w) w.
Proof. intros H. apply H. Qed.

Lemma wp_mute {A X} (sel : Event -> option X) (m : M A) w :
  mute sel m -> wp m (fun _ _ t1 => omap sel t1 = []) w.
Proof. intros H. apply H. Qed.

Lemma wp_and {A} (m : M A) (Q R : Exn + A -> World -> list Event -> Prop) w :
  wp m Q w -> wp m R w -> wp m (fun r w1 t1 => Q r w1 t1 /\ R r w1 t1) w.
Proof. intros HQ HR. split; assumption. Qed.

(** ** Tactics *)
Ltac unfold_prims :=
  unfold transport_send, the_transport, the_router, router_detach,
    router_attach, router_process, service_publish, the_cookiestore,
    cookiestore_setAuth, cookiestore_delAuth.

Ltac keeps_step :=
  match goal with
  | |- keeps _ (bind _ _) => apply keeps_bind; [|intros ?]
  | |- keeps _ (try_except _ _) => apply keeps_try_except; [|intros ?]
  | |- keeps _ (ret _) => apply keeps_ret
  | |- keeps _ (raise _) => apply keeps_raise
  | |- keeps _ (emit _) => apply keeps_emit
  | |- keeps _ get_session => apply keeps_get_session
  | |- keeps _ get_world => apply keeps_get_world
  | |- keeps _ (modify_session _) =>
      apply keeps_modify_session; intros ?; reflexivity
  | |- keeps _ (modify_world _) =>
      apply keeps_modify_world; intros ?; reflexivity
  | |- keeps _ (when _ _) => apply keeps_when
  | |- keeps _ (for_each _ _) => apply keeps_for_each; intros ?
  | |- keeps _ (assert _) => apply keeps_assert
  | |- keeps _ (read_attr _ _) => apply keeps_read_attr
  | |- keeps _ (match ?x with _ => _ end) => destruct x
  | |- keeps _ (let _ := _ in _) => cbv zeta
  end.

Ltac keeps_auto := repeat (unfold_prims; keeps_step).

Ltac mute_step :=
  match goal with
  | |- mute _ (bind _ _) => apply mute_bind; [|intros ?]
  | |- mute _ (try_except _ _) => apply mute_try_except; [|intros ?]
  | |- mute _ (ret _) => apply mute_ret
  | |- mute _ (raise _) => apply mute_raise
  | |- mute _ (emit _) => apply mute_emit; reflexivity
  | |- mute _ get_session => apply mute_get_session
  | |- mute _ get_world => apply mute_get_world
  | |- mute _ (modify_session _) => apply mute_modify_session
  | |- mute _ (modify_world _) => apply mute_modify_world
  | |- mute _ (when _ _) => apply mute_when
  | |- mute _ (for_each _ _) => apply mute_for_each; intros ?
  | |- mute _ (assert _) => apply mute_assert
  | |- mute _ (read_attr _ _) => apply mute_read_attr
  | |- mute _ (match ?x with _ => _ end) => destruct x
  | |- mute _ (let _ := _ in _) => cbv zeta
  end.

Ltac mute_auto := repeat (unfold_prims; mute_step).

Ltac wp_step :=
  lazymatch goal with
  | |- wp (bind _ _) _ _ => apply wp_bind
  | |- wp (try_except _ _) _ _ => apply wp_try_except
  | |- wp (ret _) _ _ => apply wp_ret
  | |- wp (raise _) _ _ => apply wp_raise
  | |- wp (emit _) _ _ => apply wp_emit
  | |- wp get_session _ _ => apply wp_get_session
  | |- wp get_world _ _ => apply wp_get_world
  | |- wp (modify_session _) _ _ => apply wp_modify_session
  | |- wp (modify_world _) _ _ => apply wp_modify_world
  | |- wp (when _ _) _ _ => apply wp_when
  | |- wp (assert _) _ _ => apply wp_assert
  | |- wp (read_attr _ _) _ _ => apply wp_read_attr
  | |- wp (transport_send _) _ _ => unfold transport_send
  | |- wp (the_transport _) _ _ => unfold the_transport
  | |- wp (the_router _) _ _ => unfold the_router
  | |- wp router_detach _ _ => unfold router_detach
  | |- wp router_attach _ _ => unfold router_attach
  | |- wp (router_process _) _ _ => unfold router_process
  | |- wp (service_publish _ _ _) _ _ => unfold service_publish
  | |- wp (the_cookiestore _) _ _ => unfold the_cookiestore
  | |- wp (cookiestore_setAuth _ _ _ _ _ _) _ _ => unfold cookiestore_setAuth
  | |- wp (cookiestore_delAuth _) _ _ => unfold cookiestore_delAuth
  end; cbn.

(** Decide a [match] of the program: by a hypothesis about its
    scrutinee if there is one, by cases otherwise. *)
Ltac wp_case :=
  lazymatch goal with
  | |- wp (match ?x with _ => _ end) _ _ =>
      first [ progress (match goal with H : x = _ |- _ => rewrite H end)
            | destruct x eqn:? ]
  | |- match ?x with _ => _ end =>
      first [ progress (match goal with H : x = _ |- _ => rewrite H end)
            | destruct x eqn:? ]
  end; cbn.

Ltac wp_go := repeat (first [wp_step | wp_case]).

Ltac wp_use lem := eapply wp_conseq; [apply lem|]; cbn.

(** ** More rules *)
Lemma wp_eq {A} (m : M A) (o : Outcome A) Q w :
  m w = o -> Q (result o) (world o) (trace o) -> wp m Q w.
Proof. intros <-. intros H; exact H. Qed.

Lemma wp_run {A} (m : M A) w (o : Outcome A) :
  wp m (fun r w1 t1 => mkOut r w1 t1 = o) w -> m w = o.
Proof. unfold wp. destruct (m w). intros H; exact H. Qed.

(** [try: m  except Exception: pass] returns, and keeps what [m] keeps. *)
Lemma wp_swallow {B} (p : World -> B) (m : M unit) w :
  keeps p m ->
  wp (try_except m (fun _ => ret tt))
     (fun r w1 _ => r = inr tt /\ p w1 = p w) w.
Proof.
  intros H. unfold wp, try_except. specialize (H w).
  destruct (m w) as [[e|[]] w1 t1]; cbn in *; auto.
Qed.

Lemma omap_map_none {X Y} (sel : Event -> option X) (f : Y -> Event) ys :
  (forall y, sel (f y) = None) -> omap sel (map f ys) = [].
Proof.
  intros H. induction ys as [|y ys IH]; cbn; [reflexivity|].
  rewrite H. exact IH.
Qed.

Lemma closed_protos_sendClose ps : closed_protos (map EvSendClose ps) = ps.
Proof. induction ps as [|p ps IH]; cbn; [reflexivity|]. f_equal. exact IH. Qed.

(** ** The loops of [onLeave] *)
Lemma for_each_process ms w r :
  _router (session w) = Some r ->
  for_each ms router_process w = mkOut (inr tt) w (map (EvProcess r) ms).
Proof.
  intros Hr. induction ms as [|m ms IH]; [reflexivity|].
  cbn [for_each]. unfold bind at 1.
  unfold router_process at 1, the_router, bind, get_session, emit, ret.
  rewrite Hr, IH. reflexivity.
Qed.

Lemma for_each_kick ps me w :
  for_each ps (fun proto =>
    when (negb (Nat.eqb proto me)) (emit (EvSendClose proto))) w
  = mkOut (inr tt) w
      (map EvSendClose (List.filter (fun p => negb (Nat.eqb p me)) ps)).
Proof.
  induction ps as [|p ps IH]; [reflexivity|].
  cbn [for_each List.filter]. unfold bind at 1.
  destruct (negb (Nat.eqb p me)).
  - change (when true (emit (EvSendClose p)) w)
      with (mkOut (inr tt) w [EvSendClose p]).
    cbv iota. rewrite IH. reflexivity.
  - change (when false (emit (EvSendClose p)) w)
      with (mkOut (inr tt) w (@nil Event)).
    cbv iota. rewrite IH. reflexivity.
Qed.

(** ** [onLeave], part by part *)
Lemma leave_router_run details w :
  leave_router details w = mkOut (inr tt) w (router_events (session w) details).
Proof.
  unfold leave_router, router_events, bind at 1, get_session.
  destruct (_router (session w)) as [r|] eqn:Hr; [|reflexivity].
  unfold bind. rewrite (for_each_process _ w r Hr).
  rewrite (for_each_process _ w r Hr). reflexivity.
Qed.

Lemma leave_publish_unjoined w :
  _session_id (session w) = None -> leave_publish w = mkOut (inr tt) w [].
Proof.
  intros H. unfold leave_publish, bind, get_session. rewrite H.
  destruct (_service_session (session w)); reflexivity.
Qed.

Lemma logout_kick_run w t cbtid cs :
  _transport (session w) = Some t ->
  t_cbtid t = Some (Some cbtid) ->
  cbtid <> EmptyString ->
  cookiestore w = Some cs ->
  logout_kick w
  = mkOut (inr tt) (set_cookiestore (Some (cs_delAuth cs cbtid)) w)
      (EvDelAuth cbtid
       :: map EvSendClose
            (List.filter (fun p => negb (Nat.eqb p (ident t)))
               (cs_getProtos cs cbtid))).
Proof.
  intros Ht Hc Hne Hcs. apply wp_run. unfold logout_kick.
  assert (Htruthy : attr_truthy (t_cbtid t) = true).
  { rewrite Hc. cbn.
    destruct (String.eqb_spec cbtid EmptyString); [contradiction|reflexivity]. }
  wp_go. eapply wp_eq; [apply for_each_kick|]. reflexivity.
Qed.

Lemma router_events_not_closed s details :
  closed_protos (router_events s details) = [].
Proof.
  unfold router_events, closed_protos. destruct (_router s); [|reflexivity].
  rewrite !omap_app, !omap_map_none by reflexivity. reflexivity.
Qed.

Lemma router_events_not_sent s details :
  frames (router_events s details) = [].
Proof.
  unfold router_events, frames. destruct (_router s); [|reflexivity].
  rewrite !omap_app, !omap_map_none by reflexivity. reflexivity.
Qed.

Lemma router_events_not_published s details :
  on_leave_publications (router_events s details) = [].
Proof.
  unfold router_events, on_leave_publications. destruct (_router s); [|reflexivity].
  rewrite !omap_app, !omap_map_none by reflexivity. reflexivity.
Qed.

Lemma logout_kick_quiet w :
  wp logout_kick (fun r w1 t1 =>
    r = inr tt /\ session w1 = session w
    /\ frames t1 = [] /\ on_leave_publications t1 = []) w.
Proof.
  unfold logout_kick. wp_go; try (repeat split; reflexivity).
  eapply wp_eq; [apply for_each_kick|]. cbn.
  unfold frames, on_leave_publications. cbn.
  rewrite !omap_map_none by reflexivity. repeat split; reflexivity.
Qed.

(** [onLeave] on a session whose id is cleared: it returns, only
    [_session_details] changes in the session, the router's events come
    first, and nothing it writes is a frame or a publication of
    [wamp.session.on_leave]. *)
Lemma onLeave_unjoined details w :
  _session_id (session w) = None ->
  wp (onLeave details) (fun r w1 t1 =>
    r = inr tt
    /\ session w1 = set_session_details None (session w)
    /\ frames t1 = []
    /\ on_leave_publications t1 = []
    /\ exists rest, t1 = (router_events (session w) details ++ rest)%list) w.
Proof.
  intros Hsid. unfold onLeave.
  wp_step. eapply wp_eq; [apply leave_router_run|]. cbn.
  wp_step. eapply wp_eq; [apply (leave_publish_unjoined _ Hsid)|]. cbn.
  wp_step. wp_step. wp_step.
  destruct (opt_eqb (cd_reason details) "wamp.close.logout").
  - wp_use logout_kick_quiet. intros r w1 t1 (-> & Hs & Hf & Hp).
    split; [reflexivity|]. split; [exact Hs|].
    unfold frames, on_leave_publications in *.
    rewrite !omap_app, Hf, Hp.
    fold (frames (router_events (session w) details)).
    fold (on_leave_publications (router_events (session w) details)).
    rewrite router_events_not_sent, router_events_not_published.
    repeat split; try reflexivity. eexists. reflexivity.
  - cbn. rewrite !app_nil_r.
    rewrite router_events_not_sent, router_events_not_published.
    repeat split; try reflexivity. exists []. rewrite app_nil_r. reflexivity.
Qed.

Lemma onLeave_keeps_authextra d :
  keeps (fun w => _authextra (session w)) (onLeave d).
Proof.
  unfold onLeave, leave_router, leave_publish, leave_stats, logout_kick.
  keeps_auto.
Qed.

Lemma router_detach_keeps_session : keeps session router_detach.
Proof. keeps_auto. Qed.

Lemma router_detach_keeps_authextra :
  keeps (fun w => _authextra (session w)) router_detach.
Proof. keeps_auto. Qed.

(** [try: self._router.detach(self)  except Exception: ...] returns,
    leaves the session as it is and sends and publishes nothing. *)
Lemma detach_swallowed w :
  wp (try_except router_detach (fun _ => ret tt)) (fun r w1 t1 =>
    r = inr tt /\ session w1 = session w
    /\ frames t1 = [] /\ on_leave_publications t1 = []) w.
Proof. wp_go; repeat split; reflexivity. Qed.

(** The joined-state handling of GOODBYE, in full. *)
Lemma on_goodbye_joined reason message w sid :
  _session_id (session w) = Some sid ->
  (_goodbye_sent (session w) = false -> exists t, _transport (session w) = Some t) ->
  wp (on_goodbye reason message) (fun r w1 t1 =>
    r = inr tt
    /\ _session_id (session w1) = None
    /\ _previous_session_id (session w1) = Some sid
    /\ _pending_session_id (session w1) = None
    /\ _goodbye_sent (session w1) = true
    /\ frames t1 = (if _goodbye_sent (session w) then [] else [FGoodbye None None])
    /\ on_leave_publications t1
       = match _service_session (session w) with
         | Some _ => [([PSession (Some sid)], None)]
         | None => []
         end) w.
Proof.
  intros Hsid Ht. unfold on_goodbye. wp_step. wp_step.
  assert (Hrest : forall w0 pre,
    session w0 = set_goodbye_sent true (session w) ->
    frames pre = (if _goodbye_sent (session w) then [] else [FGoodbye None None]) ->
    on_leave_publications pre = [] ->
    wp (try_except router_detach (λ _ : Exn, ret ());;
         s1 <- get_session;;
         modify_session (set_previous_session_id (_session_id s1));;
         modify_session (set_session_id None);;
         modify_session (set_pending_session_id None);;
         s2 <- get_session;;
         match _service_session s2 with
         | Some svc =>
             service_publish svc "wamp.session.on_leave"
               [PSession (_previous_session_id s2)]
         | None => ret ()
         end;;
         onLeave {| cd_reason := Some reason; cd_message := message |})
     (fun r w1 t1 =>
    r = inr tt
    /\ _session_id (session w1) = None
    /\ _previous_session_id (session w1) = Some sid
    /\ _pending_session_id (session w1) = None
    /\ _goodbye_sent (session w1) = true
    /\ frames (pre ++ t1) = (if _goodbye_sent (session w) then [] else [FGoodbye None None])
    /\ on_leave_publications (pre ++ t1)
       = match _service_session (session w) with
         | Some _ => [([PSession (Some sid)], None)]
         | None => []
         end) w0).
  { intros w0 pre Hs0 Hf0 Hp0. wp_step. wp_use detach_swallowed.
    intros r w1 t1 (-> & Hs1 & Hf1 & Hp1).
    repeat wp_step. rewrite Hs1, Hs0. cbn. rewrite Hsid.
    destruct (_service_session (session w)) eqn:Hsvc.
    - repeat wp_step. wp_use onLeave_unjoined. { cbn. reflexivity. }
      intros r w2 t2 (-> & Hs2 & Hf2 & Hp2 & _). rewrite Hs2. cbn.
      repeat split; try reflexivity.
      + unfold frames in *. rewrite !omap_app, Hf1, Hf0. cbn. rewrite ?Hf2, ?app_nil_r. reflexivity.
      + unfold on_leave_publications in *. rewrite !omap_app, Hp1, Hp0. cbn. rewrite ?Hp2. reflexivity.
    - repeat wp_step. wp_use onLeave_unjoined. { cbn. reflexivity. }
      intros r w2 t2 (-> & Hs2 & Hf2 & Hp2 & _). rewrite Hs2. cbn.
      repeat split; try reflexivity.
      + unfold frames in *. rewrite !omap_app, Hf1, Hf0. cbn. rewrite ?Hf2, ?app_nil_r. reflexivity.
      + unfold on_leave_publications in *. rewrite !omap_app, Hp1, Hp0. cbn. rewrite ?Hp2. reflexivity. }
  destruct (_goodbye_sent (session w)) eqn:Hg; cbn.
  - repeat (first [eapply (Hrest w []) | wp_step]); try reflexivity.
    destruct w as [s rs cs att]. destruct s. cbn in *. subst. reflexivity.
  - destruct (Ht eq_refl) as [t Htt].
    repeat (first [eapply (Hrest _ [EvSend (ident t) (FGoodbye None None)])
                  | wp_step | wp_case]); reflexivity.
Qed.

Lemma wp_self {A} (m : M A) w :
  wp m (fun r w1 t1 => r = result (m w) /\ w1 = world (m w) /\ t1 = trace (m w)) w.
Proof. repeat split. Qed.

Lemma reserve_session_id_run rnd w :
  reserve_session_id rnd w
  = mkOut (inr tt)
      (if is_set (_pending_session_id (session w)) then w
       else set_session (set_pending_session_id (Some (util_id rnd)) (session w)) w)
      [].
Proof.
  unfold reserve_session_id, bind, get_session, when, modify_session, ret.
  destruct (_pending_session_id (session w)); reflexivity.
Qed.

Lemma onMessage_goodbye_joined E rnd reason message w sid :
  _session_id (session w) = Some sid ->
  onMessage E rnd (Goodbye reason message) w
  = let o := on_goodbye reason message w in mkOut (result o) (world o) (trace o).
Proof.
  intros Hsid. unfold onMessage, onMessage_begin, bind at 1 2, get_session. rewrite Hsid.
  unfold bind, ret. destruct (on_goodbye reason message w) as [[e|[]] w1 t1]; cbn.
  - reflexivity.
  - rewrite !app_nil_r. reflexivity.
Qed.


(** ** [onHello], part by part *)
Lemma restore_or_revoke_run authmethods realm authextra w t :
  _transport (session w) = Some t ->
  revokes t authmethods = false ->
  restore_or_revoke authmethods realm authextra w
  = mkOut (inr (if restores t authmethods
                then (mjoin (t_authrealm t), t_authextra t)
                else (realm, authextra))) w [].
Proof.
  intros Ht Hrev. apply wp_run. unfold restore_or_revoke, restores, revokes in *.
  repeat wp_step. rewrite Ht. cbn. wp_step.
  destruct (attr_truthy (t_authrealm t)); cbn in *; [|wp_step; reflexivity].
  destruct (str_in "cookie" authmethods); cbn in *; [wp_step; reflexivity|].
  rewrite Hrev. wp_step. reflexivity.
Qed.

Lemma hello_preauthenticated_run t realm authextra w r rt :
  realm = Some r ->
  routers w !! r = Some rt ->
  exists message,
    hello_preauthenticated t realm authextra w
    = mkOut (inr (FutValue
        (if has_role rt (t_authrole t)
         then Accept realm (t_authid t) (t_authrole t) (t_authmethod t)
                     (t_authprovider t) authextra
         else Deny (Some NO_SUCH_ROLE) message))) w [].
Proof.
  intros -> Hr. eexists. apply wp_run. unfold hello_preauthenticated.
  repeat wp_step. rewrite Hr. cbn. wp_step.
  destruct (has_role rt (t_authrole t)); wp_step; reflexivity.
Qed.

(** [onHello] from the point where the first block has done nothing
    to the session. *)
Lemma onHello_unrevoked E rnd realm details w t :
  _transport (session w) = Some t ->
  revokes t (effective_authmethods details) = false ->
  let authmethods := effective_authmethods details in
  let realm' := if restores t authmethods then mjoin (t_authrealm t) else realm in
  let authextra' :=
    if restores t authmethods then t_authextra t else hd_authextra details in
  onHello E rnd realm details w
  = try_except
      (if is_preauthenticated t authmethods then
         hello_preauthenticated t realm' authextra'
       else
         match auth (_transport_config (session w)) with
         | Some auth_config =>
             if dict_is_empty auth_config
             then hello_unconfigured E rnd authmethods realm' details
             else hello_loop E authmethods auth_config realm' details authmethods
         | None => hello_unconfigured E rnd authmethods realm' details
         end)
      (fun e =>
         ret (FutValue (Deny None (Some ("internal error: " ++ exn_str e))))) w.
Proof.
  intros Ht Hrev. cbv zeta. unfold onHello, try_except.
  unfold bind at 1, get_session. unfold bind at 1, assert. rewrite Ht.
  cbn [is_set]. unfold ret at 1. unfold bind at 1.
  rewrite (restore_or_revoke_run _ _ _ w t Ht Hrev).
  unfold bind at 1, the_transport, bind at 1, get_session. rewrite Ht. unfold ret at 1.
  cbn [app].
  destruct (restores t (effective_authmethods details)); cbv beta zeta; cbn [fst snd].
  all: match goal with
       | |- _ = match ?x with _ => _ end =>
           destruct x as [[e|a] w1 t1]; reflexivity
       end.
Qed.

Lemma hello_unconfigured_no_realm E rnd authmethods realm details w :
  str_in "anonymous" authmethods = true ->
  (truthy_str realm = false \/ exists r, realm = Some r /\ routers w !! r = None) ->
  exists message,
    hello_unconfigured E rnd authmethods realm details w
    = mkOut (inr (FutValue (Deny (Some NO_SUCH_REALM) message))) w [].
Proof.
  intros Hanon Hrealm. unfold hello_unconfigured. rewrite Hanon. cbn [negb].
  destruct (truthy_str realm) eqn:Htr; cbn [negb]; [|eexists; reflexivity].
  destruct Hrealm as [|(r & -> & Hr)]; [discriminate|].
  unfold bind, get_world, in_dict, py_str. cbn. rewrite Hr. cbn.
  eexists. reflexivity.
Qed.

Lemma truthy_nonempty c : c <> EmptyString -> truthy_str (Some c) = true.
Proof.
  intros H. cbn. destruct (String.eqb_spec c EmptyString); [contradiction|reflexivity].
Qed.

Lemma join_cookie_run details w t c cs :
  _transport (session w) = Some t ->
  t_cbtid t = Some (Some c) ->
  c <> EmptyString ->
  sd_authmethod details <> Some "cookie" ->
  cookiestore w = Some cs ->
  let a := {| ck_authid := sd_authid details;
              ck_authrole := sd_authrole details;
              ck_authmethod := sd_authmethod details;
              ck_authextra := Some (sd_authextra details);
              ck_authrealm := _realm (session w) |} in
  join_cookie details w
  = mkOut (inr tt)
      (set_cookiestore
         (Some (cs_setAuth cs (Some c) (ck_authid a) (ck_authrole a)
                  (ck_authmethod a) (ck_authextra a) (ck_authrealm a))) w)
      [EvSetAuth (Some c) a].
Proof.
  intros Ht Hc Hne Hm Hcs. cbv zeta. apply wp_run. unfold join_cookie.
  assert (Hnc : opt_eqb (sd_authmethod details) "cookie" = false).
  { destruct (sd_authmethod details) as [m|]; [|reflexivity]. cbn.
    destruct (String.eqb_spec m "cookie"); [subst; contradiction|reflexivity]. }
  repeat wp_step. rewrite Ht. cbn. rewrite Hc, Hnc. cbn.
  destruct (String.eqb_spec c EmptyString); [contradiction|]. cbn.
  wp_go. reflexivity.
Qed.

Lemma join_router_keeps_cookiestore details :
  keeps cookiestore (join_router details).
Proof. unfold join_router, join_stats. keeps_auto. Qed.

(** What [onJoin] records is in the cookie store afterwards, whether
    the rest of [onJoin] returns or raises. *)
Lemma onJoin_records_cookie details w t c cs :
  _transport (session w) = Some t ->
  t_cbtid t = Some (Some c) ->
  c <> EmptyString ->
  sd_authmethod details <> Some "cookie" ->
  cookiestore w = Some cs ->
  cookiestore (world (onJoin details w))
  = Some (cs_setAuth cs (Some c) (sd_authid details) (sd_authrole details)
            (sd_authmethod details) (Some (sd_authextra details))
            (_realm (session w))).
Proof.
  intros Ht Hc Hne Hm Hcs. unfold onJoin, bind.
  rewrite (join_cookie_run details w t c cs Ht Hc Hne Hm Hcs). cbv zeta.
  cbn [ck_authid ck_authrole ck_authmethod ck_authextra ck_authrealm].
  match goal with |- context [join_router details ?w1] =>
    pose proof (join_router_keeps_cookiestore details w1) as Hk;
    destruct (join_router details w1) as [r w2 t2] end.
  cbn in *. exact Hk.
Qed.

Lemma hello_loop_skip E authmethods auth_config realm details pre rest w :
  Forall (fun m => skipped E auth_config m = true) pre ->
  hello_loop E authmethods auth_config realm details (pre ++ rest) w
  = hello_loop E authmethods auth_config realm details rest w.
Proof.
  induction 1 as [|m pre Hm _ IH]; [reflexivity|].
  cbn [app hello_loop]. unfold skipped in Hm.
  apply andb_prop in Hm. destruct Hm as [Hknown Hskip].
  replace (negb (str_in m (AUTHMETHODS E)) && negb (in_dict m (EXTRA_AUTH_METHODS E)))
    with false by (rewrite <- negb_orb, Hknown; reflexivity).
  destruct (in_dict m auth_config); cbn [negb] in *; [|exact IH].
  cbn in Hskip. rewrite Hskip. exact IH.
Qed.

Lemma hello_loop_cookie E authmethods auth_config realm details rest w t c cs a :
  cookie_usable E auth_config = true ->
  _transport (session w) = Some t ->
  received_cbtid E t = Some c ->
  c <> EmptyString ->
  cookiestore w = Some cs ->
  cs_getAuth cs c = Some a ->
  hello_loop E authmethods auth_config realm details ("cookie" :: rest) w
  = mkOut (inr (FutValue (Accept (ck_authrealm a) (ck_authid a) (ck_authrole a)
                            (ck_authmethod a) (Some "cookie") (ck_authextra a))))
      w [].
Proof.
  intros Hu Ht Hrc Hne Hcs Ha. unfold cookie_usable in Hu.
  apply andb_prop in Hu. destruct Hu as [Hu Hx].
  apply andb_prop in Hu. destruct Hu as [Hu Hmap].
  apply andb_prop in Hu. destruct Hu as [Hknown Hcfg].
  apply negb_true_iff in Hx.
  cbn [hello_loop]. rewrite Hknown, Hcfg, Hmap, Hx. cbn.
  assert (Hne' : negb (String.eqb c EmptyString) = true).
  { destruct (String.eqb_spec c EmptyString); [contradiction|reflexivity]. }
  assert (Hex : cs_exists cs c = true).
  { unfold cs_exists. unfold cs_getAuth in Ha. rewrite Ha. reflexivity. }
  apply wp_run. wp_go. reflexivity.
Qed.

Lemma in_dict_not_empty {V} (k : string) (d : gmap string V) :
  in_dict k d = true -> dict_is_empty d = false.
Proof.
  unfold in_dict, dict_is_empty. intros H.
  destruct (map_to_list d) eqn:Hl; [|reflexivity].
  apply map_to_list_empty_iff in Hl. subst d. rewrite lookup_empty in H. discriminate.
Qed.

Lemma str_in_middle x pre rest : str_in x (pre ++ x :: rest) = true.
Proof.
  unfold str_in. rewrite existsb_app. cbn. rewrite String.eqb_refl.
  rewrite orb_true_r. reflexivity.
Qed.

Lemma restore_or_revoke_keeps_frame authmethods realm authextra :
  keeps handshake_frame (restore_or_revoke authmethods realm authextra).
Proof.
  intros w.
  change (wp (restore_or_revoke authmethods realm authextra)
            (fun _ w1 _ => handshake_frame w1 = handshake_frame w) w).
  unfold restore_or_revoke, handshake_frame. wp_go; try reflexivity.
  all: match goal with H : _transport _ = _ |- _ => rewrite H end; reflexivity.
Qed.

Lemma start_pending_auth_keeps_frame E authmethod config realm details :
  keeps handshake_frame (start_pending_auth E authmethod config realm details).
Proof. unfold start_pending_auth, pending_auth_klass. keeps_auto. Qed.

Lemma hello_loop_keeps_frame E authmethods auth_config realm details todo :
  keeps handshake_frame (hello_loop E authmethods auth_config realm details todo).
Proof.
  induction todo as [|m todo IH]; cbn [hello_loop]; [apply keeps_ret|].
  repeat match goal with
         | |- keeps _ (if ?b then _ else _) => destruct b
         end; try exact IH; try apply start_pending_auth_keeps_frame.
  all: keeps_auto; try exact IH; try apply start_pending_auth_keeps_frame.
Qed.

Lemma onHello_keeps_frame E rnd realm details :
  keeps handshake_frame (onHello E rnd realm details).
Proof.
  unfold onHello, hello_preauthenticated, hello_unconfigured.
  keeps_auto;
    try apply restore_or_revoke_keeps_frame;
    try apply hello_loop_keeps_frame.
  all: repeat match goal with
         | |- keeps _ (if ?b then _ else _) => destruct b
         end; keeps_auto; try apply start_pending_auth_keeps_frame;
         try apply hello_loop_keeps_frame.
Qed.

Lemma start_pending_auth_mute E authmethod config realm details :
  mute sent (start_pending_auth E authmethod config realm details).
Proof. unfold start_pending_auth, pending_auth_klass. mute_auto. Qed.

Lemma hello_loop_mute E authmethods auth_config realm details todo :
  mute sent (hello_loop E authmethods auth_config realm details todo).
Proof.
  induction todo as [|m todo IH]; cbn [hello_loop]; [apply mute_ret|].
  repeat match goal with
         | |- mute _ (if ?b then _ else _) => destruct b
         end; try exact IH; try apply start_pending_auth_mute.
  all: mute_auto; try exact IH; try apply start_pending_auth_mute.
Qed.

(** [onHello] sends nothing. *)
Lemma onHello_mute E rnd realm details :
  mute sent (onHello E rnd realm details).
Proof.
  unfold onHello, restore_or_revoke, hello_preauthenticated, hello_unconfigured.
  mute_auto; try apply hello_loop_mute.
  all: repeat match goal with
         | |- mute _ (if ?b then _ else _) => destruct b
         end; mute_auto; try apply start_pending_auth_mute;
         try apply hello_loop_mute.
Qed.

(** [onHello] returns: every exception ends in a denial. *)
Lemma onHello_returns E rnd realm details w :
  exists f, result (onHello E rnd realm details w) = inr f.
Proof.
  unfold onHello, try_except.
  match goal with |- context [match ?x with _ => _ end] =>
    destruct x as [[e|f] w1 t1] end; cbn; eexists; reflexivity.
Qed.

(** [onAuthenticate] returns and changes nothing. *)
Lemma onAuthenticate_run E signature w :
  exists f, onAuthenticate E signature w = mkOut (inr f) w [].
Proof.
  unfold onAuthenticate, try_except, bind, get_session, ret, raise.
  destruct (_pending_auth (session w)) as [pa|]; [|eexists; reflexivity].
  destruct (verifies_signature (pa_class pa)); [|eexists; reflexivity].
  destruct (pa_authenticate E pa signature); eexists; reflexivity.
Qed.

(** [onJoin] sends nothing. *)
Lemma onJoin_mute details : mute sent (onJoin details).
Proof. unfold onJoin, join_cookie, join_router, join_stats. mute_auto. Qed.

(** [welcome] for a realm of the router factory sends one frame, a
    WELCOME, whether [onJoin] returns or raises. *)
Lemma welcome_sends_one E realm authid authrole authmethod authprovider
    authextra custom w t r rt :
  _transport (session w) = Some t ->
  realm = Some r ->
  routers w !! r = Some rt ->
  exists f,
    frames (trace (welcome E realm authid authrole authmethod authprovider
                     authextra custom w)) = [f]
    /\ is_welcome f = true.
Proof.
  intros Ht -> Hr.
  change (wp (welcome E (Some r) authid authrole authmethod authprovider
                authextra custom)
            (fun _ _ t1 => exists f, frames t1 = [f] /\ is_welcome f = true) w).
  unfold welcome. repeat wp_step. rewrite Hr. cbn. repeat wp_step. rewrite Hr. cbn.
  repeat wp_step. rewrite Ht. cbn. repeat wp_step. rewrite Ht. cbn. repeat wp_step.
  eapply wp_conseq; [apply (wp_mute sent), onJoin_mute|]; cbn.
  intros _ _ t1 Hmute. unfold frames. cbn. rewrite Hmute.
  eexists. split; reflexivity.
Qed.

(** [_swallow_error_and_abort] on a session with a transport sends one
    frame, an ABORT. *)
Lemma swallow_sends_abort fail w t :
  _transport (session w) = Some t ->
  frames (trace (_swallow_error_and_abort fail w))
  = [FAbort (Some "wamp.error.authorization_failed")
            (Some "Internal server error")].
Proof.
  intros Ht.
  change (wp (_swallow_error_and_abort fail)
            (fun _ _ t1 => frames t1
               = [FAbort (Some "wamp.error.authorization_failed")
                         (Some "Internal server error")]) w).
  unfold _swallow_error_and_abort. repeat wp_step. rewrite Ht. cbn. repeat wp_step.
  destruct (_router (session w)).
  - wp_use detach_swallowed. intros r w1 t1 (-> & _ & Hf & _).
    repeat wp_step. unfold frames in *. cbn. rewrite omap_app, Hf. reflexivity.
  - repeat wp_step. reflexivity.
Qed.

Lemma handshake_frame_joined w w1 t :
  handshake_frame w1 = handshake_frame w ->
  _session_id (session w) = None ->
  _transport (session w) = Some t ->
  _session_id (session w1) = None
  /\ exists t', _transport (session w1) = Some t'.
Proof.
  unfold handshake_frame. intros H Hsid Ht. rewrite Hsid, Ht in H.
  injection H as H1 _ _ H4. split; [exact H1|].
  destruct (_transport (session w1)) as [t'|]; [eexists; reflexivity|discriminate].
Qed.

(** A HELLO or AUTHENTICATE that reaches a session that has not joined
    starts one future; nothing is sent before it resolves, and the
    session is still not joined and on its transport. *)
Lemma onMessage_begin_handshake E rnd msg w t :
  _session_id (session w) = None ->
  _transport (session w) = Some t ->
  is_handshake msg = true ->
  let b := onMessage_begin E rnd msg w in
  frames (trace b) = []
  /\ (exists cb, result b = inr (Some cb))
  /\ _session_id (session (world b)) = None
  /\ exists t', _transport (session (world b)) = Some t'.
Proof.
  intros Hsid Ht Hmsg. cbv zeta.
  change (wp (onMessage_begin E rnd msg) (fun r w1 t1 =>
    frames t1 = [] /\ (exists cb, r = inr (Some cb))
    /\ _session_id (session w1) = None
    /\ exists t', _transport (session w1) = Some t') w).
  unfold onMessage_begin. repeat wp_step. rewrite Hsid.
  wp_step. eapply wp_eq; [apply reserve_session_id_run|]. cbn.
  set (w0 := if is_set (_pending_session_id (session w)) then w
             else set_session (set_pending_session_id (Some (util_id rnd)) (session w)) w).
  assert (Hsid0 : _session_id (session w0) = None).
  { unfold w0. destruct (is_set (_pending_session_id (session w))); exact Hsid. }
  assert (Ht0 : _transport (session w0) = Some t).
  { unfold w0. destruct (is_set (_pending_session_id (session w))); exact Ht. }
  destruct msg as [realm roles authmethods authid authrole authextra|signature| | |];
    try discriminate.
  - repeat wp_step.
    match goal with |- wp (onHello E rnd realm ?d) _ ?w1 =>
      pose proof (onHello_keeps_frame E rnd realm d w1) as Hk;
      pose proof (onHello_mute E rnd realm d w1) as Hm;
      destruct (onHello_returns E rnd realm d w1) as [f Hf];
      unfold wp; destruct (onHello E rnd realm d w1) as [res w2 t2]
    end.
    cbn in *. subst res. cbn.
    destruct (handshake_frame_joined _ w2 t Hk Hsid0 Ht0) as [Hs2 Ht2].
    unfold frames. rewrite app_nil_r. repeat split; try assumption.
    eexists. reflexivity.
  - repeat wp_step. destruct (onAuthenticate_run E signature w0) as [f Hf].
    eapply wp_eq; [exact Hf|]. cbn. repeat split; try assumption.
    + eexists. reflexivity.
    + eexists. exact Ht0.
Qed.

Lemma bind_get_session {A} (f : Session -> M A) w :
  bind get_session f w = f (session w) w.
Proof. unfold bind, get_session. destruct (f (session w) w). reflexivity. Qed.

Lemma send_one f w t :
  _transport (session w) = Some t ->
  frames (trace (transport_send f w)) = [f].
Proof.
  intros Ht. unfold transport_send, the_transport, bind, get_session, emit, ret.
  rewrite Ht. reflexivity.
Qed.



Lemma leave_after_goodbye reason message w :
  _goodbye_sent (session w) = true ->
  leave reason message w
  = mkOut (inl (SessionNotReady "Already requested to close the session")) w [].
Proof.
  intros Hg. unfold leave. rewrite bind_get_session, Hg. reflexivity.
Qed.


(** * The claims *)

(** C1, amended.  For a session that has not joined and has its
    transport: a HELLO or an AUTHENTICATE starts one future and sends
    nothing by itself; when the future resolves, an Accept for a realm
    of the router factory sends exactly one frame, a WELCOME; a Deny
    sends exactly one frame, the ABORT with its reason and message; a
    failed future sends exactly one frame, an ABORT; a Challenge from
    [onHello] sends exactly one frame, the CHALLENGE.  So a WELCOME and
    an ABORT are never both sent, nor two of either. *)
Theorem handshake_answers_once (E : Env) (rnd : Random) (w : World) (t : Transport) :
  _session_id (session w) = None ->
  _transport (session w) = Some t ->
  (forall msg, is_handshake msg = true ->
     let b := onMessage_begin E rnd msg w in
     frames (trace b) = []
     /\ (exists cb, result b = inr (Some cb))
     /\ _session_id (session (world b)) = None
     /\ exists t', _transport (session (world b)) = Some t')
  /\ (forall cb,
        let o := fire E cb w in
        match cb with
        | CbHello (FutValue (Accept realm _ _ _ _ _))
        | CbAuthenticate (FutValue (Accept realm _ _ _ _ _)) =>
            (exists r rt, realm = Some r /\ routers w !! r = Some rt) ->
            length (frames (trace o)) = 1
            /\ welcomes (trace o) = 1 /\ aborts (trace o) = 0
        | CbHello (FutValue (Deny reason message))
        | CbAuthenticate (FutValue (Deny reason message)) =>
            frames (trace o) = [FAbort reason message]
        | CbHello (FutFailure _) | CbAuthenticate (FutFailure _) =>
            frames (trace o)
            = [FAbort (Some "wamp.error.authorization_failed")
                      (Some "Internal server error")]
        | CbHello (FutValue (Challenge method extra)) =>
            frames (trace o) = [FChallenge method extra]
        | CbAuthenticate (FutValue (Challenge _ _)) =>
            frames (trace o) = []
        end).
Proof.
  intros Hsid Ht. split.
  - intros msg Hmsg. exact (onMessage_begin_handshake E rnd msg w t Hsid Ht Hmsg).
  - assert (Hwelcome : forall realm authid authrole authmethod authprovider authextra,
      (exists r rt, realm = Some r /\ routers w !! r = Some rt) ->
      let tr := trace (welcome E realm authid authrole authmethod authprovider
                         authextra (custom_of E t) w) in
      length (frames tr) = 1 /\ welcomes tr = 1 /\ aborts tr = 0).
    { intros realm authid authrole authmethod authprovider authextra (r & rt & Hrealm & Hr).
      cbv zeta. unfold welcomes, aborts, count_frames.
      destruct (welcome_sends_one E realm authid authrole authmethod authprovider
                  authextra (custom_of E t) w t r rt Ht Hrealm Hr) as (f & -> & Hf).
      destruct f; try discriminate. repeat split. }
    intros [[[realm authid authrole authmethod authprovider authextra
             |method extra|reason message]|err]
           |[[realm authid authrole authmethod authprovider authextra
             |method extra|reason message]|err]]; cbv zeta;
      unfold fire, onHello_success, onAuthenticate_success, onHello_error,
        onAuthenticate_error.
    all: try apply (swallow_sends_abort _ w t Ht).
    all: rewrite bind_get_session, Ht.
    all: try apply (send_one _ w t Ht).
    all: try (intros Hrealm;
              generalize (Hwelcome realm authid authrole authmethod authprovider
                            authextra Hrealm); cbv zeta;
              intros H; exact H).
    reflexivity.
Qed.

Lemma handshake_answers_once_witness :
  _session_id (session world_challenged) = None
  /\ _transport (session world_challenged) = Some transport_ticket
  /\ let o := fire env0
                (CbAuthenticate (FutValue (Accept (Some "realm1") (Some "joe")
                   (Some "user") (Some "ticket") (Some "static") None)))
                world_challenged in
     length (frames (trace o)) = 1
     /\ welcomes (trace o) = 1 /\ aborts (trace o) = 0.
Proof.
  split; [reflexivity|]. split; [reflexivity|].
  exact (proj2 (handshake_answers_once env0 rnd0 world_challenged
                  transport_ticket eq_refl eq_refl)
           (CbAuthenticate (FutValue (Accept (Some "realm1") (Some "joe")
              (Some "user") (Some "ticket") (Some "static") None)))
           (ex_intro _ "realm1" (ex_intro _ router0 (conj eq_refl eq_refl)))).
Defined.

(** C1 as stated fails: a HELLO that reaches a joined session is
    ignored, neither WELCOME nor ABORT is sent for it. *)
Lemma hello_on_joined_session_is_ignored :
  _session_id (session world_joined) = Some 7%positive
  /\ let o := onMessage env0 rnd0
                (Hello (Some "realm1") ANone None None None None) world_joined in
     result o = inr tt
     /\ trace o = []
     /\ welcomes (trace o) + aborts (trace o) = 0.
Proof. vm_compute. repeat split; reflexivity. Qed.

(** C2. In the joined-state handling of GOODBYE the session id is saved
    in [_previous_session_id] and cleared before [wamp.session.on_leave]
    is published on the service session: the publication, the only one
    of that topic, carries the saved id and is made while
    [_session_id] is [None], so it cannot come back to the departing
    session. *)
Theorem goodbye_publishes_on_leave_after_clearing (E : Env) (rnd : Random)
    (reason : string) (message : option string) (w : World) (sid : Id) (t : Transport) :
  _session_id (session w) = Some sid ->
  _transport (session w) = Some t ->
  let o := onMessage E rnd (Goodbye reason message) w in
  result o = inr tt
  /\ _session_id (session (world o)) = None
  /\ _previous_session_id (session (world o)) = Some sid
  /\ on_leave_publications (trace o)
     = match _service_session (session w) with
       | Some _ => [([PSession (_previous_session_id (session (world o)))], None)]
       | None => []
       end
  /\ Forall (fun p => may_reach_publisher (snd p) = false)
       (on_leave_publications (trace o)).
Proof.
  intros Hsid Ht. cbv zeta. rewrite (onMessage_goodbye_joined E rnd reason message w sid Hsid).
  cbv zeta. cbn [result world trace].
  destruct (on_goodbye_joined reason message w sid Hsid (fun _ => ex_intro _ t Ht))
    as (Hr & Hs & Hp & _ & _ & _ & Hpub).
  rewrite Hpub, Hp. repeat split; try assumption.
  destruct (_service_session (session w)); repeat constructor.
Qed.

Lemma goodbye_publishes_on_leave_after_clearing_witness :
  _session_id (session world_joined) = Some 7%positive
  /\ _transport (session world_joined) = Some transport0
  /\ let o := onMessage env0 rnd0 (Goodbye "wamp.close.normal" None) world_joined in
     on_leave_publications (trace o) = [([PSession (Some 7%positive)], None)].
Proof.
  split; [reflexivity|]. split; [reflexivity|].
  pose proof (goodbye_publishes_on_leave_after_clearing env0 rnd0
    "wamp.close.normal" None world_joined 7%positive transport0
    eq_refl eq_refl) as H.
  cbv zeta in *. destruct H as (_ & _ & Hp & Hpub & _).
  rewrite Hpub, Hp. reflexivity.
Defined.




(** C4, amended.  An ABORT received before the session has joined runs
    [onLeave] with the reason and message of the ABORT and clears
    [_session_id], [_previous_session_id] and [_pending_session_id];
    [_pending_auth] is left as it was. *)
Theorem abort_before_join_clears_ids_keeps_pending_auth (E : Env) (rnd : Random)
    (reason : string) (message : option string) (w : World) :
  _session_id (session w) = None ->
  let details := {| cd_reason := Some reason; cd_message := message |} in
  let o := onMessage E rnd (Abort reason message) w in
  result o = inr tt
  /\ trace o = trace (onLeave details (world (reserve_session_id rnd w)))
  /\ _session_id (session (world o)) = None
  /\ _previous_session_id (session (world o)) = None
  /\ _pending_session_id (session (world o)) = None
  /\ _pending_auth (session (world o)) = _pending_auth (session w).
Proof.
  intros Hsid. cbv zeta. rewrite reserve_session_id_run. cbn [world].
  set (w1 := if is_set (_pending_session_id (session w)) then w
             else set_session (set_pending_session_id (Some (util_id rnd)) (session w)) w).
  set (details := {| cd_reason := Some reason; cd_message := message |}).
  assert (Hsid1 : _session_id (session w1) = None).
  { unfold w1. destruct (is_set (_pending_session_id (session w))); exact Hsid. }
  assert (Hpa1 : _pending_auth (session w1) = _pending_auth (session w)).
  { unfold w1. destruct (is_set (_pending_session_id (session w))); reflexivity. }
  change (wp (onMessage E rnd (Abort reason message)) (fun r w2 t2 =>
    r = inr tt
    /\ t2 = trace (onLeave details w1)
    /\ _session_id (session w2) = None
    /\ _previous_session_id (session w2) = None
    /\ _pending_session_id (session w2) = None
    /\ _pending_auth (session w2) = _pending_auth (session w)) w).
  unfold onMessage, onMessage_begin. do 3 wp_step. rewrite Hsid.
  wp_step. eapply wp_eq; [apply reserve_session_id_run|]. cbn. fold w1.
  wp_step. unfold on_abort. wp_step.
  eapply wp_conseq.
  { apply wp_and; [apply (onLeave_unjoined details w1 Hsid1)|apply (wp_self (onLeave details) w1)]. }
  cbn. intros r w2 t2 [(-> & Hs & _) (_ & _ & ->)].
  wp_go. rewrite Hs. cbn. rewrite !app_nil_r. repeat split; try reflexivity. exact Hpa1.
Qed.

Lemma abort_before_join_clears_ids_keeps_pending_auth_witness :
  _session_id (session world_challenged) = None
  /\ let o := onMessage env0 rnd0 (Abort "wamp.error.canceled" None) world_challenged in
     _pending_session_id (session (world o)) = None
     /\ _pending_auth (session (world o)) = _pending_auth (session world_challenged).
Proof.
  split; [reflexivity|].
  pose proof (abort_before_join_clears_ids_keeps_pending_auth env0 rnd0
    "wamp.error.canceled" None world_challenged eq_refl) as H.
  cbv zeta in *. destruct H as (_ & _ & _ & _ & Hp & Ha). split; assumption.
Defined.

(** C4 as stated fails: after a CHALLENGE and an ABORT the pending
    authentication is still there. *)
Lemma abort_leaves_pending_auth_set :
  _session_id (session world_challenged) = None
  /\ frames (trace (onMessage env0 rnd0
       (Hello (Some "realm1") ANone (Some ["ticket"]) (Some "joe") None None)
       (world (onOpen transport_ticket world0)))) = [FChallenge "ticket" None]
  /\ _pending_auth (session (world
       (onMessage env0 rnd0 (Abort "wamp.error.canceled" None) world_challenged)))
     <> None.
Proof.
  split; [reflexivity|]. split; [vm_compute; reflexivity|].
  vm_compute. discriminate.
Qed.

(** C5. When the transport is gone by the time the future of [onHello]
    or [onAuthenticate] resolves, no event at all is written, so no
    WELCOME, CHALLENGE or ABORT is sent, and [_session_id] is still
    [None]: the success callbacks return at once, the error callbacks
    end in the [AttributeError] of [self._transport.send] on [None]. *)
Theorem lost_transport_resolves_silently (E : Env) (cb : Callback) (w : World) :
  _transport (session w) = None ->
  _session_id (session w) = None ->
  let o := fire E cb w in
  trace o = []
  /\ world o = w
  /\ _session_id (session (world o)) = None
  /\ result o = match cb with
                | CbHello (FutValue _) | CbAuthenticate (FutValue _) => inr tt
                | CbHello (FutFailure _) | CbAuthenticate (FutFailure _) =>
                    inl (AttributeError "send")
                end.
Proof.
  intros Ht Hsid. cbv zeta.
  assert (H : fire E cb w
    = mkOut (match cb with
             | CbHello (FutValue _) | CbAuthenticate (FutValue _) => inr tt
             | _ => inl (AttributeError "send")
             end) w []).
  { destruct cb as [[d|e]|[d|e]]; unfold fire, onHello_success,
      onAuthenticate_success, onHello_error, onAuthenticate_error,
      _swallow_error_and_abort, transport_send, the_transport, bind, get_session, ret, raise;
      rewrite Ht; reflexivity. }
  rewrite H. cbn. repeat split; try assumption.
Qed.

Lemma lost_transport_resolves_silently_witness :
  _transport (session world_lost) = None
  /\ _session_id (session world_lost) = None
  /\ trace (fire env0 (CbAuthenticate (FutFailure "timeout")) world_lost) = [].
Proof.
  split; [reflexivity|]. split; [reflexivity|].
  exact (proj1 (lost_transport_resolves_silently env0
    (CbAuthenticate (FutFailure "timeout")) world_lost eq_refl eq_refl)).
Defined.

(** C6, amended.  When the test of [onHello] for a transport that is
    already authenticated succeeds, the first block of [onHello] does
    not revoke the identity, and the realm (the one of the HELLO, or
    the one stored on the transport when that is restored) is a realm
    of the router factory, then [onHello] returns Accept with the
    authid, authrole, authmethod and authprovider of the transport if
    the realm has the role, and Deny with [wamp.error.no_such_role] if
    it has not; it changes nothing and calls nothing. *)
Theorem preauthenticated_hello_accepts_or_denies_role (E : Env) (rnd : Random)
    (realm : option string) (details : HelloDetails) (w : World)
    (t : Transport) (r : string) (rt : Router) :
  let authmethods := effective_authmethods details in
  let realm' := if restores t authmethods then mjoin (t_authrealm t) else realm in
  let authextra' :=
    if restores t authmethods then t_authextra t else hd_authextra details in
  _transport (session w) = Some t ->
  is_preauthenticated t authmethods = true ->
  revokes t authmethods = false ->
  realm' = Some r ->
  routers w !! r = Some rt ->
  let o := onHello E rnd realm details w in
  world o = w
  /\ trace o = []
  /\ (has_role rt (t_authrole t) = true ->
      result o = inr (FutValue (Accept realm' (t_authid t) (t_authrole t)
                                 (t_authmethod t) (t_authprovider t) authextra')))
  /\ (has_role rt (t_authrole t) = false ->
      exists message,
        result o = inr (FutValue (Deny (Some NO_SUCH_ROLE) message))).
Proof.
  intros authmethods realm' authextra' Ht Hpre Hrev Hrealm Hr. cbv zeta.
  rewrite (onHello_unrevoked E rnd realm details w t Ht Hrev). cbv zeta.
  fold authmethods. fold realm'. fold authextra'. rewrite Hpre.
  destruct (hello_preauthenticated_run t realm' authextra' w r rt Hrealm Hr)
    as [message Hrun].
  unfold try_except. rewrite Hrun. cbn.
  split; [reflexivity|]. split; [reflexivity|]. split.
  - intros ->. reflexivity.
  - intros ->. exists message. reflexivity.
Qed.

Lemma preauthenticated_hello_accepts_or_denies_role_witness :
  let o := onHello env0 rnd0 (Some "realm1")
             (hello_details (Some "realm1") (Some ["tls"])) world_tls in
  result o = inr (FutValue (Accept (Some "realm1") (Some "client1") (Some "user")
                             (Some "tls") (Some "tls") None)).
Proof.
  exact (proj1 (proj2 (proj2
    (preauthenticated_hello_accepts_or_denies_role env0 rnd0 (Some "realm1")
       (hello_details (Some "realm1") (Some ["tls"])) world_tls transport_tls
       "realm1" router0 eq_refl eq_refl eq_refl eq_refl eq_refl))) eq_refl).
Defined.

(** C6 as stated fails: a transport with an authid and the method
    [trusted] whose provider is [cookie], on a HELLO that does not
    offer [cookie], has its identity revoked and is not accepted,
    although the realm has the role. *)
Lemma revoked_identity_is_not_accepted :
  let t := transport_trusted in
  let details := hello_details (Some "realm1") (Some ["ticket"]) in
  _transport (session world_trusted) = Some t
  /\ t_authid t = Some "joe"
  /\ t_authmethod t = Some "trusted"
  /\ routers world_trusted !! "realm1" = Some router0
  /\ has_role router0 (t_authrole t) = true
  /\ result (onHello env0 rnd0 (Some "realm1") details world_trusted)
     = inr (FutValue (Deny (Some NO_AUTH_METHOD)
         (Some "cannot authenticate [1] using any of the offered authmethods ['ticket']"))).
Proof. vm_compute. repeat split; reflexivity. Qed.

(** C7, amended.  A session joins on a transport with a non-empty
    cookie id, by another method than [cookie], with a cookie store:
    its identity is recorded for the cookie.  Later a HELLO arrives at
    a session whose cookie store is the one the join left, on a
    transport that is not pre-authenticated and presents the same
    cookie id in its headers.  If [cookie] is a known method that is
    configured for the transport, is a key of [AUTHMETHOD_MAP] and is
    not the name of an extra method of the personality, and if every
    method offered before [cookie] is a known method that is not
    configured or not available, then [onHello] changes nothing and
    returns Accept with the realm, authid, authrole, authmethod and
    authextra that were recorded, and the authprovider [cookie]. *)
Theorem cookie_round_trip (E : Env) (rnd : Random) (details : SessionDetails)
    (w0 : World) (t1 : Transport) (cbtid : string) (cs : CookieStore)
    (realm : option string) (hello : HelloDetails) (w2 : World)
    (t2 : Transport) (auth_config : gmap string Any) (pre rest : list string) :
  _transport (session w0) = Some t1 ->
  t_cbtid t1 = Some (Some cbtid) ->
  cbtid <> EmptyString ->
  sd_authmethod details <> Some "cookie" ->
  cookiestore w0 = Some cs ->
  cookiestore w2 = cookiestore (world (onJoin details w0)) ->
  _transport (session w2) = Some t2 ->
  received_cbtid E t2 = Some cbtid ->
  is_preauthenticated t2 (effective_authmethods hello) = false ->
  auth (_transport_config (session w2)) = Some auth_config ->
  cookie_usable E auth_config = true ->
  effective_authmethods hello = (pre ++ "cookie" :: rest)%list ->
  Forall (fun m => skipped E auth_config m = true) pre ->
  let o := onHello E rnd realm hello w2 in
  world o = w2
  /\ result o
     = inr (FutValue (Accept (_realm (session w0)) (sd_authid details)
                        (sd_authrole details) (sd_authmethod details)
                        (Some "cookie") (Some (sd_authextra details)))).
Proof.
  intros Ht1 Hc Hne Hm Hcs Hstore Ht2 Hrc Hpre Hcfg Hu Ham Hskip. cbv zeta.
  rewrite (onJoin_records_cookie details w0 t1 cbtid cs Ht1 Hc Hne Hm Hcs) in Hstore.
  assert (Hrev : revokes t2 (effective_authmethods hello) = false).
  { unfold revokes. rewrite Ham, str_in_middle. cbn.
    rewrite andb_false_r. reflexivity. }
  rewrite (onHello_unrevoked E rnd realm hello w2 t2 Ht2 Hrev). cbv zeta.
  rewrite Hpre, Hcfg.
  assert (Hin : in_dict "cookie" auth_config = true).
  { unfold cookie_usable in Hu. apply andb_prop in Hu. destruct Hu as [Hu _].
    apply andb_prop in Hu. destruct Hu as [Hu _].
    apply andb_prop in Hu. destruct Hu as [_ Hu]. exact Hu. }
  rewrite (in_dict_not_empty _ _ Hin).
  rewrite Ham. unfold try_except.
  rewrite (hello_loop_skip E _ _ _ _ pre _ w2 Hskip).
  rewrite (hello_loop_cookie E _ auth_config _ hello rest w2 t2 cbtid _
             {| ck_authid := sd_authid details;
                ck_authrole := sd_authrole details;
                ck_authmethod := sd_authmethod details;
                ck_authextra := Some (sd_authextra details);
                ck_authrealm := _realm (session w0) |}
             Hu Ht2 Hrc Hne Hstore).
  - split; reflexivity.
  - unfold cs_getAuth, cs_setAuth. cbn. apply lookup_insert_eq.
Qed.

Lemma cookie_round_trip_witness :
  result (onHello env0 rnd0 (Some "realm1")
            (hello_details (Some "realm1") (Some ["cookie"])) world_second)
  = inr (FutValue (Accept (Some "realm1") (Some "joe") (Some "user")
                     (Some "ticket") (Some "cookie")
                     (Some (<["x_cb_node" := AStr "node1"]> ∅)))).
Proof.
  exact (proj2 (cookie_round_trip env0 rnd0 details_joe world_welcomed
    transport_cookie "COOKIE1" cookiestore0 (Some "realm1")
    (hello_details (Some "realm1") (Some ["cookie"])) world_second
    (transport_return auth_ticket_cookie) auth_ticket_cookie [] []
    eq_refl eq_refl ltac:(discriminate) ltac:(discriminate) eq_refl
    eq_refl eq_refl eq_refl eq_refl eq_refl eq_refl eq_refl (List.Forall_nil _))).
Defined.

(** C7 as stated fails: the first session has joined with a ticket and
    its identity is recorded for the cookie, the later HELLO presents
    the cookie and offers [cookie], but the transport has no
    configuration for [cookie]: the answer is a denial. *)
Lemma cookie_not_configured_is_denied :
  let hello := hello_details (Some "realm1") (Some ["cookie"]) in
  (exists cs a,
     cookiestore world_first_joined = Some cs
     /\ cs_getAuth cs "COOKIE1" = Some a
     /\ ck_authid a = Some "joe"
     /\ ck_authmethod a = Some "ticket")
  /\ received_cbtid env0 (transport_return auth_ticket) = Some "COOKIE1"
  /\ str_in "cookie" (effective_authmethods hello) = true
  /\ result (onHello env0 rnd0 (Some "realm1") hello (world_return auth_ticket))
     = inr (FutValue (Deny (Some NO_AUTH_METHOD)
         (Some "cannot authenticate [2] using any of the offered authmethods ['cookie']"))).
Proof.
  cbv zeta. split.
  - eexists _, _. vm_compute. repeat split; reflexivity.
  - vm_compute. repeat split; reflexivity.
Qed.

Lemma cookie_configured_is_accepted :
  exists authextra,
    result (onHello env0 rnd0 (Some "realm1")
              (hello_details (Some "realm1") (Some ["cookie"]))
              (world_return auth_ticket_cookie))
    = inr (FutValue (Accept (Some "realm1") (Some "joe") (Some "user")
                       (Some "ticket") (Some "cookie") authextra)).
Proof. eexists. vm_compute. reflexivity. Qed.

(** A method the router does not know, offered before [cookie], ends
    the loop of [onHello] before [cookie] is looked at, although it is
    neither configured nor available. *)
Lemma unknown_method_before_cookie_is_denied :
  skipped env0 auth_ticket_cookie "bogus" = false
  /\ in_dict "bogus" auth_ticket_cookie = false
  /\ cookie_usable env0 auth_ticket_cookie = true
  /\ result (onHello env0 rnd0 (Some "realm1")
               (hello_details (Some "realm1") (Some ["bogus"; "cookie"]))
               (world_return auth_ticket_cookie))
     = inr (FutValue (Deny None
         (Some ("invalid authmethod " ++ dq ++ "bogus" ++ dq)))).
Proof. vm_compute. repeat split; reflexivity. Qed.

(** C8, amended.  On a transport without configured authentication
    whose stored identity is neither used (the transport is not
    pre-authenticated) nor revoked by the first block of [onHello], a
    HELLO that offers [anonymous] (or nothing) is denied with
    [wamp.error.no_such_realm] when the realm it is taken for is
    missing, empty, or not a realm of the router factory.  The realm a
    HELLO is taken for is the one it names, unless the transport has a
    realm stored and [cookie] is among the offered methods: then it is
    the stored realm.  Nothing is changed and nothing is called. *)
Theorem unconfigured_hello_unknown_realm_denied (E : Env) (rnd : Random)
    (realm : option string) (details : HelloDetails) (w : World) (t : Transport) :
  let authmethods := effective_authmethods details in
  let realm' := if restores t authmethods then mjoin (t_authrealm t) else realm in
  _transport (session w) = Some t ->
  revokes t authmethods = false ->
  is_preauthenticated t authmethods = false ->
  unconfigured (_transport_config (session w)) = true ->
  str_in "anonymous" authmethods = true ->
  (truthy_str realm' = false \/ exists r, realm' = Some r /\ routers w !! r = None) ->
  let o := onHello E rnd realm details w in
  world o = w
  /\ trace o = []
  /\ exists message,
       result o = inr (FutValue (Deny (Some NO_SUCH_REALM) message)).
Proof.
  intros authmethods realm' Ht Hrev Hpre Hcfg Hanon Hrealm. cbv zeta.
  rewrite (onHello_unrevoked E rnd realm details w t Ht Hrev). cbv zeta.
  fold authmethods. fold realm'. rewrite Hpre.
  destruct (hello_unconfigured_no_realm E rnd authmethods realm' details w Hanon Hrealm)
    as [message Hrun].
  unfold unconfigured in Hcfg. unfold try_except.
  destruct (auth (_transport_config (session w))) as [cfg|]; [rewrite Hcfg|];
    rewrite Hrun; cbn; repeat split; exists message; reflexivity.
Qed.

Lemma unconfigured_hello_unknown_realm_denied_witness :
  routers world_open !! "realm2" = None
  /\ exists message,
       result (onHello env0 rnd0 (Some "realm2")
                 (hello_details (Some "realm2") None) world_open)
       = inr (FutValue (Deny (Some NO_SUCH_REALM) message)).
Proof.
  split; [reflexivity|].
  exact (proj2 (proj2
    (unconfigured_hello_unknown_realm_denied env0 rnd0 (Some "realm2")
       (hello_details (Some "realm2") None) world_open transport0
       eq_refl eq_refl eq_refl eq_refl eq_refl
       (or_intror (ex_intro _ "realm2" (conj eq_refl eq_refl)))))).
Defined.

(** C8 as stated fails: a HELLO for an unknown realm that does not
    offer [anonymous], on a transport without configured
    authentication, is denied with [wamp.error.no_auth_method]. *)
Lemma unknown_realm_without_anonymous_is_no_auth_method :
  routers world_open !! "realm2" = None
  /\ result (onHello env0 rnd0 (Some "realm2")
               (hello_details (Some "realm2") (Some ["ticket"])) world_open)
     = inr (FutValue (Deny (Some NO_AUTH_METHOD)
         (Some "cannot authenticate [1] using any of the offered authmethods ['ticket']")))
  /\ NO_AUTH_METHOD <> NO_SUCH_REALM.
Proof. vm_compute. repeat split; discriminate. Qed.

(** The realm a HELLO names is not looked at when the transport has a
    realm stored and [cookie] is offered: a HELLO for the unknown realm
    [realm2] is then taken for the stored [realm1] and accepted. *)
Lemma stored_realm_replaces_unknown_realm :
  routers world_stored_realm !! "realm2" = None
  /\ restores transport_stored_realm ["anonymous"; "cookie"] = true
  /\ result (onMessage_begin env0 rnd0
               (Hello (Some "realm2") ANone (Some ["anonymous"; "cookie"])
                  None None None)
               world_stored_realm)
     = inr (Some (CbHello
         (FutValue (Accept (Some "realm1") (Some "ABCD-EFGH") (Some "anonymous")
                      (Some "anonymous") (Some "static") None)))).
Proof. vm_compute. repeat split; reflexivity. Qed.

(** C9. When [onLeave] runs with the close reason [wamp.close.logout]
    for a session whose transport carries a cookie id, with a cookie
    store configured, it deletes the binding of that cookie ([delAuth])
    and calls [sendClose] on exactly the other transports bound to the
    cookie, never on the session's own.  ([_session_id] is [None] when
    [onLeave] is given a reason: the GOODBYE handling has cleared it,
    and before the join it was never set.) *)
Theorem logout_deletes_cookie_and_kicks_others (w : World) (details : CloseDetails)
    (t : Transport) (cbtid : string) (cs : CookieStore) :
  cd_reason details = Some "wamp.close.logout" ->
  _transport (session w) = Some t ->
  t_cbtid t = Some (Some cbtid) ->
  cbtid <> EmptyString ->
  cookiestore w = Some cs ->
  _session_id (session w) = None ->
  let o := onLeave details w in
  result o = inr tt
  /\ In (EvDelAuth cbtid) (trace o)
  /\ cookiestore (world o) = Some (cs_delAuth cs cbtid)
  /\ closed_protos (trace o)
     = List.filter (fun p => negb (Nat.eqb p (ident t))) (cs_getProtos cs cbtid)
  /\ ~ In (ident t) (closed_protos (trace o)).
Proof.
  intros Hreason Ht Hc Hne Hcs Hsid. cbv zeta.
  assert (Hrun : onLeave details w
    = mkOut (inr tt)
        (set_cookiestore (Some (cs_delAuth cs cbtid))
           (set_session (set_session_details None (session w)) w))
        (router_events (session w) details
         ++ EvDelAuth cbtid
            :: map EvSendClose
                 (List.filter (fun p => negb (Nat.eqb p (ident t)))
                    (cs_getProtos cs cbtid)))).
  { unfold onLeave, bind. rewrite leave_router_run, (leave_publish_unjoined w Hsid).
    unfold modify_session, when. rewrite Hreason. cbn [opt_eqb String.eqb Ascii.eqb Bool.eqb].
    rewrite (logout_kick_run _ t cbtid cs); [reflexivity|exact Ht|exact Hc|exact Hne|exact Hcs]. }
  rewrite Hrun. cbn.
  assert (Hclosed : closed_protos (router_events (session w) details) = []).
  { unfold router_events, closed_protos. destruct (_router (session w)); [|reflexivity].
    rewrite !omap_app, !omap_map_none by reflexivity. reflexivity. }
  split; [reflexivity|]. split; [apply in_or_app; right; left; reflexivity|].
  split; [reflexivity|].
  unfold closed_protos in *. rewrite omap_app, Hclosed. cbn.
  fold (closed_protos (map EvSendClose (List.filter (fun p => negb (Nat.eqb p (ident t))) (cs_getProtos cs cbtid)))).
  rewrite closed_protos_sendClose. split; [reflexivity|].
  intros Hin. apply filter_In in Hin. destruct Hin as [_ Hin].
  rewrite Nat.eqb_refl in Hin. discriminate.
Qed.

Lemma logout_deletes_cookie_and_kicks_others_witness :
  let o := onLeave {| cd_reason := Some "wamp.close.logout"; cd_message := None |}
             world_cookie in
  In (EvDelAuth "COOKIE1") (trace o) /\ closed_protos (trace o) = [4; 5].
Proof.
  pose proof (logout_deletes_cookie_and_kicks_others world_cookie
    {| cd_reason := Some "wamp.close.logout"; cd_message := None |}
    transport_cookie "COOKIE1" cookiestore0
    eq_refl eq_refl eq_refl ltac:(discriminate) eq_refl eq_refl) as H.
  cbv zeta in *. destruct H as (_ & Hd & _ & Hc & _).
  split; [exact Hd|]. rewrite Hc. reflexivity.
Defined.

(** C10. [onClose] sets [_session_id], [_previous_session_id],
    [_pending_session_id], [_authid], [_authrole], [_authmethod] and
    [_authprovider] to [None] and leaves [_authextra] as it was. *)
Theorem onClose_clears_identity_keeps_authextra (wasClean : bool) (w : World) (t : Transport) :
  _transport (session w) = Some t ->
  let o := onClose wasClean w in
  result o = inr tt
  /\ _session_id (session (world o)) = None
  /\ _previous_session_id (session (world o)) = None
  /\ _pending_session_id (session (world o)) = None
  /\ _authid (session (world o)) = None
  /\ _authrole (session (world o)) = None
  /\ _authmethod (session (world o)) = None
  /\ _authprovider (session (world o)) = None
  /\ _authextra (session (world o)) = _authextra (session w).
Proof.
  intros Ht. cbv zeta.
  change (wp (onClose wasClean) (fun r w1 _ => r = inr tt
  /\ _session_id (session w1) = None
  /\ _previous_session_id (session w1) = None
  /\ _pending_session_id (session w1) = None
  /\ _authid (session w1) = None
  /\ _authrole (session w1) = None
  /\ _authmethod (session w1) = None
  /\ _authprovider (session w1) = None
  /\ _authextra (session w1) = _authextra (session w)) w).
  unfold onClose.
  wp_step. wp_step. wp_step.
  assert (Hrest : 
    wp
    (modify_session (set_transport None);;
     match _session_id (session w) with
     | Some _ =>
         try_except (onLeave {| cd_reason := None; cd_message := None |})
           (λ _ : Exn, ret ());;
         try_except router_detach (λ _ : Exn, ret ());;
         modify_session (set_session_id None)
     | None => ret ()
     end;;
     modify_session (set_previous_session_id None);;
     modify_session (set_pending_session_id None);;
     modify_session (set_authid None);;
     modify_session (set_authrole None);;
     modify_session (set_authmethod None);;
     modify_session (set_authprovider None))
    (λ (r2 : Exn + ()) (w2 : World) (_ : list Event),
       r2 = inr ()
       ∧ _session_id (session w2) = None
         ∧ _previous_session_id (session w2) = None
           ∧ _pending_session_id (session w2) = None
             ∧ _authid (session w2) = None
               ∧ _authrole (session w2) = None
                 ∧ _authmethod (session w2) = None
                   ∧ _authprovider (session w2) = None
                     ∧ _authextra (session w2) = _authextra (session w)) w).
  { wp_step. wp_step. wp_step.
    destruct (_session_id (session w)) eqn:Hi.
    - wp_step.
      wp_use (wp_swallow (fun w => _authextra (session w))). { apply onLeave_keeps_authextra. }
      intros r w1 t1 [-> H1]. wp_step.
      wp_use (wp_swallow (fun w => _authextra (session w))). { apply router_detach_keeps_authextra. }
      intros r w2 t2 [-> H2]. wp_go. repeat split; congruence.
    - wp_go. repeat split; congruence. }
  destruct (_service_session (session w)) eqn:Hs.
  - repeat (first [exact Hrest | wp_step | wp_case]).
  - repeat (first [exact Hrest | wp_step | wp_case]).
Qed.

Lemma onClose_clears_identity_keeps_authextra_witness :
  _transport (session world_joined) = Some transport0
  /\ is_set (_authextra (session world_joined)) = true
  /\ let o := onClose true world_joined in
     _authid (session (world o)) = None
     /\ _authextra (session (world o)) = _authextra (session world_joined).
Proof.
  split; [reflexivity|]. split; [reflexivity|].
  pose proof (onClose_clears_identity_keeps_authextra true world_joined
    transport0 eq_refl) as H.
  cbv zeta in *. destruct H as (_ & _ & _ & _ & Ha & _ & _ & _ & He).
  split; assumption.
Defined.


(** * Further properties of the code *)

(** ** Further lemmas *)

Lemma reserve_keeps_session_id rnd :
  keeps (fun w => (_session_id (session w), _transport (session w),
                   _pending_auth (session w), routers w, cookiestore w,
                   attached w))
        (reserve_session_id rnd).
Proof.
  intros w. rewrite reserve_session_id_run. cbn.
  destruct (is_set (_pending_session_id (session w))); reflexivity.
Qed.

(** X1.  An AUTHENTICATE that reaches a session which has not joined
    and has its transport, but has no pending authentication, or one of
    a class that verifies no signature, or one whose [authenticate]
    raises: the authenticator's answer is not waited for, the message
    is answered with one ABORT without reason, [onMessage] returns, and
    nothing changes but the reservation of a pending session id. *)
Theorem authenticate_without_verifier_aborts (E : Env) (rnd : Random)
    (signature : string) (w : World) (t : Transport) (msg : string) :
  _session_id (session w) = None ->
  _transport (session w) = Some t ->
  match _pending_auth (session w) with
  | None => msg = "no pending authentication"
  | Some pa =>
      if verifies_signature (pa_class pa)
      then exists e, pa_authenticate E pa signature = PARaise e
                     /\ msg = "internal error: " ++ exn_str e
      else msg = "internal error: unexpected pending authentication"
  end ->
  let o := onMessage E rnd (Authenticate signature) w in
  result o = inr tt
  /\ trace o = [EvSend (ident t) (FAbort None (Some msg))]
  /\ world o = world (reserve_session_id rnd w).
Proof.
  intros Hsid Ht Hpa. cbv zeta.
  change (wp (onMessage E rnd (Authenticate signature)) (fun r w1 t1 =>
    r = inr tt
    /\ t1 = [EvSend (ident t) (FAbort None (Some msg))]
    /\ w1 = world (reserve_session_id rnd w)) w).
  unfold onMessage, onMessage_begin. repeat wp_step. rewrite Hsid.
  wp_step. eapply wp_eq; [apply reserve_session_id_run|]. cbn.
  set (w0 := if is_set (_pending_session_id (session w)) then w else _).
  assert (Hs0 : _pending_auth (session w0) = _pending_auth (session w)
                /\ _transport (session w0) = Some t).
  { unfold w0. destruct (is_set _); cbn; auto. }
  destruct Hs0 as [Hp0 Ht0].
  assert (Hsend : forall m,
    wp (fire E (CbAuthenticate (FutValue (Deny None (Some m)))))
       (fun r w1 t1 => r = inr tt
          /\ t1 = [EvSend (ident t) (FAbort None (Some m))] /\ w1 = w0) w0).
  { intros m. unfold fire, onAuthenticate_success.
    repeat wp_step. rewrite Ht0. repeat wp_step. rewrite Ht0. repeat wp_step.
    repeat split; reflexivity. }
  assert (Hw0 : w0 = world (reserve_session_id rnd w)).
  { rewrite reserve_session_id_run. reflexivity. }
  rewrite <- Hw0.
  wp_step. unfold onAuthenticate. repeat wp_step. rewrite Hp0.
  destruct (_pending_auth (session w)) as [pa|]; cbn.
  - destruct (verifies_signature (pa_class pa)).
    + destruct Hpa as (e & -> & ->). repeat wp_step. apply Hsend.
    + subst msg. repeat wp_step. apply Hsend.
  - subst msg. repeat wp_step. apply Hsend.
Qed.

Lemma authenticate_without_verifier_aborts_witness :
  let o := onMessage env0 rnd0 (Authenticate "secret") world_open in
  result o = inr tt
  /\ trace o = [EvSend 1 (FAbort None (Some "no pending authentication"))].
Proof.
  destruct (authenticate_without_verifier_aborts env0 rnd0 "secret" world_open
              transport0 "no pending authentication")
    as (Hr & Ht & _); [reflexivity..|].
  split; [exact Hr|exact Ht].
Defined.

(** [onLeave] on a session whose id is cleared, for a reason other
    than logout, in full. *)
Lemma onLeave_unjoined_run details w :
  _session_id (session w) = None ->
  opt_eqb (cd_reason details) "wamp.close.logout" = false ->
  onLeave details w
  = mkOut (inr tt) (set_session (set_session_details None (session w)) w)
      (router_events (session w) details).
Proof.
  intros Hsid Hr. apply wp_run. unfold onLeave.
  wp_step. eapply wp_eq; [apply leave_router_run|]. cbn.
  wp_step. eapply wp_eq; [apply (leave_publish_unjoined _ Hsid)|]. cbn.
  rewrite Hr. repeat wp_step. rewrite !app_nil_r. reflexivity.
Qed.

(** ... and for the reason logout, on a transport with a cookie. *)
Lemma onLeave_unjoined_logout details w t cbtid cs :
  _session_id (session w) = None ->
  cd_reason details = Some "wamp.close.logout" ->
  _transport (session w) = Some t ->
  t_cbtid t = Some (Some cbtid) ->
  cbtid <> EmptyString ->
  cookiestore w = Some cs ->
  onLeave details w
  = mkOut (inr tt)
      (set_cookiestore (Some (cs_delAuth cs cbtid))
         (set_session (set_session_details None (session w)) w))
      (router_events (session w) details
       ++ EvDelAuth cbtid
          :: map EvSendClose
               (List.filter (fun p => negb (Nat.eqb p (ident t)))
                  (cs_getProtos cs cbtid))).
Proof.
  intros Hsid Hr Ht Hc Hne Hcs. apply wp_run. unfold onLeave.
  wp_step. eapply wp_eq; [apply leave_router_run|]. cbn.
  wp_step. eapply wp_eq; [apply (leave_publish_unjoined _ Hsid)|]. cbn.
  rewrite Hr. repeat wp_step.
  eapply wp_eq; [apply (logout_kick_run _ t cbtid cs); assumption|]. cbn.
  reflexivity.
Qed.

Lemma detach_swallowed_run w :
  try_except router_detach (fun _ => ret tt) w
  = mkOut (inr tt) (detach_world w) (detach_events w).
Proof.
  apply wp_run. unfold detach_world, detach_events.
  wp_go; reflexivity.
Qed.

(** The joined-state handling of GOODBYE: what it does before its
    call of [onLeave], and then what [onLeave] does.  The reply needs
    the transport, unless the session has sent its GOODBYE before. *)
Lemma on_goodbye_split_gen reason message w sid r1 w1 t1 :
  _session_id (session w) = Some sid ->
  negb (_goodbye_sent (session w)) && negb (is_set (_transport (session w)))
  = false ->
  onLeave {| cd_reason := Some reason; cd_message := message |}
    (detach_world (set_session (cleared_for_goodbye sid (session w)) w))
  = mkOut r1 w1 t1 ->
  on_goodbye reason message w
  = mkOut r1 w1 (goodbye_events sid w ++ t1).
Proof.
  intros Hsid Hgt HL. apply wp_run. unfold on_goodbye, goodbye_events.
  wp_step. wp_step.
  destruct w as [s rs cs att]. cbn in *.
  destruct s as [tr tc ro re si ps pv sr sd pa ai ar am ap ax ss td tdt gs tic se sl sf];
    cbn in *. subst.
  unfold detach_world, detach_events in *; cbn in *.
  destruct gs, tr as [t|]; try discriminate; cbn;
    repeat (first [ eapply wp_eq; [apply detach_swallowed_run|]
                  | wp_step ]);
    unfold detach_world, detach_events; cbn;
    (destruct ro as [r|]; cbn in *; [destruct (bool_decide (r ∈ att)); cbn in *|]);
    repeat wp_step; destruct ss; cbn; repeat wp_step;
    (eapply wp_eq; [exact HL|]); cbn; rewrite ?app_nil_r; reflexivity.
Qed.

Lemma on_goodbye_split reason message w sid t r1 w1 t1 :
  _session_id (session w) = Some sid ->
  _transport (session w) = Some t ->
  onLeave {| cd_reason := Some reason; cd_message := message |}
    (detach_world (set_session (cleared_for_goodbye sid (session w)) w))
  = mkOut r1 w1 t1 ->
  on_goodbye reason message w
  = mkOut r1 w1 (goodbye_events sid w ++ t1).
Proof.
  intros Hsid Ht. apply on_goodbye_split_gen; [exact Hsid|].
  rewrite Ht. apply andb_false_r.
Qed.

(** Without a transport, a GOODBYE that must be answered raises before
    anything is done. *)
Lemma on_goodbye_lost reason message w :
  _goodbye_sent (session w) = false ->
  _transport (session w) = None ->
  on_goodbye reason message w = mkOut (inl (AttributeError "send")) w [].
Proof.
  intros Hg Ht. unfold on_goodbye. rewrite bind_get_session, Hg. cbn [negb].
  apply wp_run. repeat wp_step. rewrite Ht. cbn. repeat wp_step. reflexivity.
Qed.

Lemma onMessage_goodbye E rnd reason message w sid r1 w1 t1 :
  _session_id (session w) = Some sid ->
  on_goodbye reason message w = mkOut r1 w1 t1 ->
  onMessage E rnd (Goodbye reason message) w = mkOut r1 w1 t1.
Proof.
  intros Hsid HG.
  unfold onMessage, onMessage_begin, bind at 1 2, get_session. rewrite Hsid.
  unfold bind, ret. rewrite HG.
  destruct r1 as [e|[]]; cbn; rewrite ?app_nil_r; reflexivity.
Qed.

Lemma detach_world_attached w r :
  _router (session w) = Some r ->
  attached (detach_world w) = attached w ∖ {[r]}.
Proof.
  intros Hr. unfold detach_world. rewrite Hr.
  destruct (bool_decide (r ∈ attached w)) eqn:Hin; [reflexivity|].
  apply bool_decide_eq_false in Hin. symmetry.
  apply difference_disjoint_L, disjoint_singleton_r. exact Hin.
Qed.

Lemma detach_world_session w : session (detach_world w) = session w.
Proof.
  unfold detach_world. destruct (_router (session w)); [|reflexivity].
  destruct (bool_decide _); reflexivity.
Qed.

Lemma detach_world_cookiestore w : cookiestore (detach_world w) = cookiestore w.
Proof.
  unfold detach_world. destruct (_router (session w)); [|reflexivity].
  destruct (bool_decide _); reflexivity.
Qed.

Lemma detach_world_routers w : routers (detach_world w) = routers w.
Proof.
  unfold detach_world. destruct (_router (session w)); [|reflexivity].
  destruct (bool_decide _); reflexivity.
Qed.

(** X2.  A joined session that receives a GOODBYE for a reason other
    than logout, in the order of the code: the reply (unless the
    session has sent its GOODBYE before), the detaching from the
    router, the [wamp.session.on_leave] meta-event with the id the
    session had, the testaments, and [_session_left] with the details
    of the join; the session ends detached, with the id moved to
    [_previous_session_id] and the details dropped. *)
Theorem goodbye_replies_detaches_publishes_in_order (E : Env) (rnd : Random)
    (reason : string) (message : option string) (w : World) (sid : Id)
    (t : Transport) (r : string) :
  _session_id (session w) = Some sid ->
  _transport (session w) = Some t ->
  _router (session w) = Some r ->
  r ∈ attached w ->
  reason <> "wamp.close.logout" ->
  let o := onMessage E rnd (Goodbye reason message) w in
  result o = inr tt
  /\ trace o
     = ((if _goodbye_sent (session w) then []
         else [EvSend (ident t) (FGoodbye None None)])
        ++ [EvDetach r]
        ++ match _service_session (session w) with
           | Some svc =>
               [EvPublish svc "wamp.session.on_leave" [PSession (Some sid)] None]
           | None => []
           end
        ++ map (EvProcess r) (_testaments_detached (session w))
        ++ map (EvProcess r) (_testaments_destroyed (session w))
        ++ [EvSessionLeft r (_session_details (session w))
              {| cd_reason := Some reason; cd_message := message |}])%list
  /\ session (world o) = said_goodbye sid (session w)
  /\ attached (world o) = attached w ∖ {[r]}.
Proof.
  intros Hsid Ht Hr Hin Hreason. cbv zeta.
  assert (Hne : opt_eqb (Some reason) "wamp.close.logout" = false).
  { cbn. destruct (String.eqb_spec reason "wamp.close.logout"); [contradiction|reflexivity]. }
  pose proof (onLeave_unjoined_run
                {| cd_reason := Some reason; cd_message := message |}
                (detach_world (set_session (cleared_for_goodbye sid (session w)) w))
                (f_equal _session_id (detach_world_session _)) Hne) as HL.
  pose proof (on_goodbye_split reason message w sid t _ _ _ Hsid Ht HL) as HG.
  rewrite (onMessage_goodbye E rnd reason message w sid _ _ _ Hsid HG).
  cbn [result world trace]. split; [reflexivity|].
  rewrite detach_world_session. cbn [session set_session].
  split.
  { unfold goodbye_events, detach_events, router_events.
    change (_router (cleared_for_goodbye sid (session w)))
      with (_router (session w)).
    rewrite Ht, Hr. rewrite (bool_decide_eq_true_2 _ Hin).
    rewrite <- !app_assoc. reflexivity. }
  split; [reflexivity|].
  cbn [attached set_session]. rewrite (detach_world_attached _ r); [reflexivity|].
  exact Hr.
Qed.

Lemma goodbye_replies_detaches_publishes_in_order_witness :
  let o := onMessage env0 rnd0 (Goodbye "wamp.close.normal" None) world_joined in
  exists d,
    trace o
    = [EvSend 1 (FGoodbye None None);
       EvDetach "realm1";
       EvPublish "realm1" "wamp.session.on_leave" [PSession (Some 7%positive)] None;
       EvSessionLeft "realm1" (Some d)
         {| cd_reason := Some "wamp.close.normal"; cd_message := None |}]
    /\ sd_session d = Some 7%positive.
Proof.
  cbv zeta.
  destruct (goodbye_replies_detaches_publishes_in_order env0 rnd0
              "wamp.close.normal" None world_joined 7%positive transport0 "realm1")
    as (_ & Ht & _);
    [vm_compute; reflexivity | vm_compute; reflexivity | vm_compute; reflexivity
    | | discriminate |].
  - apply (bool_decide_unpack _). vm_compute. exact I.
  - rewrite Ht. vm_compute. eexists. split; reflexivity.
Defined.

Lemma goodbye_events_closed sid w : closed_protos (goodbye_events sid w) = [].
Proof.
  unfold goodbye_events, detach_events, closed_protos.
  destruct (_transport (session w)) as [t|]; [destruct (_goodbye_sent (session w))|];
    (destruct (_router (session w)) as [r|];
       [destruct (bool_decide (r ∈ attached w))|]);
    destruct (_service_session (session w)); reflexivity.
Qed.

Lemma goodbye_events_frames sid w t :
  _transport (session w) = Some t ->
  frames (goodbye_events sid w)
  = if _goodbye_sent (session w) then [] else [FGoodbye None None].
Proof.
  intros Ht. unfold goodbye_events, detach_events, frames. rewrite Ht.
  destruct (_goodbye_sent (session w));
    (destruct (_router (session w)) as [r|];
       [destruct (bool_decide (r ∈ attached w))|]);
    destruct (_service_session (session w)); reflexivity.
Qed.

Lemma closed_protos_app a b :
  closed_protos (a ++ b) = (closed_protos a ++ closed_protos b)%list.
Proof. apply omap_app. Qed.

Lemma frames_app a b : frames (a ++ b) = (frames a ++ frames b)%list.
Proof. apply omap_app. Qed.

Lemma logout_events_closed cbtid ps :
  closed_protos (EvDelAuth cbtid :: map EvSendClose ps) = ps.
Proof. apply (closed_protos_sendClose ps). Qed.

Lemma logout_events_frames cbtid ps :
  frames (EvDelAuth cbtid :: map EvSendClose ps) = [].
Proof. apply (omap_map_none sent EvSendClose ps). reflexivity. Qed.

(** X3.  A joined session on a transport with a cookie that receives a
    GOODBYE with the reason [wamp.close.logout]: the handling returns,
    the cookie's binding is deleted, [sendClose] is called on exactly
    the other transports of the cookie, the session's own transport is
    neither closed nor dropped, and the only frame sent is the GOODBYE
    reply. *)
Theorem goodbye_logout_deletes_cookie_keeps_transport (E : Env) (rnd : Random)
    (message : option string) (w : World) (sid : Id) (t : Transport)
    (cbtid : string) (cs : CookieStore) :
  _session_id (session w) = Some sid ->
  _transport (session w) = Some t ->
  t_cbtid t = Some (Some cbtid) ->
  cbtid <> EmptyString ->
  cookiestore w = Some cs ->
  let o := onMessage E rnd (Goodbye "wamp.close.logout" message) w in
  result o = inr tt
  /\ cookiestore (world o) = Some (cs_delAuth cs cbtid)
  /\ closed_protos (trace o)
     = List.filter (fun p => negb (Nat.eqb p (ident t))) (cs_getProtos cs cbtid)
  /\ ~ In (ident t) (closed_protos (trace o))
  /\ frames (trace o)
     = (if _goodbye_sent (session w) then [] else [FGoodbye None None])
  /\ _transport (session (world o)) = Some t
  /\ _session_id (session (world o)) = None.
Proof.
  intros Hsid Ht Hc Hne Hcs. cbv zeta.
  set (d := {| cd_reason := Some "wamp.close.logout"; cd_message := message |}).
  set (w0 := detach_world (set_session (cleared_for_goodbye sid (session w)) w)).
  assert (Hs0 : session w0 = cleared_for_goodbye sid (session w))
    by apply detach_world_session.
  assert (Hcs0 : cookiestore w0 = Some cs)
    by (unfold w0; rewrite detach_world_cookiestore; exact Hcs).
  assert (Ht0 : _transport (session w0) = Some t) by (rewrite Hs0; exact Ht).
  pose proof (onLeave_unjoined_logout d w0 t cbtid cs
                (f_equal _session_id Hs0) eq_refl Ht0 Hc Hne Hcs0) as HL.
  pose proof (on_goodbye_split _ message w sid t _ _ _ Hsid Ht HL) as HG.
  rewrite (onMessage_goodbye E rnd _ message w sid _ _ _ Hsid HG).
  cbn [result world trace].
  split; [reflexivity|]. split; [reflexivity|].
  rewrite !closed_protos_app, !frames_app, goodbye_events_closed,
    router_events_not_closed, router_events_not_sent, logout_events_closed,
    logout_events_frames, (goodbye_events_frames sid w t Ht), !app_nil_r.
  cbn [app].
  split; [reflexivity|]. split.
  { intros Hin. apply filter_In in Hin.
    destruct Hin as [_ Hin]. rewrite Nat.eqb_refl in Hin. discriminate. }
  split; [reflexivity|].
  cbn [session set_cookiestore set_session]. rewrite Hs0.
  split; [exact Ht|reflexivity].
Qed.

Lemma goodbye_logout_deletes_cookie_keeps_transport_witness :
  let o := onMessage env0 rnd0 (Goodbye "wamp.close.logout" None)
             world_cookie_joined in
  (exists cs, cookiestore world_cookie_joined = Some cs
              /\ is_set (cs_getAuth cs "COOKIE1") = true)
  /\ (exists cs, cookiestore (world o) = Some cs
                 /\ cs_getAuth cs "COOKIE1" = None)
  /\ closed_protos (trace o) = [4; 5]
  /\ frames (trace o) = [FGoodbye None None].
Proof.
  cbv zeta.
  destruct (cookiestore world_cookie_joined) as [cs|] eqn:Hcs;
    [|vm_compute in Hcs; discriminate].
  destruct (goodbye_logout_deletes_cookie_keeps_transport env0 rnd0 None
              world_cookie_joined 7%positive transport_cookie "COOKIE1" cs)
    as (_ & Hck & Hcl & _ & Hf & _);
    [vm_compute; reflexivity|vm_compute; reflexivity|reflexivity|discriminate|exact Hcs|].
  assert (Hcs' : Some cs = cookiestore world_cookie_joined) by (symmetry; exact Hcs).
  vm_compute in Hcs'. injection Hcs' as ->.
  split; [eexists; split; [reflexivity|vm_compute; reflexivity]|].
  split; [eexists; split; [exact Hck|vm_compute; reflexivity]|].
  split; [rewrite Hcl; vm_compute; reflexivity|rewrite Hf; vm_compute; reflexivity].
Defined.

(** A GOODBYE received by a joined session, for whatever reason. *)
Lemma onMessage_goodbye_any E rnd reason message w sid t :
  _session_id (session w) = Some sid ->
  _transport (session w) = Some t ->
  exists w1 t1,
    onMessage E rnd (Goodbye reason message) w
    = mkOut (inr tt) w1 (goodbye_events sid w ++ t1)
    /\ session w1 = said_goodbye sid (session w)
    /\ frames t1 = []
    /\ on_leave_publications t1 = [].
Proof.
  intros Hsid Ht.
  set (d := {| cd_reason := Some reason; cd_message := message |}).
  set (w0 := detach_world (set_session (cleared_for_goodbye sid (session w)) w)).
  assert (Hs0 : session w0 = cleared_for_goodbye sid (session w))
    by apply detach_world_session.
  pose proof (onLeave_unjoined d w0 (f_equal _session_id Hs0)) as HL.
  unfold wp in HL. destruct (onLeave d w0) as [r1 w1 t1] eqn:HLe.
  cbn [result world trace] in HL. destruct HL as (-> & Hs1 & Hf & Hp & _).
  exists w1, t1.
  rewrite (onMessage_goodbye E rnd reason message w sid _ _ _ Hsid
             (on_goodbye_split reason message w sid t _ _ _ Hsid Ht HLe)).
  split; [reflexivity|]. split; [|split; assumption].
  rewrite Hs1, Hs0. reflexivity.
Qed.

Lemma leave_run reason message w t :
  _transport (session w) = Some t ->
  _goodbye_sent (session w) = false ->
  leave reason message w
  = mkOut (inr tt) (set_session (set_goodbye_sent true (session w)) w)
      [EvSend (ident t)
         (FGoodbye (if truthy_str reason then reason else None) message)].
Proof.
  intros Ht Hg. unfold leave. rewrite bind_get_session, Hg. cbn [negb].
  apply wp_run. repeat wp_step. rewrite Ht. cbn. repeat wp_step. reflexivity.
Qed.

(** X4.  The router closes a joined session: [leave] sends one GOODBYE,
    with the given reason or the default one; the GOODBYE with which
    the peer answers is not answered again but ends the session (the
    id is cleared and kept as [_previous_session_id]); and a further
    [leave] raises [SessionNotReady] and sends nothing. *)
Theorem leave_sends_one_goodbye_and_peer_reply_ends_session (E : Env)
    (rnd : Random) (reason message : option string) (reason' : string)
    (message' reason'' message'' : option string) (w : World) (sid : Id)
    (t : Transport) :
  _session_id (session w) = Some sid ->
  _transport (session w) = Some t ->
  _goodbye_sent (session w) = false ->
  let o1 := leave reason message w in
  let o2 := onMessage E rnd (Goodbye reason' message') (world o1) in
  let o3 := leave reason'' message'' (world o2) in
  result o1 = inr tt
  /\ trace o1
     = [EvSend (ident t)
          (FGoodbye (if truthy_str reason then reason else None) message)]
  /\ result o2 = inr tt
  /\ frames (trace o2) = []
  /\ _session_id (session (world o2)) = None
  /\ _previous_session_id (session (world o2)) = Some sid
  /\ result o3 = inl (SessionNotReady "Already requested to close the session")
  /\ trace o3 = [].
Proof.
  intros Hsid Ht Hg. cbv zeta.
  rewrite (leave_run reason message w t Ht Hg). cbn [result world trace].
  set (w1 := set_session (set_goodbye_sent true (session w)) w).
  destruct (onMessage_goodbye_any E rnd reason' message' w1 sid t Hsid Ht)
    as (w2 & t2 & -> & Hs2 & Hf2 & _).
  cbn [result world trace].
  rewrite (leave_after_goodbye reason'' message'' w2)
    by (rewrite Hs2; reflexivity).
  cbn [result world trace]. rewrite Hs2.
  rewrite frames_app, Hf2, (goodbye_events_frames sid w1 t Ht).
  repeat split; reflexivity.
Qed.

Lemma leave_sends_one_goodbye_and_peer_reply_ends_session_witness :
  let o1 := leave (Some "wamp.close.system_shutdown") None world_joined in
  let o2 := onMessage env0 rnd0 (Goodbye "wamp.close.goodbye_and_out" None)
              (world o1) in
  trace o1 = [EvSend 1 (FGoodbye (Some "wamp.close.system_shutdown") None)]
  /\ frames (trace o2) = []
  /\ _session_id (session (world o2)) = None.
Proof.
  cbv zeta.
  destruct (leave_sends_one_goodbye_and_peer_reply_ends_session env0 rnd0
              (Some "wamp.close.system_shutdown") None
              "wamp.close.goodbye_and_out" None None None
              world_joined 7%positive transport0)
    as (_ & H1 & _ & H2 & H3 & _);
    [vm_compute; reflexivity..|].
  rewrite H1. split; [vm_compute; reflexivity|]. split; [exact H2|exact H3].
Defined.

(** ** The statistics meta-event *)

Lemma on_stats_app a b :
  on_stats_publications (a ++ b)
  = (on_stats_publications a ++ on_stats_publications b)%list.
Proof. apply omap_app. Qed.

Lemma router_events_not_stats s details :
  on_stats_publications (router_events s details) = [].
Proof.
  unfold router_events, on_stats_publications. destruct (_router s); [|reflexivity].
  rewrite !omap_app, !omap_map_none by reflexivity. reflexivity.
Qed.

Lemma detach_events_not_stats w : on_stats_publications (detach_events w) = [].
Proof.
  unfold detach_events. destruct (_router (session w)) as [r|]; [|reflexivity].
  destruct (bool_decide (r ∈ attached w)); reflexivity.
Qed.

Lemma goodbye_events_not_stats sid w :
  on_stats_publications (goodbye_events sid w) = [].
Proof.
  unfold goodbye_events. rewrite !on_stats_app, detach_events_not_stats.
  destruct (_transport (session w)) as [t|]; [destruct (_goodbye_sent (session w))|];
    destruct (_service_session (session w)); reflexivity.
Qed.

Lemma logout_kick_mute_stats : mute on_stats_published logout_kick.
Proof. unfold logout_kick. mute_auto. Qed.

(** The meta-events of [onLeave] on a session whose id is cleared or
    whose transport is gone: no statistics. *)
Lemma leave_publish_no_stats w :
  _session_id (session w) = None \/ _transport (session w) = None ->
  wp leave_publish (fun _ _ t1 => on_stats_publications t1 = []) w.
Proof.
  intros H. unfold leave_publish, leave_stats. wp_step. wp_step.
  destruct (_service_session (session w)) as [svc|]; [|wp_step; reflexivity].
  destruct (_session_id (session w)) as [sid|] eqn:Hsid; [|wp_step; reflexivity].
  destruct H as [H|Ht]; [discriminate|].
  wp_go; try reflexivity.
Qed.

Lemma onLeave_no_stats details w :
  _session_id (session w) = None \/ _transport (session w) = None ->
  on_stats_publications (trace (onLeave details w)) = [].
Proof.
  intros H.
  change (wp (onLeave details) (fun _ _ t1 => on_stats_publications t1 = []) w).
  unfold onLeave. apply wp_bind.
  eapply wp_eq; [apply leave_router_run|]. cbn [result world trace].
  apply wp_bind. eapply wp_conseq; [apply (leave_publish_no_stats w H)|].
  intros r w1 t1 Ht1. cbv beta.
  destruct r as [e|[]].
  { rewrite on_stats_app, router_events_not_stats, Ht1. reflexivity. }
  eapply wp_conseq.
  { apply (wp_mute on_stats_published).
    apply mute_bind; [apply mute_modify_session|intros _].
    apply mute_when, logout_kick_mute_stats. }
  intros r2 w2 t2 Ht2. change (on_stats_publications t2 = []) in Ht2. cbv beta.
  rewrite !on_stats_app, router_events_not_stats, Ht1, Ht2. reflexivity.
Qed.

(** ** The events of [onHello] *)

Section OnHelloCalls.
Context {X : Type} (sel : Event -> option X).
Hypothesis sel_setAuth : forall c a, sel (EvSetAuth c a) = None.

Ltac mute_sel :=
  repeat (unfold_prims;
          first [ mute_step | apply mute_emit; apply sel_setAuth ]).

Lemma start_pending_auth_calls E authmethod config realm details :
  mute sel (start_pending_auth E authmethod config realm details).
Proof. unfold start_pending_auth, pending_auth_klass. mute_sel. Qed.

Lemma hello_loop_calls E authmethods auth_config realm details todo :
  mute sel (hello_loop E authmethods auth_config realm details todo).
Proof.
  induction todo as [|m todo IH]; cbn [hello_loop]; [apply mute_ret|].
  repeat match goal with
         | |- mute _ (if ?b then _ else _) => destruct b
         end; try exact IH; try apply start_pending_auth_calls.
  all: mute_sel; try exact IH; try apply start_pending_auth_calls.
Qed.

(** Of the calls that are recorded as events, [onHello] makes only
    [setAuth] on the cookie store.  What it asks of the router factory
    ([has_role]), of the cookie store ([exists], [getAuth]) and of the
    pending authentication ([hello]) is read as a value and is no
    event. *)
Lemma onHello_calls E rnd realm details :
  mute sel (onHello E rnd realm details).
Proof.
  unfold onHello, restore_or_revoke, hello_preauthenticated, hello_unconfigured.
  mute_sel; try apply hello_loop_calls.
  all: repeat match goal with
         | |- mute _ (if ?b then _ else _) => destruct b
         end; mute_sel; try apply start_pending_auth_calls;
         try apply hello_loop_calls.
Qed.

End OnHelloCalls.

(** The statements of [onMessage] up to the point where a handshake
    future is left to resolve, and of [onHello], [onAuthenticate] and
    [onLeave] as they are called from there, publish no
    [wamp.session.on_stats]: wherever [onLeave] is reached, the session
    id is cleared by then. *)
Lemma onMessage_begin_no_stats (E : Env) (rnd : Random)
    (msg : Msg) (w : World) :
  on_stats_publications (trace (onMessage_begin E rnd msg w)) = [].
Proof.
  change (wp (onMessage_begin E rnd msg)
            (fun _ _ t1 => on_stats_publications t1 = []) w).
  unfold onMessage_begin. apply wp_bind. apply wp_get_session.
  destruct (_session_id (session w)) as [sid|] eqn:Hsid.
  - destruct msg as [realm roles authmethods authid authrole authextra
                    |signature|reason message|reason message|kind];
      try (wp_go; reflexivity).
    apply wp_bind.
    destruct (negb (_goodbye_sent (session w))
              && negb (is_set (_transport (session w)))) eqn:Hgt.
    + apply andb_prop in Hgt. destruct Hgt as [Hg Ht].
      apply negb_true_iff in Hg.
      destruct (_transport (session w)) eqn:Ht'; [discriminate|].
      eapply wp_eq; [apply (on_goodbye_lost reason message w Hg Ht')|].
      reflexivity.
    + set (w0 := detach_world
                   (set_session (cleared_for_goodbye sid (session w)) w)).
      pose proof (onLeave_no_stats
                    {| cd_reason := Some reason; cd_message := message |} w0
                    (or_introl (f_equal _session_id (detach_world_session _))))
        as HL.
      destruct (onLeave {| cd_reason := Some reason; cd_message := message |} w0)
        as [r1 w1 t1] eqn:HLe.
      cbn [trace] in HL.
      eapply wp_eq;
        [apply (on_goodbye_split_gen reason message w sid _ _ _ Hsid Hgt HLe)|].
      cbn [result world trace].
      destruct r1 as [e|[]].
      * cbn [app]. rewrite on_stats_app, goodbye_events_not_stats, HL. reflexivity.
      * apply wp_ret. cbn [app].
        rewrite app_nil_r, on_stats_app, goodbye_events_not_stats, HL.
        reflexivity.
  - apply wp_bind. eapply wp_eq; [apply reserve_session_id_run|].
    cbn [result world trace].
    set (w0 := if is_set (_pending_session_id (session w)) then w else _).
    assert (Hsid0 : _session_id (session w0) = None).
    { unfold w0. destruct (is_set (_pending_session_id (session w))); exact Hsid. }
    destruct msg as [realm roles authmethods authid authrole authextra
                    |signature|reason message|reason message|kind];
      try (wp_go; reflexivity).
    + apply wp_bind. apply wp_modify_session. apply wp_bind. apply wp_get_session.
      apply wp_bind. eapply wp_conseq.
      { apply (wp_mute on_stats_published), onHello_calls. reflexivity. }
      intros r w1 t1 Ht1. change (on_stats_publications t1 = []) in Ht1. cbv beta.
      destruct r as [e|f]; [exact Ht1|]. apply wp_ret.
      rewrite app_nil_r. exact Ht1.
    + apply wp_bind. destruct (onAuthenticate_run E signature w0) as [f Hf].
      eapply wp_eq; [exact Hf|]. cbn [result world trace]. apply wp_ret. reflexivity.
    + apply wp_bind. unfold on_abort. apply wp_bind.
      pose proof (onLeave_no_stats
                    {| cd_reason := Some reason; cd_message := message |} w0
                    (or_introl Hsid0)) as HL.
      destruct (onLeave {| cd_reason := Some reason; cd_message := message |} w0)
        as [r1 w1 t1] eqn:HLe.
      cbn [trace] in HL.
      eapply wp_eq; [exact HLe|]. cbn [result world trace].
      destruct r1 as [e|[]]; [exact HL|].
      repeat wp_step. rewrite !app_nil_r. exact HL.
Qed.

Lemma no_stats_no_last_stats tr :
  on_stats_publications tr = [] -> last_stats_publications tr = [].
Proof.
  unfold on_stats_publications, last_stats_publications.
  induction tr as [|e tr IH]; [reflexivity|]. intros H.
  change (match on_stats_published e with
          | Some a => a :: omap on_stats_published tr
          | None => omap on_stats_published tr
          end = []) in H.
  change (match last_stats_published e with
          | Some a => a :: omap last_stats_published tr
          | None => omap last_stats_published tr
          end = []).
  unfold last_stats_published at 1.
  destruct (on_stats_published e); [discriminate|]. apply IH, H.
Qed.

Lemma mark_stats_last first last stats :
  mark_stats first last stats !! "last" = Some (ABool last).
Proof. unfold mark_stats. apply lookup_insert_eq. Qed.

Lemma first_stats_not_last svc info stats sid :
  last_stats_published
    (EvPublish svc "wamp.session.on_stats"
       [PDict info; PDict (mark_stats true false stats)] sid) = None.
Proof.
  unfold last_stats_published. cbn [on_stats_published].
  change ("wamp.session.on_stats" =? "wamp.session.on_stats") with true.
  cbv iota. unfold marked_last. rewrite mark_stats_last. reflexivity.
Qed.

Lemma onJoin_no_last_stats details :
  mute last_stats_published (onJoin details).
Proof.
  unfold onJoin, join_cookie, join_router, join_stats. mute_auto.
  all: try (apply mute_emit; apply first_stats_not_last).
Qed.

Lemma welcome_no_last_stats E realm authid authrole authmethod authprovider
    authextra custom :
  mute last_stats_published
    (welcome E realm authid authrole authmethod authprovider authextra custom).
Proof. unfold welcome. mute_auto; apply onJoin_no_last_stats. Qed.

Lemma fire_no_last_stats E cb : mute last_stats_published (fire E cb).
Proof.
  unfold fire, onHello_success, onHello_error, onAuthenticate_success,
    onAuthenticate_error, _swallow_error_and_abort.
  destruct cb as [[res|err]|[res|err]]; mute_auto;
    apply welcome_no_last_stats.
Qed.

(** X5.  While a message is handled, the callbacks of the handshake
    future included, no [wamp.session.on_stats] publication that is
    marked as the last one ([last = True]) is made, in any state and
    for any message: wherever [onMessage] reaches [onLeave], the
    session id is cleared by then, so the branch of [onLeave] that
    publishes the last statistics is not taken, and the statistics
    [onJoin] may publish are marked [last = False]. *)
Theorem message_handling_publishes_no_last_stats (E : Env) (rnd : Random)
    (msg : Msg) (cb : Callback) (w : World) :
  last_stats_publications (trace (onMessage_begin E rnd msg w)) = []
  /\ last_stats_publications (trace (fire E cb w)) = []
  /\ last_stats_publications (trace (onMessage E rnd msg w)) = [].
Proof.
  assert (Hbegin : mute last_stats_published (onMessage_begin E rnd msg)).
  { intros w0. apply no_stats_no_last_stats, onMessage_begin_no_stats. }
  split; [apply Hbegin|]. split; [apply fire_no_last_stats|].
  unfold onMessage. apply mute_bind; [exact Hbegin|].
  intros [cb0|]; [apply fire_no_last_stats|apply mute_ret].
Qed.

Lemma onLeave_swallowed_no_stats details w :
  _transport (session w) = None ->
  wp (try_except (onLeave details) (fun _ => ret tt))
     (fun r _ t1 => r = inr tt /\ on_stats_publications t1 = []) w.
Proof.
  intros Ht. pose proof (onLeave_no_stats details w (or_intror Ht)) as HL.
  unfold wp, try_except, ret.
  destruct (onLeave details w) as [[e|[]] w1 t1]; cbn [trace result] in *.
  - rewrite app_nil_r. split; [reflexivity|exact HL].
  - split; [reflexivity|exact HL].
Qed.

Lemma on_stats_cons e tr :
  on_stats_publications (e :: tr)
  = match on_stats_published e with
    | Some a => a :: on_stats_publications tr
    | None => on_stats_publications tr
    end.
Proof. reflexivity. Qed.

(** X6.  [onClose] publishes [wamp.session.on_stats] exactly once when
    the session has a service session and its transport, and never
    otherwise: always with [first = False] and [last = True], whether
    or not statistics are enabled for the realm and whether or not an
    earlier statistics event was published; the last statistics of
    [onLeave] are not published, as the transport is dropped before
    [onLeave] is called. *)
Theorem onClose_publishes_last_stats_once (wasClean : bool) (w : World) :
  on_stats_publications (trace (onClose wasClean w))
  = match _service_session (session w), _transport (session w) with
    | Some _, Some t =>
        [[PDict (session_info_short (_session_id (session w))
                   (_realm (session w)) (_authid (session w))
                   (_authrole (session w)));
          PDict (mark_stats false true (serializer_stats t))]]
    | _, _ => []
    end.
Proof.
  change (wp (onClose wasClean) (fun _ _ t1 =>
    on_stats_publications t1
    = match _service_session (session w), _transport (session w) with
      | Some _, Some t =>
          [[PDict (session_info_short (_session_id (session w))
                     (_realm (session w)) (_authid (session w))
                     (_authrole (session w)));
            PDict (mark_stats false true (serializer_stats t))]]
      | _, _ => []
      end) w).
  assert (Htail : forall w0,
    wp (modify_session (set_transport None) ;;
        match _session_id (session w) with
        | Some _ =>
            try_except (onLeave {| cd_reason := None; cd_message := None |})
                       (fun _ => ret tt) ;;
            try_except router_detach (fun _ => ret tt) ;;
            modify_session (set_session_id None)
        | None => ret tt
        end ;;
        modify_session (set_previous_session_id None) ;;
        modify_session (set_pending_session_id None) ;;
        modify_session (set_authid None) ;;
        modify_session (set_authrole None) ;;
        modify_session (set_authmethod None) ;;
        modify_session (set_authprovider None))
       (fun _ _ t1 => on_stats_publications t1 = []) w0).
  { intros w0. apply wp_bind, wp_modify_session. apply wp_bind.
    destruct (_session_id (session w)).
    - apply wp_bind. eapply wp_conseq.
      { apply onLeave_swallowed_no_stats. reflexivity. }
      intros r w1 t1 [-> Ht1]. cbv beta.
      apply wp_bind. eapply wp_eq; [apply detach_swallowed_run|].
      cbn [result world trace]. apply wp_modify_session.
      repeat wp_step.
      cbn [app]. rewrite ?app_nil_r, !on_stats_app, Ht1, detach_events_not_stats.
      reflexivity.
    - apply wp_ret. repeat wp_step. reflexivity. }
  unfold onClose. apply wp_bind, wp_get_session. apply wp_bind.
  destruct (_service_session (session w)) as [svc|].
  - unfold the_transport. apply wp_bind, wp_bind, wp_get_session.
    destruct (_transport (session w)) as [t|].
    + apply wp_ret. cbn [app]. unfold service_publish.
      apply wp_bind, wp_get_session. apply wp_emit. cbn [app].
      eapply wp_conseq; [apply Htail|]. intros r w1 t1 H. cbv beta.
      rewrite on_stats_cons, H. reflexivity.
    + apply wp_raise. reflexivity.
  - apply wp_ret. cbn [app].
    eapply wp_conseq; [apply Htail|]. intros r w1 t1 H. cbv beta.
    rewrite H. destruct (_transport (session w)); reflexivity.
Qed.

(** ** [onClose] of a joined session *)

(** [onLeave] as [onClose] calls it: the transport is gone, the id is
    still set, there is no reason. *)
Lemma onLeave_closed w sid :
  _session_id (session w) = Some sid ->
  _transport (session w) = None ->
  wp (onLeave {| cd_reason := None; cd_message := None |}) (fun _ w1 t1 =>
    t1 = (router_events (session w) {| cd_reason := None; cd_message := None |}
          ++ match _service_session (session w) with
             | Some svc =>
                 [EvPublish svc "wamp.session.on_leave" [PSession (Some sid)]
                    (Some sid)]
             | None => []
             end)%list
    /\ _router (session w1) = _router (session w)
    /\ attached w1 = attached w) w.
Proof.
  intros Hsid Ht. unfold onLeave. apply wp_bind.
  eapply wp_eq; [apply leave_router_run|]. cbn [result world trace].
  apply wp_bind. unfold leave_publish. apply wp_bind, wp_get_session.
  rewrite Hsid. destruct (_service_session (session w)) as [svc|].
  - apply wp_bind. unfold service_publish. apply wp_bind, wp_get_session.
    apply wp_emit. rewrite Hsid. unfold leave_stats.
    apply wp_bind, wp_get_session. cbn [app]. apply wp_bind, wp_read_attr.
    destruct (_stats_enabled (session w)) as [[|]|];
      [apply wp_bind, wp_read_attr;
       destruct (_stats_trigger_on_leave (session w)) as [[|]|];
       [rewrite Ht|..]|..];
      try (apply wp_ret; repeat wp_step; rewrite ?app_nil_r;
           repeat split; reflexivity);
      rewrite ?app_nil_r; repeat split; reflexivity.
  - apply wp_ret. repeat wp_step. rewrite ?app_nil_r. repeat split; reflexivity.
Qed.

Lemma on_leave_app a b :
  on_leave_publications (a ++ b)
  = (on_leave_publications a ++ on_leave_publications b)%list.
Proof. apply omap_app. Qed.

Lemma detach_events_not_published w :
  on_leave_publications (detach_events w) = [].
Proof.
  unfold detach_events. destruct (_router (session w)) as [r|]; [|reflexivity].
  destruct (bool_decide (r ∈ attached w)); reflexivity.
Qed.

Lemma detach_events_eq w w1 :
  _router (session w1) = _router (session w) ->
  attached w1 = attached w ->
  detach_events w1 = detach_events w.
Proof. intros Hr Ha. unfold detach_events. rewrite Hr, Ha. reflexivity. Qed.

(** X7.  [onClose] of a joined session, in the order of the code: the
    last statistics (if there is a service session), then [onLeave]
    (the testaments, [_session_left], and the [wamp.session.on_leave]
    meta-event), and only then the detaching from the router.  Unlike
    in the handling of GOODBYE, the meta-event is published while
    [_session_id] is still set. *)
Theorem onClose_publishes_on_leave_before_detaching (wasClean : bool)
    (w : World) (sid : Id) (t : Transport) :
  _session_id (session w) = Some sid ->
  _transport (session w) = Some t ->
  let o := onClose wasClean w in
  let no_details := {| cd_reason := None; cd_message := None |} in
  trace o
  = (match _service_session (session w) with
     | Some svc =>
         [EvPublish svc "wamp.session.on_stats"
            [PDict (session_info_short (Some sid) (_realm (session w))
                      (_authid (session w)) (_authrole (session w)));
             PDict (mark_stats false true (serializer_stats t))]
            (Some sid)]
     | None => []
     end
     ++ router_events (session w) no_details
     ++ match _service_session (session w) with
        | Some svc =>
            [EvPublish svc "wamp.session.on_leave" [PSession (Some sid)]
               (Some sid)]
        | None => []
        end
     ++ detach_events w)%list
  /\ on_leave_publications (trace o)
     = match _service_session (session w) with
       | Some _ => [([PSession (Some sid)], Some sid)]
       | None => []
       end
  /\ Forall (fun p => may_reach_publisher (snd p) = true)
       (on_leave_publications (trace o)).
Proof.
  intros Hsid Ht. cbv zeta.
  set (no_details := {| cd_reason := None; cd_message := None |}).
  set (expected := (_ ++ _ ++ _ ++ _)%list).
  assert (Htrace : trace (onClose wasClean w) = expected).
  { change (wp (onClose wasClean) (fun _ _ t1 => t1 = expected) w).
    unfold onClose. apply wp_bind, wp_get_session. rewrite Hsid.
    assert (Htail : forall w0 pre,
      session w0 = session w -> attached w0 = attached w ->
      (pre ++ router_events (session w) no_details
           ++ match _service_session (session w) with
              | Some svc =>
                  [EvPublish svc "wamp.session.on_leave" [PSession (Some sid)]
                     (Some sid)]
              | None => []
              end
           ++ detach_events w)%list = expected ->
      wp (modify_session (set_transport None) ;;
          (try_except (onLeave no_details) (fun _ => ret tt) ;;
           try_except router_detach (fun _ => ret tt) ;;
           modify_session (set_session_id None)) ;;
          modify_session (set_previous_session_id None) ;;
          modify_session (set_pending_session_id None) ;;
          modify_session (set_authid None) ;;
          modify_session (set_authrole None) ;;
          modify_session (set_authmethod None) ;;
          modify_session (set_authprovider None))
         (fun _ _ t1 => (pre ++ t1)%list = expected) w0).
    { intros w0 pre Hs0 Ha0 Hexp. apply wp_bind, wp_modify_session.
      apply wp_bind, wp_bind, wp_try_except.
      eapply wp_conseq.
      { apply (onLeave_closed _ sid); cbn [session set_session]; rewrite Hs0;
          [exact Hsid|reflexivity]. }
      cbn [session set_session attached]. rewrite Hs0.
      change (_service_session (set_transport None (session w)))
        with (_service_session (session w)).
      change (router_events (set_transport None (session w)) no_details)
        with (router_events (session w) no_details).
      change (_router (set_transport None (session w)))
        with (_router (session w)).
      intros r w1 t1 (-> & Hr1 & Ha1).
      assert (Hd : detach_events w1 = detach_events w).
      { apply detach_events_eq; [exact Hr1|]. rewrite Ha1. exact Ha0. }
      destruct r as [e|[]].
      - apply wp_ret. apply wp_bind.
        eapply wp_eq; [apply detach_swallowed_run|]. cbn [result world trace].
        repeat wp_step. rewrite Hd, ?app_nil_r, <- ?app_assoc in *.
        exact Hexp.
      - apply wp_bind.
        eapply wp_eq; [apply detach_swallowed_run|]. cbn [result world trace].
        repeat wp_step. rewrite Hd, ?app_nil_r, <- ?app_assoc in *.
        exact Hexp. }
    apply wp_bind. unfold expected.
    destruct (_service_session (session w)) as [svc|].
    - unfold the_transport. apply wp_bind, wp_bind, wp_get_session.
      rewrite Ht. apply wp_ret. unfold service_publish.
      apply wp_bind, wp_get_session. apply wp_emit. rewrite Hsid.
      cbn [app]. apply (Htail w [_]); reflexivity.
    - apply wp_ret. cbn [app]. apply (Htail w []); reflexivity. }
  rewrite Htrace. unfold expected.
  assert (Hpub : on_leave_publications
            (match _service_session (session w) with
             | Some svc =>
                 [EvPublish svc "wamp.session.on_stats"
                    [PDict (session_info_short (Some sid) (_realm (session w))
                              (_authid (session w)) (_authrole (session w)));
                     PDict (mark_stats false true (serializer_stats t))]
                    (Some sid)]
             | None => []
             end
             ++ router_events (session w) no_details
             ++ match _service_session (session w) with
                | Some svc =>
                    [EvPublish svc "wamp.session.on_leave" [PSession (Some sid)]
                       (Some sid)]
                | None => []
                end
             ++ detach_events w)
          = match _service_session (session w) with
            | Some _ => [([PSession (Some sid)], Some sid)]
            | None => []
            end).
  { rewrite !on_leave_app, router_events_not_published,
      detach_events_not_published.
    destruct (_service_session (session w)); reflexivity. }
  split; [reflexivity|]. split; [exact Hpub|]. rewrite Hpub.
  destruct (_service_session (session w)); repeat constructor.
Qed.

Lemma onClose_publishes_on_leave_before_detaching_witness :
  let o := onClose true world_joined in
  on_leave_publications (trace o) = [([PSession (Some 7%positive)], Some 7%positive)]
  /\ exists e1 e2, trace o
       = [e1; e2;
          EvPublish "realm1" "wamp.session.on_leave" [PSession (Some 7%positive)]
            (Some 7%positive);
          EvDetach "realm1"].
Proof.
  cbv zeta.
  destruct (onClose_publishes_on_leave_before_detaching true world_joined
              7%positive transport0)
    as (Ht & Hp & _); [vm_compute; reflexivity..|].
  split; [rewrite Hp; vm_compute; reflexivity|].
  rewrite Ht. vm_compute. eexists. eexists. reflexivity.
Defined.
